(** * The hybrid bridge: rate limiter, circuit breaker, cache and orchestrator

    A shallow embedding of [examples/hybrid-bridge.py] (classes
    [AgentOSClient], [RateLimiter], [CircuitBreaker], [HybridAgentBridge])
    and of the [Message] / [Response] dataclasses of
    [examples/agno-prototype.py].

    Modelling conventions.
    - Python floats (wall-clock readings, token counts, latencies) are
      exact rationals [Q]; Python ints used as counters are [Z].
    - The wall clock is an oracle [clock : nat -> Q]: the [i]-th reading of
      [time.time()] / [datetime.now()] made by the program is [clock i].
      Nothing is assumed about it unless a theorem says so, so the clock
      may run backwards.
    - The backend ([self.prototype.execute]) is an oracle too: its [i]-th
      invocation on message [m] has outcome [prototype_execute i m]: it
      returns a [Response], raises, or is cancelled while awaited.
    - Python objects are mutated in place and keep their mutations when an
      exception unwinds; the monad [M] therefore threads the state through
      raised results as well.
    - A call ends in one of three ways: it returns, it raises an
      exception of Python's [Exception] hierarchy, or it is cancelled:
      [asyncio.CancelledError] is raised at its [await], which happens
      when the caller cancels the task or a timeout around it expires.
      Since Python 3.8, which setup.py requires, [CancelledError] derives
      from [BaseException] and no [except Exception] clause catches it.
      The only suspension point of the bridge is the awaited backend, so
      the backend oracle is where a cancellation enters. *)

From Stdlib Require Import QArith Qminmax ZArith List String Lia Lqa.
From stdpp Require Import base option gmap strings pretty.
Import ListNotations.

Local Open Scope Q_scope.

(** ** Numbers *)

(** Python's [a < b] and [a >= b] on numbers. *)
Definition Qltb (a b : Q) : bool :=
  match a ?= b with Lt => true | _ => false end.

Definition Qgeb (a b : Q) : bool := Qle_bool b a.

(** Python's two-argument [min(a, b)]: the first argument wins a tie. *)
Definition py_min (a b : Q) : Q := if Qltb b a then b else a.

(** Python's [int(x)]: truncation toward zero. *)
Definition py_int (x : Q) : Z := Z.quot (Qnum x) (Zpos (Qden x)).

(** ** Exceptions and results *)

(** An exception object: [Exception(msg)] itself, the [TypeError] of
    [float - None], or any other subclass of [Exception] by class name. *)
Inductive PyExc : Type :=
| Exception (msg : string)
| TypeError (msg : string)
| OtherException (class_name msg : string).

(** [str(e)]. *)
Definition exc_str (e : PyExc) : string :=
  match e with
  | Exception msg | TypeError msg | OtherException _ msg => msg
  end.

(** The outcome of a call: a value, an exception of the [Exception]
    hierarchy, or the [asyncio.CancelledError] of a cancelled await. *)
Inductive Res (A : Type) : Type :=
| Returned (a : A)
| Raised (e : PyExc)
| Cancelled.
Arguments Returned {A} a.
Arguments Raised {A} e.
Arguments Cancelled {A}.

(** ** Dataclasses of agno-prototype.py *)

Record Message : Type := mkMessage {
  m_content : string;
  m_timestamp : Q;
  m_user_id : string;
  m_metadata : option (list (string * string))
}.

Record Response : Type := mkResponse {
  content : string;
  confidence : Q;
  processing_time : Q;
  tools_used : list string;
  success : bool
}.

(** ** The effect monad

    [Ext] is the part of the world outside the bridge objects: how many
    clock readings have been consumed and how many times the backend has
    been invoked. A computation over an object of type [S] maps the
    external state and the object to a result and their new values. *)

Record Ext : Type := mkExt { ticks : nat; handler_calls : nat }.

Definition M (S A : Type) : Type := Ext -> S -> Res A * Ext * S.

Definition m_ret {S A} (a : A) : M S A := fun x s => (Returned a, x, s).

Definition m_bind {S A B} (f : A -> M S B) (m : M S A) : M S B :=
  fun x s =>
    match m x s with
    | (Returned a, x', s') => f a x' s'
    | (Raised e, x', s') => (Raised e, x', s')
    | (Cancelled, x', s') => (Cancelled, x', s')
    end.

#[global] Instance M_ret {S} : MRet (M S) := @m_ret S.
#[global] Instance M_bind {S} : MBind (M S) := @m_bind S.

Definition raise {S A} (e : PyExc) : M S A := fun x s => (Raised e, x, s).

(** [try: body  except Exception as e: handler e]. A cancellation is no
    [Exception] and passes through. *)
Definition try_except {S A} (body : M S A) (handler : PyExc -> M S A) : M S A :=
  fun x s =>
    match body x s with
    | (Raised e, x', s') => handler e x' s'
    | r => r
    end.

Definition get {S} : M S S := fun x s => (Returned s, x, s).
Definition put {S} (s : S) : M S unit := fun x _ => (Returned tt, x, s).
Definition modify {S} (f : S -> S) : M S unit := fun x s => (Returned tt, x, f s).

(** Run a computation on a component [T] of the object [S]. *)
Definition zoom {S T A} (proj : S -> T) (upd : T -> S -> S) (m : M T A) : M S A :=
  fun x s =>
    match m x (proj s) with
    | (r, x', t') => (r, x', upd t' s)
    end.

(** Run a computation that touches no object at all. *)
Definition lift_ext {S A} (m : M unit A) : M S A :=
  zoom (fun _ => tt) (fun _ s => s) m.

(** One more clock reading has been consumed. *)
Definition tick (x : Ext) : Ext := mkExt (S (ticks x)) (handler_calls x).

(** The environment: wall clock, backend and Python's [hash] on [str]. *)
Record Env : Type := mkEnv {
  clock : nat -> Q;
  prototype_execute : nat -> Message -> Res Response;
  hash : string -> Z
}.

Section Bridge.

Variable env : Env.

(** [time.time()] (and [datetime.now()]): the next reading of the clock. *)
Definition time_time {S} : M S Q :=
  fun x s => (Returned (clock env (ticks x)), tick x, s).

(** [await self.prototype.execute(message)]. *)
Definition await_prototype (message : Message) : M unit Response :=
  fun x s =>
    (prototype_execute env (handler_calls x) message,
     mkExt (ticks x) (S (handler_calls x)), s).

(** ** RateLimiter *)

Record RateLimiter : Type := mkRateLimiter {
  rate : Q;
  capacity : Q;
  tokens : Q;
  last_update : Q
}.

(** [RateLimiter.__init__]. *)
Definition RateLimiter_init (rate capacity : Q) : M unit RateLimiter :=
  now ← time_time;
  mret (mkRateLimiter rate capacity capacity now).

(** The body of [RateLimiter.acquire] once [now = time.time()] is read.
    The arithmetic is that of the rationals: the rounding of binary64 in
    [elapsed * self.rate], in the sum and in the difference is not
    modelled. *)
Definition acquire_at (now : Q) (n : Q) (rl : RateLimiter) : bool * RateLimiter :=
  let elapsed := now - last_update rl in
  let refilled := py_min (capacity rl) (tokens rl + elapsed * rate rl) in
  if Qgeb refilled n
  then (true, mkRateLimiter (rate rl) (capacity rl) (refilled - n) now)
  else (false, mkRateLimiter (rate rl) (capacity rl) refilled now).

(** [RateLimiter.acquire(tokens)]. *)
Definition acquire (n : Q) : M RateLimiter bool :=
  now ← time_time;
  rl ← get;
  let '(ok, rl') := acquire_at now n rl in
  put rl';;
  mret ok.

(** ** CircuitBreaker *)

Inductive BreakerState : Type := closed | open | half_open.

Record CircuitBreaker : Type := mkCircuitBreaker {
  failure_threshold : Z;
  timeout : Q;
  failures : Z;
  last_failure : option Q;
  state : BreakerState
}.

(** [CircuitBreaker.__init__(failure_threshold=5, timeout=60.0)]. *)
Definition CircuitBreaker_init (failure_threshold : Z) (timeout : Q) : CircuitBreaker :=
  mkCircuitBreaker failure_threshold timeout 0%Z None closed.

Definition set_state (st : BreakerState) (cb : CircuitBreaker) : CircuitBreaker :=
  mkCircuitBreaker (failure_threshold cb) (timeout cb) (failures cb) (last_failure cb) st.
Definition set_failures (n : Z) (cb : CircuitBreaker) : CircuitBreaker :=
  mkCircuitBreaker (failure_threshold cb) (timeout cb) n (last_failure cb) (state cb).
Definition set_last_failure (t : Q) (cb : CircuitBreaker) : CircuitBreaker :=
  mkCircuitBreaker (failure_threshold cb) (timeout cb) (failures cb) (Some t) (state cb).

(** The guard at the top of [CircuitBreaker.call]: an open breaker reads
    the clock and either moves to half-open or raises. With
    [last_failure = None] the subtraction raises [TypeError]. *)
Definition call_guard : M CircuitBreaker unit :=
  cb ← get;
  match state cb with
  | open =>
      now ← time_time;
      match last_failure cb with
      | None => raise (TypeError "unsupported operand type(s) for -: 'float' and 'NoneType'")
      | Some lf =>
          if Qltb (timeout cb) (now - lf)
          then put (set_state half_open cb)
          else raise (Exception "Circuit breaker is open")
      end
  | _ => mret tt
  end.

(** The [try] block of [CircuitBreaker.call] after [func] returned. *)
Definition call_returned : M CircuitBreaker unit :=
  cb ← get;
  match state cb with
  | half_open => put (set_failures 0%Z (set_state closed cb))
  | _ => mret tt
  end.

(** The [except Exception as e] block of [CircuitBreaker.call]. *)
Definition call_except {A} (e : PyExc) : M CircuitBreaker A :=
  modify (fun cb => set_failures (failures cb + 1)%Z cb);;
  now ← time_time;
  modify (set_last_failure now);;
  cb ← get;
  (if (failures cb >=? failure_threshold cb)%Z
   then put (set_state open cb)
   else mret tt);;
  raise e.

(** The [try ... except] statement of [CircuitBreaker.call]; [func] is
    the awaited operation, which lives outside the breaker object. *)
Definition call_try {A} (func : M unit A) : M CircuitBreaker A :=
  try_except
    (result ← lift_ext func;
     call_returned;;
     mret result)
    call_except.

(** [CircuitBreaker.call(func, *args)]. *)
Definition call {A} (func : M unit A) : M CircuitBreaker A :=
  call_guard;;
  call_try func.

(** ** AgentOSClient *)

Record Metric : Type := mkMetric {
  metric_name : string;
  metric_value : Q;
  metric_timestamp : Q;
  metric_labels : list (string * string)
}.

(** The metadata dictionaries handed to [end_trace]. *)
Inductive TraceMeta : Type :=
| TraceSuccess (latency : Q) (tools : list string)
| TraceFailure (error : string) (latency : Q).

(** [config] is a constant and is left out. Two fields stand for the
    sinks behind the client, oldest entry first: [monitoring_backend]
    holds the metrics that [_flush_metrics] handed over, [traces] what
    [end_trace] reported. *)
Record AgentOSClient : Type := mkAgentOSClient {
  metrics_buffer : list Metric;
  trace_id : option string;
  monitoring_backend : list Metric;
  traces : list (string * TraceMeta)
}.

Definition AgentOSClient_init : AgentOSClient := mkAgentOSClient [] None [] [].

(** [AgentOSClient.start_trace]. *)
Definition start_trace : M AgentOSClient string :=
  now ← time_time;
  let tid := ("trace-" +:+ pretty (py_int (now * 1000)))%string in
  modify (fun c => mkAgentOSClient (metrics_buffer c) (Some tid)
                     (monitoring_backend c) (traces c));;
  mret tid.

(** [AgentOSClient.end_trace]. *)
Definition end_trace (tid : string) (metadata : TraceMeta) : M AgentOSClient unit :=
  modify (fun c => mkAgentOSClient (metrics_buffer c) (trace_id c)
                     (monitoring_backend c) (traces c ++ [(tid, metadata)])).

(** [AgentOSClient._flush_metrics]. *)
Definition _flush_metrics : M AgentOSClient unit :=
  c ← get;
  match metrics_buffer c with
  | [] => mret tt
  | _ :: _ =>
      put (mkAgentOSClient [] (trace_id c)
             (monitoring_backend c ++ metrics_buffer c) (traces c))
  end.

(** [AgentOSClient.record_metric(name, value, labels)]; [labels or {}] is
    the list itself, an absent argument being the empty list. *)
Definition record_metric (name : string) (value : Q) (labels : list (string * string))
  : M AgentOSClient unit :=
  now ← time_time;
  modify (fun c => mkAgentOSClient
                     (metrics_buffer c ++ [mkMetric name value now labels])
                     (trace_id c) (monitoring_backend c) (traces c));;
  c ← get;
  if (10 <=? length (metrics_buffer c))%nat then _flush_metrics else mret tt.

(** ** HybridAgentBridge *)

Record CacheEntry : Type := mkCacheEntry {
  entry_response : Response;
  entry_timestamp : Q
}.

Record HybridAgentBridge : Type := mkBridge {
  agent_os : AgentOSClient;
  rate_limiter : RateLimiter;
  circuit_breaker : CircuitBreaker;
  cache : gmap string CacheEntry;
  cache_ttl : Q;
  request_count : Z;
  error_count : Z;
  total_latency : Q
}.

Definition set_agent_os (c : AgentOSClient) (b : HybridAgentBridge) :=
  mkBridge c (rate_limiter b) (circuit_breaker b) (cache b) (cache_ttl b)
    (request_count b) (error_count b) (total_latency b).
Definition set_rate_limiter (rl : RateLimiter) (b : HybridAgentBridge) :=
  mkBridge (agent_os b) rl (circuit_breaker b) (cache b) (cache_ttl b)
    (request_count b) (error_count b) (total_latency b).
Definition set_circuit_breaker (cb : CircuitBreaker) (b : HybridAgentBridge) :=
  mkBridge (agent_os b) (rate_limiter b) cb (cache b) (cache_ttl b)
    (request_count b) (error_count b) (total_latency b).
Definition set_cache (c : gmap string CacheEntry) (b : HybridAgentBridge) :=
  mkBridge (agent_os b) (rate_limiter b) (circuit_breaker b) c (cache_ttl b)
    (request_count b) (error_count b) (total_latency b).
Definition set_request_count (n : Z) (b : HybridAgentBridge) :=
  mkBridge (agent_os b) (rate_limiter b) (circuit_breaker b) (cache b) (cache_ttl b)
    n (error_count b) (total_latency b).
Definition set_error_count (n : Z) (b : HybridAgentBridge) :=
  mkBridge (agent_os b) (rate_limiter b) (circuit_breaker b) (cache b) (cache_ttl b)
    (request_count b) n (total_latency b).
Definition set_total_latency (l : Q) (b : HybridAgentBridge) :=
  mkBridge (agent_os b) (rate_limiter b) (circuit_breaker b) (cache b) (cache_ttl b)
    (request_count b) (error_count b) l.

Definition on_agent_os {A} : M AgentOSClient A -> M HybridAgentBridge A :=
  zoom agent_os set_agent_os.
Definition on_rate_limiter {A} : M RateLimiter A -> M HybridAgentBridge A :=
  zoom rate_limiter set_rate_limiter.
Definition on_circuit_breaker {A} : M CircuitBreaker A -> M HybridAgentBridge A :=
  zoom circuit_breaker set_circuit_breaker.

(** [HybridAgentBridge.__init__]; the only clock reading is the one of
    [RateLimiter(rate=100, capacity=1000)]. *)
Definition HybridAgentBridge_init : M unit HybridAgentBridge :=
  rl ← RateLimiter_init 100 1000;
  mret (mkBridge AgentOSClient_init rl (CircuitBreaker_init 5 60) ∅ 300 0%Z 0%Z 0).

(** [_get_cache_key]: [f"msg:{hash(message.content)}"]. *)
Definition _get_cache_key (message : Message) : string :=
  ("msg:" +:+ pretty (hash env (m_content message)))%string.

(** [_check_cache]: the clock is read only when the key is present. *)
Definition _check_cache (key : string) : M HybridAgentBridge (option Response) :=
  b ← get;
  match cache b !! key with
  | Some entry =>
      now ← time_time;
      if Qltb (now - entry_timestamp entry) (cache_ttl b)
      then mret (Some (entry_response entry))
      else (modify (fun b => set_cache (delete key (cache b)) b);; mret None)
  | None => mret None
  end.

(** [_update_cache]. *)
Definition _update_cache (key : string) (response : Response) : M HybridAgentBridge unit :=
  now ← time_time;
  modify (fun b => set_cache (<[key := mkCacheEntry response now]> (cache b)) b).

(** The text of the [Response] built by the [except] block of [execute]. *)
Definition error_content : string :=
  "I apologize, but I encountered an error. Please try again.".

(** The [except Exception as e] block of [HybridAgentBridge.execute]. *)
Definition execute_except (tid : string) (start_time : Q) (e : PyExc)
  : M HybridAgentBridge Response :=
  modify (fun b => set_error_count (error_count b + 1)%Z b);;
  now ← time_time;
  let latency := now - start_time in
  on_agent_os (record_metric "request_error" 1 []);;
  b ← get;
  on_agent_os (record_metric "error_rate"
                 (inject_Z (error_count b) / inject_Z (Z.max (request_count b) 1)) []);;
  on_agent_os (end_trace tid (TraceFailure (exc_str e) latency));;
  mret (mkResponse error_content 0 latency [] false).

(** The rest of the [try] block of [HybridAgentBridge.execute] after a
    cache miss: the guarded backend call and the success bookkeeping. *)
Definition execute_miss (tid : string) (start_time : Q) (cache_key : string)
    (message : Message) : M HybridAgentBridge Response :=
  response ← on_circuit_breaker (call (await_prototype message));
  _update_cache cache_key response;;
  now ← time_time;
  let latency := now - start_time in
  modify (fun b => set_request_count (request_count b + 1)%Z b);;
  modify (fun b => set_total_latency (total_latency b + latency) b);;
  on_agent_os (record_metric "request_success" 1 []);;
  on_agent_os (record_metric "response_time" (latency * 1000) []);;
  on_agent_os (record_metric "confidence" (confidence response)
                 [("intent", substring 0 20 (content response))]);;
  on_agent_os (end_trace tid (TraceSuccess latency (tools_used response)));;
  mret response.

(** The [try] block of [HybridAgentBridge.execute]. *)
Definition execute_try (tid : string) (start_time : Q) (message : Message)
  : M HybridAgentBridge Response :=
  acquired ← on_rate_limiter (acquire 1);
  if negb acquired then raise (Exception "Rate limit exceeded - please retry")
  else
    let cache_key := _get_cache_key message in
    cached_response ← _check_cache cache_key;
    match cached_response with
    | Some r =>
        on_agent_os (record_metric "cache_hit" 1 []);;
        mret r
    | None => execute_miss tid start_time cache_key message
    end.

(** [HybridAgentBridge.execute(message)]. *)
Definition execute (message : Message) : M HybridAgentBridge Response :=
  tid ← on_agent_os start_trace;
  start_time ← time_time;
  try_except (execute_try tid start_time message) (execute_except tid start_time).

End Bridge.

(** ** Sessions: one object serving a sequence of calls

    [acquire_each] follows [test_rate_limiter] of tests/test_framework.py. *)

Fixpoint acquire_each (env : Env) (costs : list Q) : M RateLimiter (list bool) :=
  match costs with
  | [] => mret []
  | n :: rest =>
      ok ← acquire env n;
      oks ← acquire_each env rest;
      mret (ok :: oks)
  end.

(** A fresh limiter followed by the given acquisitions: the answers and
    the limiter left behind. *)
Definition limiter_session (env : Env) (rate capacity : Q) (costs : list Q) (x : Ext)
  : list bool * RateLimiter :=
  match RateLimiter_init env rate capacity x tt with
  | (Returned rl, x', _) =>
      match acquire_each env costs x' rl with
      | (Returned oks, _, rl') => (oks, rl')
      | (_, _, rl') => ([], rl')
      end
  | (_, _, _) => ([], mkRateLimiter rate capacity capacity 0)
  end.

(** Run a computation and hand back its outcome instead of unwinding:
    what the caller of the call observes. *)
Definition attempt {S A} (m : M S A) : M S (Res A) :=
  fun x s => match m x s with (r, x', s') => (Returned r, x', s') end.

(** A fresh breaker guarding one backend call per message. *)
Fixpoint call_each (env : Env) (messages : list Message)
  : M CircuitBreaker (list (Res Response)) :=
  match messages with
  | [] => mret []
  | m :: rest =>
      r ← attempt (call env (await_prototype env m));
      rs ← call_each env rest;
      mret (r :: rs)
  end.

Definition breaker_session (env : Env) (threshold : Z) (timeout : Q)
    (messages : list Message) (x : Ext) : Res (list (Res Response)) * Ext * CircuitBreaker :=
  call_each env messages x (CircuitBreaker_init threshold timeout).

(** The breakers a program can hold: a fresh one, and whatever [call]
    leaves behind, either when it is over or while the operation is
    awaited (after the guard). *)
Inductive reachable (env : Env) : CircuitBreaker -> Prop :=
| reach_init (threshold : Z) (timeout : Q) :
    reachable env (CircuitBreaker_init threshold timeout)
| reach_guard (x : Ext) (cb : CircuitBreaker) :
    reachable env cb -> reachable env (snd (call_guard env x cb))
| reach_call (A : Type) (func : M unit A) (x : Ext) (cb : CircuitBreaker) :
    reachable env cb -> reachable env (snd (call env func x cb)).

(** A fresh bridge serving the messages one after the other. *)
Fixpoint execute_each (env : Env) (messages : list Message)
  : M HybridAgentBridge (list (Res Response)) :=
  match messages with
  | [] => mret []
  | m :: rest =>
      r ← attempt (execute env m);
      rs ← execute_each env rest;
      mret (r :: rs)
  end.

Definition bridge_session (env : Env) (messages : list Message)
  : M unit (list (Res Response) * HybridAgentBridge) :=
  fun x u =>
    match HybridAgentBridge_init env x tt with
    | (Returned b, x', _) =>
        match execute_each env messages x' b with
        | (Returned rs, x'', b') => (Returned (rs, b'), x'', u)
        | (Raised e, x'', _) => (Raised e, x'', u)
        | (Cancelled, x'', _) => (Cancelled, x'', u)
        end
    | (Raised e, x', _) => (Raised e, x', u)
    | (Cancelled, x', _) => (Cancelled, x', u)
    end.

(** ** Closed forms of the telemetry operations *)

(** The identifier chosen by [start_trace] at clock reading [now]. *)
Definition trace_name (now : Q) : string :=
  ("trace-" +:+ pretty (py_int (now * 1000)))%string.

(** The client after [start_trace] returned [tid]. *)
Definition started (tid : string) (c : AgentOSClient) : AgentOSClient :=
  mkAgentOSClient (metrics_buffer c) (Some tid) (monitoring_backend c) (traces c).

(** The client after [record_metric] at clock reading [now]. *)
Definition recorded (now : Q) (name : string) (value : Q) (labels : list (string * string))
    (c : AgentOSClient) : AgentOSClient :=
  let buffer := metrics_buffer c ++ [mkMetric name value now labels] in
  if (10 <=? length buffer)%nat
  then mkAgentOSClient [] (trace_id c) (monitoring_backend c ++ buffer) (traces c)
  else mkAgentOSClient buffer (trace_id c) (monitoring_backend c) (traces c).

(** The client after [end_trace]. *)
Definition ended (tid : string) (metadata : TraceMeta) (c : AgentOSClient) : AgentOSClient :=
  mkAgentOSClient (metrics_buffer c) (trace_id c) (monitoring_backend c)
    (traces c ++ [(tid, metadata)]).

(** Every metric recorded so far, flushed or still buffered. *)
Definition all_metrics (c : AgentOSClient) : list Metric :=
  monitoring_backend c ++ metrics_buffer c.

(** The [Response] built by the [except] block of [execute]. *)
Definition error_response (latency : Q) : Response :=
  mkResponse error_content 0 latency [] false.

(** ** Closed forms of the branches of [HybridAgentBridge.execute] *)

(** The bridge after the [except] block ran on [b] from external state
    [x], for the exception [e]. *)
Definition failed_bridge (env : Env) (tid : string) (start_time : Q) (e : PyExc)
    (x : Ext) (b : HybridAgentBridge) : HybridAgentBridge :=
  let latency := clock env (ticks x) - start_time in
  let errors := (error_count b + 1)%Z in
  set_agent_os
    (ended tid (TraceFailure (exc_str e) latency)
       (recorded (clock env (S (S (ticks x)))) "error_rate"
          (inject_Z errors / inject_Z (Z.max (request_count b) 1)) []
          (recorded (clock env (S (ticks x))) "request_error" 1 [] (agent_os b))))
    (set_error_count errors b).

(** The bridge after the success bookkeeping ran on [b] (whose breaker
    already saw the call return [r]) from external state [x]. *)
Definition served_bridge (env : Env) (tid : string) (start_time : Q) (key : string)
    (r : Response) (x : Ext) (b : HybridAgentBridge) : HybridAgentBridge :=
  let latency := clock env (S (ticks x)) - start_time in
  set_agent_os
    (ended tid (TraceSuccess latency (tools_used r))
       (recorded (clock env (S (S (S (S (ticks x)))))) "confidence" (confidence r)
          [("intent", substring 0 20 (content r))]
          (recorded (clock env (S (S (S (ticks x))))) "response_time" (latency * 1000) []
             (recorded (clock env (S (S (ticks x)))) "request_success" 1 []
                (agent_os b)))))
    (set_total_latency (total_latency b + latency)
       (set_request_count (request_count b + 1)%Z
          (set_cache (<[key := mkCacheEntry r (clock env (ticks x))]> (cache b)) b))).

(** The first steps of [execute] started at external state [x] on bridge
    [b]: the trace identifier, the start time, the bridge once the trace
    is started, the answer of the rate limiter, the bridge after it, and
    the cache lookup. *)
Definition trace_of (env : Env) (x : Ext) : string := trace_name (clock env (ticks x)).

Definition start_time_of (env : Env) (x : Ext) : Q := clock env (S (ticks x)).

Definition begun (env : Env) (x : Ext) (b : HybridAgentBridge) : HybridAgentBridge :=
  set_agent_os (started (trace_of env x) (agent_os b)) b.

Definition admission (env : Env) (x : Ext) (b : HybridAgentBridge) : bool * RateLimiter :=
  acquire_at (clock env (S (S (ticks x)))) 1 (rate_limiter b).

Definition granted (env : Env) (x : Ext) (b : HybridAgentBridge) : HybridAgentBridge :=
  set_rate_limiter (snd (admission env x b)) (begun env x b).

Definition cache_lookup (env : Env) (message : Message) (x : Ext) (b : HybridAgentBridge)
  : Res (option Response) * Ext * HybridAgentBridge :=
  _check_cache env (_get_cache_key env message) (tick (tick (tick x))) (granted env x b).

(** ** Closed forms of the branches of [CircuitBreaker.call] *)

(** The breaker after the operation returned. *)
Definition settled (cb : CircuitBreaker) : CircuitBreaker :=
  match state cb with
  | half_open => set_failures 0%Z (set_state closed cb)
  | _ => cb
  end.

(** The breaker after the operation raised and the clock read [now]. *)
Definition counted (now : Q) (cb : CircuitBreaker) : CircuitBreaker :=
  let cb1 := set_last_failure now (set_failures (failures cb + 1)%Z cb) in
  if (failures cb1 >=? failure_threshold cb1)%Z then set_state open cb1 else cb1.

(** The invariant of reachable breakers: off the closed state, the
    failure counter has reached the threshold. *)
Definition tripped (cb : CircuitBreaker) : Prop :=
  state cb <> closed -> (failure_threshold cb <= failures cb)%Z.

(** ** Scenario inputs *)

Definition start : Ext := mkExt 0 0.

Definition sample_message : Message := mkMessage "Can you help me?" 0 "user-005" None.

Definition sample_response : Response :=
  mkResponse "I can help you." 0.95 0.25 ["parser"; "processor"; "generator"] true.

(** A backend that answers every request. *)
Definition answering (i : nat) (m : Message) : Res Response := Returned sample_response.

(** A clock that advances one second per reading. *)
Definition steady_env : Env :=
  mkEnv (fun i => inject_Z (Z.of_nat i)) answering (fun s => Z.of_nat (String.length s)).

(** A clock that is set back by fifty seconds after its first reading. *)
Definition set_back_env : Env :=
  mkEnv (fun i => match i with O => 100 | _ => 50 end) answering
        (fun s => Z.of_nat (String.length s)).

(** A backend that raises on every request. *)
Definition failing (i : nat) (m : Message) : Res Response :=
  Raised (OtherException "RuntimeError" "backend down").

(** Three failures stamped at second 0, then a reading at second 1. *)
Definition boundary_env : Env :=
  mkEnv (fun i => if (i <? 3)%nat then 0 else 1) failing
        (fun s => Z.of_nat (String.length s)).

(** Threshold 3 and cool-down 1 second, after three failed calls. *)
Definition tripped_at_boundary : Res (list (Res Response)) * Ext * CircuitBreaker :=
  breaker_session boundary_env 3 1 [sample_message; sample_message; sample_message] start.

(** A backend that raises three times and answers from then on. *)
Definition recovering (i : nat) (m : Message) : Res Response :=
  if (i <? 3)%nat then Raised (OtherException "RuntimeError" "backend down")
  else Returned sample_response.

(** Three failures stamped at second 0, then readings at 0.5 and 1.1. *)
Definition cooldown_env : Env :=
  mkEnv (fun i => if (i <? 3)%nat then 0 else if (i =? 3)%nat then 0.5 else 1.1)
        recovering (fun s => Z.of_nat (String.length s)).

(** A failing backend on a clock that reads 0 once and 5 from then on. *)
Definition probe_env : Env :=
  mkEnv (fun i => match i with O => 0 | _ => 5 end) failing
        (fun s => Z.of_nat (String.length s)).

(** A breaker with threshold 1 that failed once at second 0 and whose
    guard ran again at second 5, past its cool-down of one second. *)
Definition probing_breaker : CircuitBreaker :=
  snd (call_guard probe_env (mkExt 1 1)
         (snd (call probe_env (await_prototype probe_env sample_message) start
                 (CircuitBreaker_init 1 1)))).

(** An open breaker with threshold 3 and cool-down 1 that last failed at
    second 0. *)
Definition open_breaker : CircuitBreaker := mkCircuitBreaker 3 1 3 (Some 0) open.

(** A clock that stands still, so that the bucket never refills. *)
Definition frozen_env : Env :=
  mkEnv (fun _ => 0) answering (fun s => Z.of_nat (String.length s)).

(** A backend that raises on its first invocation and answers afterwards. *)
Definition flaky (i : nat) (m : Message) : Res Response :=
  match i with
  | O => Raised (OtherException "RuntimeError" "backend down")
  | _ => Returned sample_response
  end.

Definition flaky_env : Env :=
  mkEnv (fun i => inject_Z (Z.of_nat i)) flaky (fun s => Z.of_nat (String.length s)).

(** A backend that reports its own failure in a returned [Response], as
    [IntelligentAgent.execute] does in its [except] block. *)
Definition apology : Response :=
  mkResponse "I apologize, but I encountered an error: boom" 0 0.125 ["parser"] false.

Definition apologising_env : Env :=
  mkEnv (fun i => inject_Z (Z.of_nat i)) (fun _ _ => Returned apology)
        (fun s => Z.of_nat (String.length s)).

(** A backend whose every call is cancelled while it is awaited, on the
    steady clock. *)
Definition cancelled_call (i : nat) (m : Message) : Res Response := Cancelled.

Definition cancelling_env : Env :=
  mkEnv (fun i => inject_Z (Z.of_nat i)) cancelled_call (fun s => Z.of_nat (String.length s)).

(** The failing backend on the steady clock. *)
Definition failing_env : Env :=
  mkEnv (fun i => inject_Z (Z.of_nat i)) failing (fun s => Z.of_nat (String.length s)).

(** The bridge [HybridAgentBridge.__init__] builds when the clock reads 0. *)
Definition fresh_bridge : HybridAgentBridge :=
  mkBridge AgentOSClient_init (mkRateLimiter 100 1000 1000 0) (CircuitBreaker_init 5 60)
    ∅ 300 0%Z 0%Z 0.

(** The first request on [fresh_bridge], started at the second clock
    reading, with the answering and with the flaky backend. *)
Definition served_once : Res Response * Ext * HybridAgentBridge :=
  execute steady_env sample_message (mkExt 1 0) fresh_bridge.

Definition failed_once : Res Response * Ext * HybridAgentBridge :=
  execute flaky_env sample_message (mkExt 1 0) fresh_bridge.

(** The first request on [fresh_bridge] when the backend call is
    cancelled. *)
Definition cancelled_once : Res Response * Ext * HybridAgentBridge :=
  execute cancelling_env sample_message (mkExt 1 0) fresh_bridge.

(** The same request again, on what the first one left behind. *)
Definition again (env : Env) (first : Res Response * Ext * HybridAgentBridge)
  : Res Response * Ext * HybridAgentBridge :=
  execute env sample_message (snd (fst first)) (snd first).

(** ** The rest of hybrid-bridge.py: metrics, health and the server *)

(** The dictionary of [HybridAgentBridge.get_metrics]. Its entry
    "agent_metrics" is what the external prototype reports about itself
    and is left out. *)
Record BridgeMetrics : Type := mkBridgeMetrics {
  requests_total : Z;
  errors_total : Z;
  error_rate : Q;
  avg_latency_seconds : Q;
  cache_size : nat;
  rate_limiter_tokens : Q;
  circuit_breaker_state : BreakerState
}.

(** [HybridAgentBridge.get_metrics]: it reads the bridge and no clock. *)
Definition get_metrics (b : HybridAgentBridge) : BridgeMetrics :=
  let avg_latency :=
    if (request_count b >? 0)%Z
    then total_latency b / inject_Z (request_count b)
    else 0 in
  mkBridgeMetrics
    (request_count b)
    (error_count b)
    (inject_Z (error_count b) / inject_Z (Z.max (request_count b) 1))
    avg_latency
    (size (cache b))
    (tokens (rate_limiter b))
    (state (circuit_breaker b)).

Inductive HealthStatus : Type := healthy | degraded.

(** The dictionary of [HybridAgentBridge.health_check]; the component
    "agent" is the status of the external prototype and is left out, the
    components "cache" and "rate_limiter" are the constant "healthy". *)
Record Health : Type := mkHealth {
  status : HealthStatus;
  health_timestamp : Q;
  component_agent_os : HealthStatus;
  component_circuit_breaker : BreakerState;
  metrics : BridgeMetrics
}.

(** The dictionary of [ProductionServer.handle_message]. *)
Record Reply : Type := mkReply {
  reply_response : string;
  reply_confidence : Q;
  reply_processing_time : Q;
  reply_success : bool;
  reply_timestamp : Q
}.

(** The request dictionary of [handle_message]: the three keys it reads,
    each of which may be missing. *)
Record Request : Type := mkRequest {
  req_message : option string;
  req_user_id : option string;
  req_metadata : option (list (string * string))
}.

Record ProductionServer : Type := mkServer {
  bridge : HybridAgentBridge;
  server_start_time : Q
}.

Definition set_bridge (b : HybridAgentBridge) (s : ProductionServer) : ProductionServer :=
  mkServer b (server_start_time s).

Section Server.

Variable env : Env.

(** [AgentOSClient.health_check]: the status and the time stamp. *)
Definition AgentOSClient_health_check : M AgentOSClient (HealthStatus * Q) :=
  now ← time_time env;
  mret (healthy, now).

(** [HybridAgentBridge.health_check]. *)
Definition health_check : M HybridAgentBridge Health :=
  agent_os_health ← on_agent_os AgentOSClient_health_check;
  b ← get;
  let st :=
    match state (circuit_breaker b) with
    | open => degraded
    | _ => healthy
    end in
  now ← time_time env;
  mret (mkHealth st now (fst agent_os_health) (state (circuit_breaker b)) (get_metrics b)).

(** [ProductionServer.__init__]. *)
Definition ProductionServer_init (b : HybridAgentBridge) : M unit ProductionServer :=
  now ← time_time env;
  mret (mkServer b now).

(** [ProductionServer.handle_message]: [request["message"]] is evaluated
    first and raises [KeyError] when the key is missing. *)
Definition handle_message (request : Request) : M ProductionServer Reply :=
  match req_message request with
  | None => raise (OtherException "KeyError" "'message'")
  | Some text =>
      stamp ← time_time env;
      let message :=
        mkMessage text stamp
          (default "anonymous"%string (req_user_id request))
          (Some (default [] (req_metadata request))) in
      response ← zoom bridge set_bridge (execute env message);
      now ← time_time env;
      mret (mkReply (content response) (confidence response)
              (processing_time response) (success response) now)
  end.

(** [ProductionServer.get_health]: the health dictionary and its added
    "uptime" entry. *)
Definition get_health : M ProductionServer (Health * Q) :=
  health ← zoom bridge set_bridge health_check;
  now ← time_time env;
  s ← get;
  mret (health, now - server_start_time s).

(** [ProductionServer.get_metrics]. *)
Definition server_get_metrics : M ProductionServer BridgeMetrics :=
  s ← get;
  mret (get_metrics (bridge s)).

(** The client recording a list of metrics one after the other. *)
Fixpoint record_each (ms : list (string * Q * list (string * string)))
  : M AgentOSClient unit :=
  match ms with
  | [] => mret tt
  | (name, value, labels) :: rest =>
      record_metric env name value labels;;
      record_each rest
  end.

(** The server answering a list of requests one after the other. *)
Fixpoint handle_each (requests : list Request) : M ProductionServer (list (Res Reply)) :=
  match requests with
  | [] => mret []
  | q :: rest =>
      r ← attempt (handle_message q);
      rs ← handle_each rest;
      mret (r :: rs)
  end.

End Server.

(** ** Bookkeeping read off sessions *)

(** The tokens handed out: the costs of the granted requests. *)
Fixpoint granted_total (costs : list Q) (oks : list bool) : Q :=
  match costs, oks with
  | n :: costs', ok :: oks' => (if ok then n else 0) + granted_total costs' oks'
  | _, _ => 0
  end.

(** How many of the outcomes are raised exceptions. *)
Fixpoint count_raised {A} (rs : list (Res A)) : Z :=
  match rs with
  | [] => 0
  | Raised _ :: rest => 1 + count_raised rest
  | _ :: rest => count_raised rest
  end.

(** An outcome that is no exception: a value or the cancellation. *)
Definition not_raised {A} (out : Res A) : Prop := forall e, out <> Raised e.

(** How many of the outcomes are cancellations. *)
Fixpoint count_cancelled {A} (rs : list (Res A)) : Z :=
  match rs with
  | [] => 0
  | Cancelled :: rest => 1 + count_cancelled rest
  | _ :: rest => count_cancelled rest
  end.

(** How many of the metrics carry the given name; [cache_hits] counts the
    "cache_hit" metrics the client has recorded. *)
Fixpoint count_named (name : string) (ms : list Metric) : Z :=
  match ms with
  | [] => 0
  | m :: rest =>
      (if String.eqb (metric_name m) name then 1 else 0) + count_named name rest
  end.

Definition cache_hits (c : AgentOSClient) : Z := count_named "cache_hit" (all_metrics c).

(** The successes and failures reported to [end_trace], and the sum of
    the latencies of the successes. *)
Fixpoint trace_successes (ts : list (string * TraceMeta)) : Z :=
  match ts with
  | [] => 0
  | (_, TraceSuccess _ _) :: rest => 1 + trace_successes rest
  | (_, TraceFailure _ _) :: rest => trace_successes rest
  end.

Fixpoint trace_failures (ts : list (string * TraceMeta)) : Z :=
  match ts with
  | [] => 0
  | (_, TraceSuccess _ _) :: rest => trace_failures rest
  | (_, TraceFailure _ _) :: rest => 1 + trace_failures rest
  end.

Fixpoint success_latencies (ts : list (string * TraceMeta)) : list Q :=
  match ts with
  | [] => []
  | (_, TraceSuccess latency _) :: rest => latency :: success_latencies rest
  | (_, TraceFailure _ _) :: rest => success_latencies rest
  end.

Fixpoint Qsum (l : list Q) : Q :=
  match l with
  | [] => 0
  | q :: rest => q + Qsum rest
  end.

(** What every reachable breaker satisfies besides [tripped]: the
    failure counter is not negative and a breaker that is not closed has
    a failure time stamp. *)
Definition stamped (cb : CircuitBreaker) : Prop :=
  (0 <= failures cb)%Z /\ (state cb <> closed -> last_failure cb <> None).

(** The outcomes of the backend on the messages, the first invocation
    being number [i]. *)
Fixpoint backend_outcomes (env : Env) (i : nat) (messages : list Message)
  : list (Res Response) :=
  match messages with
  | [] => []
  | m :: rest => prototype_execute env i m :: backend_outcomes env (S i) rest
  end.

(** The counters of the bridge agree with what it reported to
    [end_trace]. *)
Definition counters_match_traces (b : HybridAgentBridge) : Prop :=
  request_count b = trace_successes (traces (agent_os b)) /\
  error_count b = trace_failures (traces (agent_os b)) /\
  total_latency b == Qsum (success_latencies (traces (agent_os b))).

(** Every failure reported to [end_trace] is a refusal of the rate
    limiter. *)
Definition only_rate_limited (ts : list (string * TraceMeta)) : Prop :=
  Forall (fun t => match snd t with
                   | TraceFailure msg _ => msg = "Rate limit exceeded - please retry"%string
                   | TraceSuccess _ _ => True
                   end) ts.

(** The settings of a bridge built by [HybridAgentBridge.__init__]. *)
Definition configured (b : HybridAgentBridge) : Prop :=
  rate (rate_limiter b) = 100 /\ capacity (rate_limiter b) = 1000 /\
  failure_threshold (circuit_breaker b) = 5%Z /\ timeout (circuit_breaker b) = 60 /\
  cache_ttl b = 300.

(** * agno-prototype.py: the prototype agent

    Strings are byte strings in UTF-8. [lower] and [split_ws] are
    Python's [str.lower] and [str.split()] on ASCII text, where they are
    exact; a theorem that tells what they compute takes ASCII text.
    [asyncio.sleep] only lets the clock advance, and the clock is free;
    the sleeps of the tools are given no cancellation, so a tool returns
    or raises. What the agent prints is not part of the model. *)

Module Agent.

Import Stdlib.Strings.Ascii.

(** ** Python string operations *)

Definition is_ascii_char (c : ascii) : bool := (nat_of_ascii c <? 128)%nat.

Fixpoint is_ascii (s : string) : bool :=
  match s with
  | EmptyString => true
  | String c rest => is_ascii_char c && is_ascii rest
  end.

(** [str.lower] on one ASCII character. *)
Definition lower_char (c : ascii) : ascii :=
  let n := nat_of_ascii c in
  if ((65 <=? n) && (n <=? 90))%nat then ascii_of_nat (n + 32) else c.

Fixpoint lower (s : string) : string :=
  match s with
  | EmptyString => EmptyString
  | String c rest => String (lower_char c) (lower rest)
  end.

(** [needle in hay]. *)
Fixpoint contains (needle hay : string) : bool :=
  String.prefix needle hay ||
  match hay with
  | EmptyString => false
  | String _ rest => contains needle rest
  end.

(** [any(keyword in text for keyword in keywords)]. *)
Definition any_in (keywords : list string) (text : string) : bool :=
  existsb (fun keyword => contains keyword text) keywords.

(** [s.split(sep)] for a separator of one character: the pieces between
    the separators, empty pieces included. *)
Fixpoint split_on (sep : ascii) (s : string) : list string :=
  match s with
  | EmptyString => [EmptyString]
  | String c rest =>
      if Ascii.eqb c sep then EmptyString :: split_on sep rest
      else match split_on sep rest with
           | piece :: pieces => String c piece :: pieces
           | [] => [String c EmptyString]
           end
  end.

(** The ASCII characters for which [str.isspace] holds. *)
Definition is_space (c : ascii) : bool :=
  let n := nat_of_ascii c in
  ((9 <=? n) && (n <=? 13) || (28 <=? n) && (n <=? 32))%nat.

(** [s.split()]: the maximal runs of characters that are not white
    space. [word] is the run being read, if any. *)
Fixpoint split_ws_from (word : option string) (s : string) : list string :=
  match s with
  | EmptyString =>
      match word with Some w => [w] | None => [] end
  | String c rest =>
      if is_space c
      then match word with
           | Some w => w :: split_ws_from None rest
           | None => split_ws_from None rest
           end
      else match word with
           | Some w => split_ws_from (Some (w ++ String c EmptyString)%string) rest
           | None => split_ws_from (Some (String c EmptyString)) rest
           end
  end.

Definition split_ws (s : string) : list string := split_ws_from None s.

(** A dictionary with string keys and values, in insertion order.
    [dict_get] is [d[key]] when the key is present. *)
Definition Dict : Type := list (string * string).

Fixpoint dict_get (key : string) (d : Dict) : option string :=
  match d with
  | [] => None
  | (k, v) :: rest => if String.eqb k key then Some v else dict_get key rest
  end.

(** What [str.format] can raise. *)
Inductive FormatError : Type :=
| FormatKeyError (key : string)
| FormatIndexError (msg : string)
| FormatValueError (msg : string).

(** The scanner of [template.format], called with the dictionary as
    keyword arguments, for templates whose
    replacement fields are plain names, as those of [GenerateTool] are:
    doubled braces are literal braces, [{name}] is [data[name]], and an
    empty field asks for a positional argument, of which there is
    none. *)
Inductive FormatState : Type :=
| InText            (* between fields *)
| AfterOpen         (* just read one opening brace *)
| InField (name : string) (* reading a field name *)
| AfterClose.       (* just read one closing brace outside a field *)

Fixpoint format_from (st : FormatState) (template : string) (data : Dict)
  : string + FormatError :=
  match template with
  | EmptyString =>
      match st with
      | InText => inl EmptyString
      | AfterOpen => inr (FormatValueError "Single '{' encountered in format string")
      | InField _ => inr (FormatValueError "expected '}' before end of string")
      | AfterClose => inr (FormatValueError "Single '}' encountered in format string")
      end
  | String c rest =>
      let emit (ch : ascii) (next : FormatState) :=
        match format_from next rest data with
        | inl out => inl (String ch out)
        | inr e => inr e
        end in
      let fill (name : string) :=
        match dict_get name data with
        | None => inr (FormatKeyError name)
        | Some v =>
            match format_from InText rest data with
            | inl out => inl (v ++ out)%string
            | inr e => inr e
            end
        end in
      match st with
      | InText =>
          if Ascii.eqb c "{"%char then format_from AfterOpen rest data
          else if Ascii.eqb c "}"%char then format_from AfterClose rest data
          else emit c InText
      | AfterOpen =>
          if Ascii.eqb c "{"%char then emit "{"%char InText
          else if Ascii.eqb c "}"%char
          then inr (FormatIndexError
                      "Replacement index 0 out of range for positional args tuple")
          else format_from (InField (String c EmptyString)) rest data
      | InField name =>
          if Ascii.eqb c "}"%char then fill name
          else format_from (InField (name ++ String c EmptyString)%string) rest data
      | AfterClose =>
          if Ascii.eqb c "}"%char then emit "}"%char InText
          else inr (FormatValueError "Single '}' encountered in format string")
      end
  end.

Definition format (template : string) (data : Dict) : string + FormatError :=
  format_from InText template data.

(** The replacement fields of a template are plain names when they are
    not empty and made of letters and underscores; [plain_template] says
    so of every field and that the braces are in order. *)
Definition is_name_char (c : ascii) : bool :=
  let n := nat_of_ascii c in
  ((65 <=? n) && (n <=? 90) || (97 <=? n) && (n <=? 122) || (n =? 95))%nat.

Fixpoint plain_from (st : FormatState) (template : string) : bool :=
  match template with
  | EmptyString => match st with InText => true | _ => false end
  | String c rest =>
      match st with
      | InText =>
          if Ascii.eqb c "{"%char then plain_from AfterOpen rest
          else if Ascii.eqb c "}"%char then plain_from AfterClose rest
          else plain_from InText rest
      | AfterOpen =>
          if Ascii.eqb c "{"%char then plain_from InText rest
          else is_name_char c && plain_from (InField (String c EmptyString)) rest
      | InField name =>
          if Ascii.eqb c "}"%char then plain_from InText rest
          else is_name_char c &&
               plain_from (InField (name ++ String c EmptyString)%string) rest
      | AfterClose =>
          Ascii.eqb c "}"%char && plain_from InText rest
      end
  end.

Definition plain_template (template : string) : bool := plain_from InText template.

(** Properties of texts, by their characters. *)
Fixpoint all_chars (p : ascii -> bool) (s : string) : bool :=
  match s with
  | EmptyString => true
  | String c rest => p c && all_chars p rest
  end.

Definition is_hash (c : ascii) : bool := Ascii.eqb c "#"%char.

(** No [#] in the text; white space only; neither white space nor [#]. *)
Definition no_hash (s : string) : bool := all_chars (fun c => negb (is_hash c)) s.
Definition is_blank (s : string) : bool := all_chars is_space s.
Definition is_word (s : string) : bool :=
  all_chars (fun c => negb (is_space c) && negb (is_hash c)) s.

(** The text is over, or goes on with a character for which [p] holds. *)
Definition ends_or (p : ascii -> bool) (s : string) : bool :=
  match s with
  | EmptyString => true
  | String c _ => p c
  end.

(** ** ParseTool *)

(** The dictionary returned by [ParseTool._process]. *)
Record Parsed : Type := mkParsed {
  raw_input : string;
  intent : string;
  entities : Dict;
  sentiment : string
}.

(** The [intents] table of [ParseTool._process], in its order. *)
Definition intents : list (string * list string) :=
  [("refund", ["refund"; "money back"; "return"]);
   ("tracking", ["track"; "where"; "shipping"; "delivery"]);
   ("support", ["help"; "issue"; "problem"; "broken"]);
   ("account", ["account"; "login"; "password"; "email"])]%string.

(** The loop over [intents.items()]: the first intent one of whose
    keywords occurs in the lowered input. *)
Fixpoint detect_intent (table : list (string * list string)) (input_data : string)
  : string :=
  match table with
  | [] => "general"
  | (name, keywords) :: rest =>
      if any_in keywords (lower input_data) then name
      else detect_intent rest input_data
  end.

Definition IndexError : PyExc := OtherException "IndexError" "list index out of range".

(** [ParseTool._extract_entities]. *)
Definition _extract_entities (text : string) : Res Dict :=
  if contains "#" text then
    match split_on "#"%char text with
    | _ :: part :: _ =>
        match part with
        | EmptyString => Returned []
        | _ =>
            match split_ws part with
            | [] => Raised IndexError
            | order_num :: _ =>
                match order_num with
                | EmptyString => Returned []
                | _ => Returned [("order_number"%string, order_num)]
                end
            end
        end
    | _ => Returned []
    end
  else Returned [].

(** [ParseTool._analyze_sentiment]. *)
Definition _analyze_sentiment (text : string) : string :=
  let negative_words := ["angry"; "frustrated"; "terrible"; "awful"; "hate"]%string in
  let positive_words := ["thank"; "great"; "awesome"; "love"; "excellent"]%string in
  let text_lower := lower text in
  if any_in negative_words text_lower then "negative"
  else if any_in positive_words text_lower then "positive"
  else "neutral".

(** [ParseTool._process]. *)
Definition ParseTool_process (input_data : string) : Res Parsed :=
  let detected_intent := detect_intent intents input_data in
  match _extract_entities input_data with
  | Raised e => Raised e
  | Cancelled => Cancelled
  | Returned found =>
      Returned (mkParsed input_data detected_intent found (_analyze_sentiment input_data))
  end.

(** ** ProcessTool *)

(** The dictionary returned by [ProcessTool._process]. The values of
    "data" are kept as the text [str.format] would insert; the list under
    "options" is never inserted by any template and is kept as its
    rendering. *)
Record Processed : Type := mkProcessed {
  action : string;
  response_template : string;
  data : Dict
}.

Definition refund_policy : string := "30-day return policy for unused items".
Definition refund_process_time : string := "5-7 business days".
Definition support_hours : string := "24/7 chat support, 9-5 PST phone support".
Definition support_sla : string := "Response within 2 hours".

Definition _handle_refund (found : Dict) : Processed :=
  match dict_get "order_number" found with
  | Some order =>
      mkProcessed "initiate_refund" "refund_initiated"
        [("order", order); ("policy", refund_policy); ("timeline", refund_process_time)]%string
  | None =>
      mkProcessed "request_info" "need_order_number" [("required", "order number")]%string
  end.

Definition _handle_tracking (found : Dict) : Processed :=
  match dict_get "order_number" found with
  | Some order =>
      mkProcessed "provide_tracking" "tracking_info"
        [("order", order); ("status", "In Transit"); ("eta", "2 days"); ("carrier", "UPS")]%string
  | None =>
      mkProcessed "request_info" "need_order_number"
        [("required", "order number for tracking")]%string
  end.

Definition _handle_support (parsed_data : Parsed) : Processed :=
  if String.eqb (sentiment parsed_data) "negative"
  then mkProcessed "escalate" "escalate_to_human"
         [("priority", "high"); ("reason", "negative sentiment detected")]%string
  else mkProcessed "provide_support" "general_support"
         [("hours", support_hours); ("sla", support_sla)]%string.

Definition _handle_general : Processed :=
  mkProcessed "provide_help" "help_menu"
    [("options", "['refund', 'tracking', 'support', 'account']")]%string.

(** [ProcessTool._process]. *)
Definition ProcessTool_process (parsed_data : Parsed) : Processed :=
  if String.eqb (intent parsed_data) "refund" then _handle_refund (entities parsed_data)
  else if String.eqb (intent parsed_data) "tracking" then _handle_tracking (entities parsed_data)
  else if String.eqb (intent parsed_data) "support" then _handle_support parsed_data
  else _handle_general.

(** ** GenerateTool *)

Definition help_menu : string :=
  "I can help you with:
• Refunds and returns
• Order tracking
• Technical support
• Account issues

What would you like help with?".

(** [GenerateTool._load_templates]. *)
Definition templates : Dict :=
  [("refund_initiated",
    "I've initiated a refund for order #{order}. Per our {policy}, you should see the refund in {timeline}. Is there anything else I can help with?");
   ("need_order_number",
    "I'd be happy to help with that! Could you please provide your order number? It usually starts with # followed by 6-8 digits.");
   ("tracking_info",
    "Great news! Your order #{order} is {status} with {carrier}. Expected delivery: {eta}. You can track it here: https://track.example.com/{order}");
   ("escalate_to_human",
    "I understand this is frustrating. Let me connect you with a specialist who can better assist you. Priority: {priority}. Someone will be with you shortly.");
   ("general_support",
    "Our support team is available during {hours}. We guarantee {sla}. How can I assist you today?");
   ("help_menu", help_menu)]%string.

(** [GenerateTool._process]: a [KeyError] of [format] is caught and the
    template is returned as it is; any other error of [format] is
    raised. *)
Definition GenerateTool_process (process_result : Processed) : Res string :=
  let template :=
    default help_menu (dict_get (response_template process_result) templates) in
  match format template (data process_result) with
  | inl response => Returned response
  | inr (FormatKeyError _) => Returned template
  | inr (FormatIndexError msg) => Raised (OtherException "IndexError" msg)
  | inr (FormatValueError msg) => Raised (OtherException "ValueError" msg)
  end.

(** ** IntelligentAgent *)

Inductive AgentStatus : Type := INITIALIZING | READY | PROCESSING | ERROR.

(** The agent: its status, its [metrics] and the [usage_count] of its
    three tools. *)
Record IntelligentAgent : Type := mkAgent {
  status : AgentStatus;
  messages_processed : Z;
  avg_response_time : Q;
  success_rate : Q;
  parser_usage : Z;
  processor_usage : Z;
  generator_usage : Z
}.

(** [IntelligentAgent.__init__]. *)
Definition IntelligentAgent_init : IntelligentAgent := mkAgent READY 0 0 0 0 0 0.

Definition set_status (st : AgentStatus) (a : IntelligentAgent) : IntelligentAgent :=
  mkAgent st (messages_processed a) (avg_response_time a) (success_rate a)
    (parser_usage a) (processor_usage a) (generator_usage a).

(** [IntelligentAgent._update_metrics]. *)
Definition _update_metrics (elapsed : Q) (succeeded : bool) (a : IntelligentAgent)
  : IntelligentAgent :=
  let count := (messages_processed a + 1)%Z in
  let current_avg := avg_response_time a in
  let new_avg := (current_avg * inject_Z (count - 1) + elapsed) / inject_Z count in
  let new_rate :=
    if succeeded
    then (success_rate a * inject_Z (count - 1) + 1) / inject_Z count
    else success_rate a in
  mkAgent (status a) count new_avg new_rate
    (parser_usage a) (processor_usage a) (generator_usage a).

(** [Tool.execute] for each of the three tools: count the use, then run
    [_process]. *)
Definition use_parser (a : IntelligentAgent) : IntelligentAgent :=
  mkAgent (status a) (messages_processed a) (avg_response_time a) (success_rate a)
    (parser_usage a + 1)%Z (processor_usage a) (generator_usage a).
Definition use_processor (a : IntelligentAgent) : IntelligentAgent :=
  mkAgent (status a) (messages_processed a) (avg_response_time a) (success_rate a)
    (parser_usage a) (processor_usage a + 1)%Z (generator_usage a).
Definition use_generator (a : IntelligentAgent) : IntelligentAgent :=
  mkAgent (status a) (messages_processed a) (avg_response_time a) (success_rate a)
    (parser_usage a) (processor_usage a) (generator_usage a + 1)%Z.

(** The state of a run of [execute]: the agent and the local list
    [tools_used]. *)
Definition Run : Type := (IntelligentAgent * list string)%type.

Definition on_agent (f : IntelligentAgent -> IntelligentAgent) : M Run unit :=
  modify (fun s : Run => (f (fst s), snd s)).

Definition tools_used_append (name : string) : M Run unit :=
  modify (fun s : Run => (fst s, snd s ++ [name])).

(** Raise what a tool raised, or go on with what it returned. *)
Definition of_res {S A} (r : Res A) : M S A :=
  match r with
  | Returned a => mret a
  | Raised e => raise e
  | Cancelled => fun x s => (Cancelled, x, s)
  end.

Section Execute.

Variable env : Env.

(** The [try] block of [IntelligentAgent.execute]. *)
Definition execute_try (start_time : Q) (message : Message) : M Run Response :=
  on_agent use_parser;;
  parsed ← of_res (ParseTool_process (m_content message));
  tools_used_append "parser";;
  on_agent use_processor;;
  let processed := ProcessTool_process parsed in
  tools_used_append "processor";;
  on_agent use_generator;;
  response_text ← of_res (GenerateTool_process processed);
  tools_used_append "generator";;
  now ← time_time env;
  let elapsed := now - start_time in
  on_agent (_update_metrics elapsed true);;
  on_agent (set_status READY);;
  s ← get;
  mret (mkResponse response_text 0.95 elapsed (snd s) true).

(** The [except Exception as e] block of [IntelligentAgent.execute]. *)
Definition execute_except (start_time : Q) (e : PyExc) : M Run Response :=
  on_agent (set_status ERROR);;
  now ← time_time env;
  let elapsed := now - start_time in
  on_agent (_update_metrics elapsed false);;
  s ← get;
  mret (mkResponse ("I apologize, but I encountered an error: " ++ exc_str e)%string
          0 elapsed (snd s) false).

(** [IntelligentAgent.execute]. *)
Definition execute (message : Message) : M IntelligentAgent Response :=
  start_time ← time_time env;
  modify (set_status PROCESSING);;
  zoom (fun a => (a, [])) (fun s _ => fst s)
    (try_except (execute_try start_time message) (execute_except start_time)).

(** The agent answering the messages one after the other. *)
Fixpoint execute_each (messages : list Message) : M IntelligentAgent (list (Res Response)) :=
  match messages with
  | [] => mret []
  | m :: rest =>
      r ← attempt (execute m);
      rs ← execute_each rest;
      mret (r :: rs)
  end.

End Execute.

(** The metrics after the given updates, oldest first. *)
Fixpoint updated (updates : list (Q * bool)) (a : IntelligentAgent) : IntelligentAgent :=
  match updates with
  | [] => a
  | (elapsed, succeeded) :: rest => updated rest (_update_metrics elapsed succeeded a)
  end.

(** The messages of [test_agent]. *)
Definition refund_request : Message :=
  mkMessage "I need a refund for order #12345" 0 "test-user-001" None.

Definition test_messages : list Message :=
  map (fun msg_content => mkMessage msg_content 0 "test-user-001" None)
    ["I need a refund for order #12345";
     "Where is my package? Order #67890";
     "I'm really frustrated with your service!";
     "Can you help me?";
     "Track my order #24680"]%string.

End Agent.

(** ** Facts about the numeric helpers *)

Lemma Qltb_lt (a b : Q) : Qltb a b = true <-> a < b.
Proof.
  unfold Qltb. rewrite Qlt_alt. destruct (a ?= b); split; congruence.
Qed.

Lemma Qltb_ge (a b : Q) : Qltb a b = false <-> b <= a.
Proof.
  pose proof (Qltb_lt a b) as H. pose proof (Qnot_lt_le a b) as H1.
  pose proof (Qle_not_lt b a) as H2.
  destruct (Qltb a b); split; intros; try congruence.
  - exfalso. apply H2; [assumption | now apply H].
  - apply H1. intros Hlt. apply H in Hlt. congruence.
Qed.

Lemma Qgeb_le (a b : Q) : Qgeb a b = true <-> b <= a.
Proof. apply Qle_bool_iff. Qed.

Lemma Qgeb_lt (a b : Q) : Qgeb a b = false <-> a < b.
Proof.
  pose proof (Qgeb_le a b) as H. pose proof (Qnot_le_lt b a) as H1.
  pose proof (Qlt_not_le a b) as H2.
  destruct (Qgeb a b); split; intros; try congruence.
  - exfalso. apply H2; [assumption | now apply H].
  - apply H1. intros Hle. apply H in Hle. congruence.
Qed.

Lemma py_min_cases (a b : Q) :
  (b < a /\ py_min a b = b) \/ (a <= b /\ py_min a b = a).
Proof.
  unfold py_min. destruct (Qltb b a) eqn:E.
  - left. split; [now apply Qltb_lt | reflexivity].
  - right. split; [now apply Qltb_ge | reflexivity].
Qed.

Lemma py_min_Qmin (a b : Q) : py_min a b == Qmin a b.
Proof.
  destruct (py_min_cases a b) as [[H ->] | [H ->]].
  - symmetry. apply Q.min_r. now apply Qlt_le_weak.
  - symmetry. now apply Q.min_l.
Qed.

Lemma py_min_le_l (a b : Q) : py_min a b <= a.
Proof. destruct (py_min_cases a b) as [[H ->] | [H ->]]; lra. Qed.

Lemma py_min_le_r (a b : Q) : py_min a b <= b.
Proof. destruct (py_min_cases a b) as [[H ->] | [H ->]]; lra. Qed.

Lemma py_min_glb (a b c : Q) : c <= a -> c <= b -> c <= py_min a b.
Proof. destruct (py_min_cases a b) as [[H ->] | [H ->]]; lra. Qed.

(** Unfold the monad's plumbing. *)
Ltac run_monad :=
  cbv beta iota zeta delta
    [mbind M_bind m_bind mret M_ret m_ret get put modify raise try_except
     zoom lift_ext attempt time_time].

(** Split on the flush test of [record_metric]. *)
Ltac case_flush :=
  match goal with
  | |- context [(10 <=? ?n)%nat] => destruct (10 <=? n)%nat
  end.

(** ** RateLimiter *)

Section RateLimiterFacts.

Variable env : Env.

Lemma acquire_run (n : Q) (x : Ext) (rl : RateLimiter) :
  acquire env n x rl =
  (Returned (fst (acquire_at (clock env (ticks x)) n rl)), tick x,
   snd (acquire_at (clock env (ticks x)) n rl)).
Proof.
  unfold acquire, mbind, M_bind, m_bind, time_time, get, put, mret, M_ret, m_ret.
  now destruct (acquire_at (clock env (ticks x)) n rl).
Qed.

(** What one call does, in terms of the refilled amount. *)
Lemma acquire_at_spec (now n : Q) (rl : RateLimiter) :
  let refilled := py_min (capacity rl) (tokens rl + (now - last_update rl) * rate rl) in
  let ok := fst (acquire_at now n rl) in
  let rl' := snd (acquire_at now n rl) in
  last_update rl' = now /\ rate rl' = rate rl /\ capacity rl' = capacity rl /\
  (ok = true <-> 0 <= refilled - n) /\
  (ok = true -> tokens rl' = refilled - n) /\
  (ok = false -> tokens rl' = refilled).
Proof.
  cbv zeta. unfold acquire_at.
  set (refilled := py_min _ _).
  destruct (Qgeb refilled n) eqn:E; cbn [fst snd last_update rate capacity tokens].
  - apply Qgeb_le in E. repeat split; try congruence; intros; lra.
  - apply Qgeb_lt in E. repeat split; try congruence; intros; lra.
Qed.

(** With no refill, a bucket holding [j] tokens answers [j] unit requests
    and refuses the next one, whatever the clock does. *)
Lemma acquire_each_no_refill (j : nat) :
  forall (x : Ext) (rl : RateLimiter),
    rate rl == 0 ->
    tokens rl == inject_Z (Z.of_nat j) ->
    tokens rl <= capacity rl ->
    fst (fst (acquire_each env (repeat 1 (S j)) x rl))
    = Returned (repeat true j ++ [false]).
Proof.
  induction j as [|k IH]; intros x rl Hrate Htok Hcap.
  - cbn [repeat acquire_each]. unfold mbind, M_bind, m_bind.
    rewrite acquire_run. unfold acquire_at.
    set (e := clock env (ticks x) - last_update rl).
    assert (He : e * rate rl == 0) by (rewrite Hrate; ring).
    pose proof (py_min_le_r (capacity rl) (tokens rl + e * rate rl)) as Hle.
    destruct (Qgeb _ 1) eqn:E.
    + apply Qgeb_le in E. exfalso.
      change (inject_Z (Z.of_nat 0)) with 0 in Htok. lra.
    + reflexivity.
  - change (repeat 1 (S (S k))) with (1 :: repeat 1 (S k)).
    cbn [acquire_each]. unfold mbind, M_bind, m_bind.
    rewrite acquire_run. unfold acquire_at.
    set (e := clock env (ticks x) - last_update rl).
    assert (He : e * rate rl == 0) by (rewrite Hrate; ring).
    assert (Hk : inject_Z (Z.of_nat (S k)) == inject_Z (Z.of_nat k) + 1).
    { rewrite Nat2Z.inj_succ. unfold Z.succ. rewrite inject_Z_plus. reflexivity. }
    assert (Hk0 : 0 <= inject_Z (Z.of_nat k)).
    { change 0 with (inject_Z 0). rewrite <- Zle_Qle. lia. }
    destruct (py_min_cases (capacity rl) (tokens rl + e * rate rl)) as [[Hlt Hm] | [Hge Hm]];
      rewrite Hm.
    + destruct (Qgeb _ 1) eqn:E.
      * cbn [fst snd].
        specialize (IH (tick x)
          (mkRateLimiter (rate rl) (capacity rl) (tokens rl + e * rate rl - 1)
             (clock env (ticks x)))).
        cbn [rate tokens capacity] in IH.
        destruct (acquire_each env (repeat 1 (S k)) (tick x) _) as [[r x'] rl'].
        cbn [fst] in IH. rewrite IH; [reflexivity | assumption | lra | lra].
      * apply Qgeb_lt in E. exfalso. lra.
    + destruct (Qgeb _ 1) eqn:E.
      * cbn [fst snd].
        specialize (IH (tick x)
          (mkRateLimiter (rate rl) (capacity rl) (capacity rl - 1) (clock env (ticks x)))).
        cbn [rate tokens capacity] in IH.
        destruct (acquire_each env (repeat 1 (S k)) (tick x) _) as [[r x'] rl'].
        cbn [fst] in IH. rewrite IH; [reflexivity | assumption | lra | lra].
      * apply Qgeb_lt in E. exfalso. lra.
Qed.

(** C7: [acquire] refills by [elapsed * rate] capped at [capacity] and
    stamps the refill time; it answers [True] and deducts the cost exactly
    when the refilled count minus the cost stays non-negative, and answers
    [False] with the refilled count kept otherwise. A fresh bucket with
    capacity 10 and rate 0 grants ten unit requests and refuses the
    eleventh, on every clock. *)
Theorem acquire_token_bucket (n : Q) (x : Ext) (rl : RateLimiter) :
  let now := clock env (ticks x) in
  let refilled := py_min (capacity rl) (tokens rl + (now - last_update rl) * rate rl) in
  refilled == Qmin (capacity rl) (tokens rl + (now - last_update rl) * rate rl) /\
  (exists (ok : bool) (rl' : RateLimiter),
      acquire env n x rl = (Returned ok, tick x, rl') /\
      last_update rl' = now /\ rate rl' = rate rl /\ capacity rl' = capacity rl /\
      (ok = true <-> 0 <= refilled - n) /\
      (ok = true -> tokens rl' = refilled - n) /\
      (ok = false -> tokens rl' = refilled)) /\
  fst (limiter_session env 0 10 (repeat 1 11) x) = repeat true 10 ++ [false].
Proof.
  cbv zeta. split; [apply py_min_Qmin | split].
  - exists (fst (acquire_at (clock env (ticks x)) n rl)),
           (snd (acquire_at (clock env (ticks x)) n rl)).
    split; [apply acquire_run | apply acquire_at_spec].
  - unfold limiter_session, RateLimiter_init, mbind, M_bind, m_bind, time_time,
      mret, M_ret, m_ret.
    pose proof (acquire_each_no_refill 10 (tick x)
                  (mkRateLimiter 0 10 10 (clock env (ticks x)))) as H.
    cbn [rate tokens capacity] in H.
    destruct (acquire_each env (repeat 1 11) (tick x) _) as [[r x'] rl'].
    cbn [fst] in H. rewrite H; [reflexivity | reflexivity | reflexivity | lra].
Qed.

End RateLimiterFacts.

Section RateLimiterInvariant.

Variable env : Env.
Hypothesis clock_monotone : forall i, clock env i <= clock env (S i).

Lemma acquire_at_bounds (now n : Q) (rl : RateLimiter) :
  0 <= n -> 0 <= rate rl -> last_update rl <= now ->
  0 <= tokens rl <= capacity rl ->
  0 <= tokens (snd (acquire_at now n rl)) <= capacity rl.
Proof.
  intros Hn Hrate Hnow [Hlo Hhi]. unfold acquire_at.
  set (grow := (now - last_update rl) * rate rl).
  assert (Hgrow : 0 <= grow) by (apply Qmult_le_0_compat; lra).
  pose proof (py_min_le_l (capacity rl) (tokens rl + grow)) as Hl.
  assert (Hg : 0 <= py_min (capacity rl) (tokens rl + grow))
    by (apply py_min_glb; lra).
  destruct (Qgeb _ n) eqn:E; cbn [snd tokens].
  - apply Qgeb_le in E. lra.
  - lra.
Qed.

Lemma acquire_each_bounds (costs : list Q) :
  forall (x : Ext) (rl : RateLimiter),
    Forall (fun n => 0 <= n) costs ->
    0 <= rate rl -> last_update rl <= clock env (ticks x) ->
    0 <= tokens rl <= capacity rl ->
    let rl' := snd (acquire_each env costs x rl) in
    (0 <= tokens rl' <= capacity rl') /\ capacity rl' = capacity rl.
Proof.
  induction costs as [|n rest IH]; intros x rl Hcosts Hrate Hlast Htok; cbv zeta.
  - cbn. split; [exact Htok | reflexivity].
  - inversion Hcosts as [|? ? Hn Hrest]; subst.
    cbn [acquire_each]. unfold mbind, M_bind, m_bind. rewrite acquire_run.
    pose proof (acquire_at_bounds (clock env (ticks x)) n rl Hn Hrate Hlast Htok) as Hb.
    pose proof (acquire_at_spec (clock env (ticks x)) n rl) as Hs. cbv zeta in Hs.
    destruct Hs as (Hlu & Hr & Hc & _).
    set (rl1 := snd (acquire_at (clock env (ticks x)) n rl)) in *.
    specialize (IH (tick x) rl1 Hrest).
    cbv zeta in IH. rewrite Hr, Hlu, Hc in IH.
    specialize (IH Hrate (clock_monotone (ticks x)) Hb).
    destruct (acquire_each env rest (tick x) rl1) as [[[oks|e|] x'] rl']; exact IH.
Qed.

(** C6, as the code has it: [acquire] does not clamp the elapsed time. On
    a clock that never runs backwards, with a non-negative rate and
    capacity and non-negative costs, the token count of a fresh limiter
    stays within [0, capacity] after every sequence of [acquire] calls. *)
Theorem tokens_bounded_on_monotone_clock (rate0 capacity0 : Q) (costs : list Q) (x : Ext) :
  0 <= rate0 -> 0 <= capacity0 -> Forall (fun n => 0 <= n) costs ->
  let rl := snd (limiter_session env rate0 capacity0 costs x) in
  0 <= tokens rl <= capacity rl /\ capacity rl = capacity0.
Proof.
  intros Hrate Hcap Hcosts. cbv zeta.
  unfold limiter_session, RateLimiter_init, mbind, M_bind, m_bind, time_time,
    mret, M_ret, m_ret.
  pose proof (acquire_each_bounds costs (tick x)
                (mkRateLimiter rate0 capacity0 capacity0 (clock env (ticks x)))
                Hcosts) as H.
  cbv zeta in H. cbn [rate last_update tokens capacity tick ticks] in H.
  specialize (H Hrate (clock_monotone (ticks x))).
  destruct (acquire_each env costs (tick x) _) as [[[oks|e|] x'] rl'];
    cbn [snd] in *; apply H; lra.
Qed.

End RateLimiterInvariant.

(** The bounds at two unit requests on the steady clock. *)
Lemma tokens_bounded_on_monotone_clock_witness :
  let rl := snd (limiter_session steady_env 1 10 [1; 1] start) in
  0 <= tokens rl <= capacity rl /\ capacity rl = 10.
Proof.
  apply (tokens_bounded_on_monotone_clock steady_env).
  - intros i. cbn [clock steady_env]. rewrite <- Zle_Qle. lia.
  - vm_compute. discriminate.
  - vm_compute. discriminate.
  - repeat constructor; vm_compute; discriminate.
Defined.

(** C6 as stated fails: after the clock is set back from 100 to 50, one
    [acquire] on a full bucket of capacity 10 and rate 1 leaves
    [10 + (50 - 100) * 1 = -40] tokens. *)
Lemma tokens_negative_after_clock_set_back :
  let rl := snd (limiter_session set_back_env 1 10 [1] start) in
  clock set_back_env 1 < clock set_back_env 0 /\
  fst (limiter_session set_back_env 1 10 [1] start) = [false] /\
  tokens rl == -40 /\
  ~ (0 <= tokens rl <= capacity rl).
Proof.
  cbv zeta. split; [reflexivity | split; [reflexivity | split; [reflexivity |]]].
  intros [H _]. vm_compute in H. apply H. reflexivity.
Qed.

(** ** CircuitBreaker *)

Section CircuitBreakerFacts.

Variable env : Env.

Lemma call_guard_not_open (x : Ext) (cb : CircuitBreaker) :
  state cb <> open -> call_guard env x cb = (Returned tt, x, cb).
Proof.
  intros H. unfold call_guard, mbind, M_bind, m_bind, get. cbn.
  destruct (state cb); [reflexivity | contradiction | reflexivity].
Qed.

Lemma call_guard_open (x : Ext) (cb : CircuitBreaker) (lf : Q) :
  state cb = open -> last_failure cb = Some lf ->
  call_guard env x cb =
  if Qltb (timeout cb) (clock env (ticks x) - lf)
  then (Returned tt, tick x, set_state half_open cb)
  else (Raised (Exception "Circuit breaker is open"), tick x, cb).
Proof.
  intros Hst Hlf. unfold call_guard, mbind, M_bind, m_bind, get, time_time. cbn.
  rewrite Hst, Hlf. now destruct (Qltb _ _).
Qed.

Lemma call_try_returned {A} (func : M unit A) (x x' : Ext) (u : unit) (r : A)
    (cb : CircuitBreaker) :
  func x tt = (Returned r, x', u) ->
  call_try env func x cb = (Returned r, x', settled cb).
Proof.
  intros H.
  unfold call_try, call_returned, settled. run_monad.
  rewrite H. now destruct (state cb).
Qed.

Lemma call_try_raised {A} (func : M unit A) (x x' : Ext) (u : unit) (e : PyExc)
    (cb : CircuitBreaker) :
  func x tt = (Raised e, x', u) ->
  call_try env func x cb = (Raised e, tick x', counted (clock env (ticks x')) cb).
Proof.
  intros H.
  unfold call_try, call_except, counted. run_monad.
  rewrite H. cbn. now destruct (_ >=? _)%Z.
Qed.

(** A cancelled operation is no failure for the breaker: the handler
    does not run, and a half-open breaker stays half-open. *)
Lemma call_try_cancelled {A} (func : M unit A) (x x' : Ext) (u : unit)
    (cb : CircuitBreaker) :
  func x tt = (Cancelled, x', u) ->
  call_try env func x cb = (Cancelled, x', cb).
Proof.
  intros H. unfold call_try, call_returned. run_monad. now rewrite H.
Qed.

(** The guard returns or raises; it awaits nothing. *)
Lemma call_guard_not_cancelled (x x' : Ext) (cb cb' : CircuitBreaker) :
  call_guard env x cb <> (Cancelled, x', cb').
Proof.
  unfold call_guard. run_monad.
  destruct (state cb); try discriminate.
  destruct (last_failure cb) as [lf|]; [destruct (Qltb _ _)|]; discriminate.
Qed.

Lemma call_unfold {A} (func : M unit A) (x : Ext) (cb : CircuitBreaker) :
  call env func x cb =
  match call_guard env x cb with
  | (Returned _, x', cb') => call_try env func x' cb'
  | (Raised e, x', cb') => (Raised e, x', cb')
  | (Cancelled, x', cb') => (Cancelled, x', cb')
  end.
Proof.
  unfold call, mbind, M_bind, m_bind.
  now destruct (call_guard env x cb) as [[[[]|e|] x'] cb'].
Qed.

Lemma call_try_invokes (m : Message) (x : Ext) (cb : CircuitBreaker) :
  handler_calls (snd (fst (call_try env (await_prototype env m) x cb)))
  = S (handler_calls x).
Proof.
  destruct (prototype_execute env (handler_calls x) m) as [r|e|] eqn:E.
  - rewrite (call_try_returned _ x (mkExt (ticks x) (S (handler_calls x))) tt r);
      [reflexivity |].
    unfold await_prototype. now rewrite E.
  - rewrite (call_try_raised _ x (mkExt (ticks x) (S (handler_calls x))) tt e);
      [reflexivity |].
    unfold await_prototype. now rewrite E.
  - rewrite (call_try_cancelled _ x (mkExt (ticks x) (S (handler_calls x))) tt);
      [reflexivity |].
    unfold await_prototype. now rewrite E.
Qed.

(** C4, as the code has it: an open breaker reads the clock; while
    [now - last_failure <= timeout] the call raises "Circuit breaker is
    open" and the operation is not run; once [now - last_failure > timeout]
    the breaker becomes half-open and the operation is run as the trial. *)
Theorem open_breaker_gate {A} (func : M unit A) (m : Message) (x : Ext)
    (cb : CircuitBreaker) (lf : Q) :
  state cb = open -> last_failure cb = Some lf ->
  let now := clock env (ticks x) in
  (now - lf <= timeout cb ->
     call env func x cb = (Raised (Exception "Circuit breaker is open"), tick x, cb)) /\
  (timeout cb < now - lf ->
     call_guard env x cb = (Returned tt, tick x, set_state half_open cb) /\
     call env func x cb = call_try env func (tick x) (set_state half_open cb) /\
     handler_calls (snd (fst (call env (await_prototype env m) x cb)))
     = S (handler_calls x)).
Proof.
  intros Hst Hlf. cbv zeta. split; intros Hcmp.
  - rewrite call_unfold, (call_guard_open x cb lf Hst Hlf).
    apply Qltb_ge in Hcmp. now rewrite Hcmp.
  - apply Qltb_lt in Hcmp.
    rewrite !call_unfold, (call_guard_open x cb lf Hst Hlf), Hcmp.
    repeat split. now rewrite call_try_invokes.
Qed.

Lemma settled_tripped (cb : CircuitBreaker) : tripped cb -> tripped (settled cb).
Proof.
  unfold tripped, settled. destruct (state cb) eqn:E; cbn; rewrite ?E; auto.
  intros _ H. now contradiction H.
Qed.

Lemma counted_tripped (now : Q) (cb : CircuitBreaker) : tripped cb -> tripped (counted now cb).
Proof.
  unfold tripped, counted. cbn.
  destruct (Z.geb_spec (failures cb + 1) (failure_threshold cb)) as [Hge|Hlt];
    cbn; intros Htr Hst.
  - lia.
  - specialize (Htr Hst). lia.
Qed.

Lemma call_guard_tripped (x : Ext) (cb : CircuitBreaker) :
  tripped cb -> tripped (snd (call_guard env x cb)).
Proof.
  intros H. destruct (state cb) eqn:Hst.
  - rewrite call_guard_not_open; [exact H | congruence].
  - unfold call_guard, mbind, M_bind, m_bind, get, time_time. cbn. rewrite Hst.
    destruct (last_failure cb) as [lf|]; [|exact H].
    destruct (Qltb _ _); cbn; [|exact H].
    unfold tripped in *. cbn. intros _. apply H. congruence.
  - rewrite call_guard_not_open; [exact H | congruence].
Qed.

Lemma call_tripped {A} (func : M unit A) (x : Ext) (cb : CircuitBreaker) :
  tripped cb -> tripped (snd (call env func x cb)).
Proof.
  intros H. rewrite call_unfold.
  pose proof (call_guard_tripped x cb H) as Hg.
  destruct (call_guard env x cb) as [[[[]|e|] x1] cb1]; cbn [snd] in *;
    [|exact Hg|exact Hg].
  destruct (func x1 tt) as [[[r|e|] x2] u] eqn:E.
  - erewrite call_try_returned by exact E. now apply settled_tripped.
  - erewrite call_try_raised by exact E. now apply counted_tripped.
  - erewrite call_try_cancelled by exact E. exact Hg.
Qed.

(** Every reachable breaker that is not closed has reached its threshold. *)
Lemma reachable_tripped (cb : CircuitBreaker) : reachable env cb -> tripped cb.
Proof.
  induction 1 as [th to | x cb _ IH | A func x cb _ IH].
  - unfold tripped. cbn. congruence.
  - now apply call_guard_tripped.
  - now apply call_tripped.
Qed.

(** C5: for a reachable half-open breaker the call is the trial, that is
    the [try] statement run on the operation. A trial that returns closes
    the breaker and resets the failure counter to 0; a trial that raises
    reopens it, stamps [last_failure] with the clock reading taken in the
    handler and counts one more failure. *)
Theorem half_open_trial {A} (func : M unit A) (x : Ext) (cb : CircuitBreaker) :
  reachable env cb -> state cb = half_open ->
  call env func x cb = call_try env func x cb /\
  (forall r x', func x tt = (Returned r, x', tt) ->
     exists cb', call env func x cb = (Returned r, x', cb') /\
                 state cb' = closed /\ failures cb' = 0%Z) /\
  (forall e x', func x tt = (Raised e, x', tt) ->
     exists cb', call env func x cb = (Raised e, tick x', cb') /\
                 state cb' = open /\
                 last_failure cb' = Some (clock env (ticks x')) /\
                 failures cb' = (failures cb + 1)%Z).
Proof.
  intros Hreach Hst.
  pose proof (reachable_tripped cb Hreach) as Htr.
  assert (Hg : call_guard env x cb = (Returned tt, x, cb))
    by (apply call_guard_not_open; congruence).
  split; [now rewrite call_unfold, Hg | split].
  - intros r x' Hf. exists (settled cb).
    rewrite call_unfold, Hg. split; [exact (call_try_returned func x x' tt r cb Hf) |].
    unfold settled. rewrite Hst. split; reflexivity.
  - intros e x' Hf. exists (counted (clock env (ticks x')) cb).
    rewrite call_unfold, Hg. split; [exact (call_try_raised func x x' tt e cb Hf) |].
    unfold counted. cbn.
    assert (Hge : (failure_threshold cb <= failures cb)%Z) by (apply Htr; congruence).
    destruct (Z.geb_spec (failures cb + 1) (failure_threshold cb)); [|lia].
    cbn. repeat split.
Qed.

End CircuitBreakerFacts.

(** The gate at both sides of the cool-down of [open_breaker]: a reading
    at second 1 is refused, a reading at second 1.1 lets the trial run. *)
Lemma open_breaker_gate_witness :
  call boundary_env (await_prototype boundary_env sample_message) (mkExt 3 3) open_breaker
  = (Raised (Exception "Circuit breaker is open"), mkExt 4 3, open_breaker) /\
  call_guard cooldown_env (mkExt 4 3) open_breaker
  = (Returned tt, mkExt 5 3, set_state half_open open_breaker) /\
  handler_calls
    (snd (fst (call cooldown_env (await_prototype cooldown_env sample_message)
                 (mkExt 4 3) open_breaker))) = 4%nat.
Proof.
  split.
  - apply (open_breaker_gate boundary_env (await_prototype boundary_env sample_message)
             sample_message (mkExt 3 3) open_breaker 0 eq_refl eq_refl).
    vm_compute. discriminate.
  - destruct (open_breaker_gate cooldown_env (await_prototype cooldown_env sample_message)
                sample_message (mkExt 4 3) open_breaker 0 eq_refl eq_refl) as [_ H].
    destruct H as (Hg & _ & Hc); [vm_compute; reflexivity |].
    split; [exact Hg | exact Hc].
Defined.

(** C4 as stated fails at the boundary: with threshold 3 and cool-down 1,
    three failures stamped at second 0 open the breaker, and a call whose
    clock reading is exactly second 1 ([now - last_failure = timeout]) is
    refused, the breaker stays open and the backend is not invoked. *)
Lemma boundary_call_is_rejected :
  let x3 := snd (fst tripped_at_boundary) in
  let cb3 := snd tripped_at_boundary in
  state cb3 = open /\ last_failure cb3 = Some 0 /\ timeout cb3 = 1 /\
  timeout cb3 <= clock boundary_env (ticks x3) - 0 /\
  call boundary_env (await_prototype boundary_env sample_message) x3 cb3
  = (Raised (Exception "Circuit breaker is open"), tick x3, cb3) /\
  state (snd (call_guard boundary_env x3 cb3)) <> half_open /\
  handler_calls (tick x3) = handler_calls x3.
Proof.
  vm_compute. repeat split; discriminate.
Qed.

(** The end-to-end scenario of the specification: threshold 3, cool-down
    1 second; three failures open the breaker, the call half a second
    later is refused without reaching the backend, the call at 1.1
    seconds runs the backend and closes the breaker. *)
Example cooldown_scenario :
  let m := sample_message in
  let '(rs, x, cb) := breaker_session cooldown_env 3 1 [m; m; m; m; m] start in
  rs = Returned [Raised (OtherException "RuntimeError" "backend down");
                 Raised (OtherException "RuntimeError" "backend down");
                 Raised (OtherException "RuntimeError" "backend down");
                 Raised (Exception "Circuit breaker is open");
                 Returned sample_response] /\
  state (snd (breaker_session cooldown_env 3 1 [m; m; m] start)) = open /\
  handler_calls (snd (fst (breaker_session cooldown_env 3 1 [m; m; m; m] start))) = 3%nat /\
  handler_calls x = 4%nat /\ state cb = closed /\ failures cb = 0%Z.
Proof. vm_compute. repeat split. Qed.

Lemma probing_breaker_reachable : reachable probe_env probing_breaker.
Proof. apply reach_guard, reach_call, reach_init. Defined.

(** The trial of [probing_breaker], once answered and once failed. *)
Lemma half_open_trial_witness :
  (exists cb',
      call probe_env (await_prototype steady_env sample_message) (mkExt 2 1) probing_breaker
      = (Returned sample_response, mkExt 2 2, cb') /\
      state cb' = closed /\ failures cb' = 0%Z) /\
  (exists cb',
      call probe_env (await_prototype probe_env sample_message) (mkExt 2 1) probing_breaker
      = (Raised (OtherException "RuntimeError" "backend down"), mkExt 3 2, cb') /\
      state cb' = open /\ last_failure cb' = Some 5 /\ failures cb' = 2%Z).
Proof.
  split.
  - apply (half_open_trial probe_env (await_prototype steady_env sample_message)
             (mkExt 2 1) probing_breaker probing_breaker_reachable eq_refl).
    reflexivity.
  - destruct (half_open_trial probe_env (await_prototype probe_env sample_message)
                (mkExt 2 1) probing_breaker probing_breaker_reachable eq_refl)
      as (_ & _ & H).
    exact (H (OtherException "RuntimeError" "backend down") (mkExt 2 2) eq_refl).
Defined.

(** ** AgentOSClient *)

Section TelemetryFacts.

Variable env : Env.

Lemma record_metric_run (name : string) (value : Q) (labels : list (string * string))
    (x : Ext) (c : AgentOSClient) :
  record_metric env name value labels x c
  = (Returned tt, tick x, recorded (clock env (ticks x)) name value labels c).
Proof.
  unfold record_metric, _flush_metrics, recorded. run_monad.
  cbn [metrics_buffer trace_id monitoring_backend traces].
  case_flush; [|reflexivity].
  destruct (metrics_buffer c ++ _) eqn:Eb; [|reflexivity].
  now apply app_eq_nil in Eb as [_ ?].
Qed.

Lemma on_agent_os_record_metric (name : string) (value : Q)
    (labels : list (string * string)) (x : Ext) (b : HybridAgentBridge) :
  on_agent_os (record_metric env name value labels) x b
  = (Returned tt, tick x,
     set_agent_os (recorded (clock env (ticks x)) name value labels (agent_os b)) b).
Proof. unfold on_agent_os, zoom. now rewrite record_metric_run. Qed.

Lemma recorded_traces now name value labels c :
  traces (recorded now name value labels c) = traces c.
Proof. unfold recorded. now case_flush. Qed.

Lemma recorded_all_metrics now name value labels c :
  all_metrics (recorded now name value labels c)
  = all_metrics c ++ [mkMetric name value now labels].
Proof.
  unfold recorded, all_metrics. case_flush; cbn.
  - now rewrite app_nil_r, app_assoc.
  - now rewrite app_assoc.
Qed.

Lemma ended_traces tid metadata c :
  traces (ended tid metadata c) = traces c ++ [(tid, metadata)].
Proof. reflexivity. Qed.

Lemma ended_all_metrics tid metadata c :
  all_metrics (ended tid metadata c) = all_metrics c.
Proof. reflexivity. Qed.

End TelemetryFacts.

(** ** HybridAgentBridge *)

Section BridgeFacts.

Variable env : Env.

Lemma check_cache_run (key : string) (x : Ext) (b : HybridAgentBridge) :
  _check_cache env key x b =
  match cache b !! key with
  | Some entry =>
      if Qltb (clock env (ticks x) - entry_timestamp entry) (cache_ttl b)
      then (Returned (Some (entry_response entry)), tick x, b)
      else (Returned None, tick x, set_cache (delete key (cache b)) b)
  | None => (Returned None, x, b)
  end.
Proof.
  unfold _check_cache. run_monad.
  destruct (cache b !! key) as [entry|]; [|reflexivity].
  now destruct (Qltb _ _).
Qed.

Lemma update_cache_run (key : string) (r : Response) (x : Ext) (b : HybridAgentBridge) :
  _update_cache env key r x b
  = (Returned tt, tick x,
     set_cache (<[key := mkCacheEntry r (clock env (ticks x))]> (cache b)) b).
Proof. reflexivity. Qed.

Lemma execute_except_run (tid : string) (st : Q) (e : PyExc) (x : Ext)
    (b : HybridAgentBridge) :
  execute_except env tid st e x b
  = (Returned (error_response (clock env (ticks x) - st)), tick (tick (tick x)),
     failed_bridge env tid st e x b).
Proof.
  unfold execute_except, failed_bridge. run_monad.
  repeat (rewrite on_agent_os_record_metric; cbv beta iota).
  reflexivity.
Qed.

Lemma execute_miss_raised (tid : string) (st : Q) (key : string) (message : Message)
    (x x' : Ext) (b : HybridAgentBridge) (e : PyExc) (cb' : CircuitBreaker) :
  call env (await_prototype env message) x (circuit_breaker b) = (Raised e, x', cb') ->
  execute_miss env tid st key message x b = (Raised e, x', set_circuit_breaker cb' b).
Proof.
  intros H. unfold execute_miss, on_circuit_breaker, mbind, M_bind, m_bind, zoom.
  now rewrite H.
Qed.

Lemma execute_miss_cancelled (tid : string) (st : Q) (key : string) (message : Message)
    (x x' : Ext) (b : HybridAgentBridge) (cb' : CircuitBreaker) :
  call env (await_prototype env message) x (circuit_breaker b) = (Cancelled, x', cb') ->
  execute_miss env tid st key message x b = (Cancelled, x', set_circuit_breaker cb' b).
Proof.
  intros H. unfold execute_miss, on_circuit_breaker, mbind, M_bind, m_bind, zoom.
  now rewrite H.
Qed.

Lemma execute_miss_returned (tid : string) (st : Q) (key : string) (message : Message)
    (x x' : Ext) (b : HybridAgentBridge) (r : Response) (cb' : CircuitBreaker) :
  call env (await_prototype env message) x (circuit_breaker b) = (Returned r, x', cb') ->
  execute_miss env tid st key message x b
  = (Returned r, tick (tick (tick (tick (tick x')))),
     served_bridge env tid st key r x' (set_circuit_breaker cb' b)).
Proof.
  intros H. unfold execute_miss, on_circuit_breaker, mbind, M_bind, m_bind, zoom.
  rewrite H, update_cache_run. unfold served_bridge. run_monad.
  repeat (rewrite on_agent_os_record_metric; cbv beta iota).
  reflexivity.
Qed.

Lemma execute_try_run (tid : string) (st : Q) (message : Message) (x : Ext)
    (b : HybridAgentBridge) :
  execute_try env tid st message x b =
  let key := _get_cache_key env message in
  let rl := acquire_at (clock env (ticks x)) 1 (rate_limiter b) in
  let b1 := set_rate_limiter (snd rl) b in
  if fst rl then
    match _check_cache env key (tick x) b1 with
    | (Returned (Some r), x2, b2) =>
        (Returned r, tick x2,
         set_agent_os (recorded (clock env (ticks x2)) "cache_hit" 1 [] (agent_os b2)) b2)
    | (Returned None, x2, b2) => execute_miss env tid st key message x2 b2
    | (Raised e, x2, b2) => (Raised e, x2, b2)
    | (Cancelled, x2, b2) => (Cancelled, x2, b2)
    end
  else (Raised (Exception "Rate limit exceeded - please retry"), tick x, b1).
Proof.
  cbv zeta. unfold execute_try, on_rate_limiter, mbind, M_bind, m_bind, zoom.
  rewrite acquire_run.
  destruct (acquire_at (clock env (ticks x)) 1 (rate_limiter b)) as [[|] rl']; cbn [fst snd negb];
    [|reflexivity].
  destruct (_check_cache env _ _ _) as [[[[r|]|e|] x2] b2]; try reflexivity.
  rewrite on_agent_os_record_metric. reflexivity.
Qed.

Lemma execute_run (message : Message) (x : Ext) (b : HybridAgentBridge) :
  execute env message x b =
  let tid := trace_name (clock env (ticks x)) in
  let st := clock env (S (ticks x)) in
  match execute_try env tid st message (tick (tick x))
          (set_agent_os (started tid (agent_os b)) b) with
  | (Returned r, x', b') => (Returned r, x', b')
  | (Raised e, x', b') =>
      (Returned (error_response (clock env (ticks x') - st)), tick (tick (tick x')),
       failed_bridge env tid st e x' b')
  | (Cancelled, x', b') => (Cancelled, x', b')
  end.
Proof.
  cbv zeta. unfold execute, on_agent_os, start_trace. run_monad. cbn [ticks tick].
  match goal with |- context [execute_try env ?t ?s message ?x1 ?b1] =>
    destruct (execute_try env t s message x1 b1) as [[[r|e|] x'] b'] eqn:E
  end.
  - unfold trace_name, started in *. cbn in E |- *. rewrite E. reflexivity.
  - unfold trace_name, started in *. cbn in E |- *. rewrite E.
    apply execute_except_run.
  - unfold trace_name, started in *. cbn in E |- *. rewrite E. reflexivity.
Qed.

(** [execute], path by path. *)
Lemma execute_cases (message : Message) (x : Ext) (b : HybridAgentBridge) :
  execute env message x b =
  let tid := trace_of env x in
  let st := start_time_of env x in
  let key := _get_cache_key env message in
  if fst (admission env x b) then
    match cache_lookup env message x b with
    | (Returned (Some r), x2, b2) =>
        (Returned r, tick x2,
         set_agent_os (recorded (clock env (ticks x2)) "cache_hit" 1 [] (agent_os b2)) b2)
    | (Returned None, x2, b2) =>
        match call env (await_prototype env message) x2 (circuit_breaker b2) with
        | (Returned r, x3, cb3) =>
            (Returned r, tick (tick (tick (tick (tick x3)))),
             served_bridge env tid st key r x3 (set_circuit_breaker cb3 b2))
        | (Raised e, x3, cb3) =>
            (Returned (error_response (clock env (ticks x3) - st)), tick (tick (tick x3)),
             failed_bridge env tid st e x3 (set_circuit_breaker cb3 b2))
        | (Cancelled, x3, cb3) => (Cancelled, x3, set_circuit_breaker cb3 b2)
        end
    | (Raised e, x2, b2) =>
        (Returned (error_response (clock env (ticks x2) - st)), tick (tick (tick x2)),
         failed_bridge env tid st e x2 b2)
    | (Cancelled, x2, b2) => (Cancelled, x2, b2)
    end
  else
    (Returned (error_response (clock env (S (S (S (ticks x)))) - st)),
     tick (tick (tick (tick (tick (tick x))))),
     failed_bridge env tid st (Exception "Rate limit exceeded - please retry")
       (tick (tick (tick x))) (granted env x b)).
Proof.
  rewrite execute_run. cbv zeta. rewrite execute_try_run. cbv zeta.
  unfold cache_lookup, granted, admission, begun, trace_of, start_time_of.
  cbn [ticks tick rate_limiter set_agent_os].
  destruct (acquire_at _ 1 (rate_limiter b)) as [[|] rl']; cbn [fst snd]; [|reflexivity].
  destruct (_check_cache env _ _ _) as [[[[r|]|e|] x2] b2]; try reflexivity.
  destruct (call env (await_prototype env message) x2 (circuit_breaker b2))
    as [[[r|e|] x3] cb3] eqn:E.
  - now rewrite (execute_miss_returned _ _ _ _ _ _ _ _ _ E).
  - now rewrite (execute_miss_raised _ _ _ _ _ _ _ _ _ E).
  - now rewrite (execute_miss_cancelled _ _ _ _ _ _ _ _ E).
Qed.

(** The cache lookup leaves the breaker and the counters alone and never
    raises. *)
Lemma cache_lookup_frame (message : Message) (x : Ext) (b : HybridAgentBridge) :
  exists (o : option Response) (x2 : Ext) (b2 : HybridAgentBridge),
    cache_lookup env message x b = (Returned o, x2, b2) /\
    handler_calls x2 = handler_calls x /\
    circuit_breaker b2 = circuit_breaker b /\
    request_count b2 = request_count b /\
    error_count b2 = error_count b /\
    total_latency b2 = total_latency b /\
    cache_ttl b2 = cache_ttl b /\
    traces (agent_os b2) = traces (agent_os b) /\
    all_metrics (agent_os b2) = all_metrics (agent_os b).
Proof.
  unfold cache_lookup. rewrite check_cache_run.
  destruct (cache (granted env x b) !! _) as [entry|].
  - destruct (Qltb _ _); eexists _, _, _; (split; [reflexivity |]); repeat split.
  - eexists _, _, _; (split; [reflexivity |]); repeat split.
Qed.

Lemma failed_bridge_frame (tid : string) (st : Q) (e : PyExc) (x : Ext)
    (b : HybridAgentBridge) :
  let b' := failed_bridge env tid st e x b in
  request_count b' = request_count b /\
  total_latency b' = total_latency b /\
  error_count b' = (error_count b + 1)%Z /\
  cache b' = cache b /\
  circuit_breaker b' = circuit_breaker b /\
  traces (agent_os b')
  = traces (agent_os b) ++ [(tid, TraceFailure (exc_str e) (clock env (ticks x) - st))].
Proof.
  cbv zeta. unfold failed_bridge.
  cbn [request_count total_latency error_count cache cache_ttl circuit_breaker agent_os
       set_agent_os set_error_count].
  rewrite ended_traces, !recorded_traces. repeat split.
Qed.

Lemma served_bridge_frame (tid : string) (st : Q) (key : string) (r : Response)
    (x : Ext) (b : HybridAgentBridge) :
  let b' := served_bridge env tid st key r x b in
  let latency := clock env (S (ticks x)) - st in
  request_count b' = (request_count b + 1)%Z /\
  total_latency b' = total_latency b + latency /\
  error_count b' = error_count b /\
  cache b' !! key = Some (mkCacheEntry r (clock env (ticks x))) /\
  cache_ttl b' = cache_ttl b /\
  circuit_breaker b' = circuit_breaker b /\
  traces (agent_os b') = traces (agent_os b) ++ [(tid, TraceSuccess latency (tools_used r))] /\
  all_metrics (agent_os b')
  = all_metrics (agent_os b) ++
    [mkMetric "request_success" 1 (clock env (S (S (ticks x)))) [];
     mkMetric "response_time" (latency * 1000) (clock env (S (S (S (ticks x))))) [];
     mkMetric "confidence" (confidence r) (clock env (S (S (S (S (ticks x))))))
       [("intent", substring 0 20 (content r))]].
Proof.
  cbv zeta. unfold served_bridge.
  cbn [request_count total_latency error_count cache cache_ttl circuit_breaker agent_os
       set_agent_os set_total_latency set_request_count set_cache].
  rewrite ended_traces, ended_all_metrics, !recorded_traces, !recorded_all_metrics.
  rewrite lookup_insert_eq, <- !app_assoc.
  repeat split.
Qed.

(** C9: right after [_update_cache key r], [_check_cache key] returns
    [r] as long as less than [cache_ttl] seconds separate the two clock
    readings; once [cache_ttl] seconds or more have elapsed it returns
    [None] and deletes the entry from the cache dictionary. *)
Theorem cache_put_then_get (key : string) (r : Response) (x x2 : Ext)
    (b : HybridAgentBridge) :
  let inserted := clock env (ticks x) in
  let now := clock env (ticks x2) in
  exists b1,
    _update_cache env key r x b = (Returned tt, tick x, b1) /\
    cache b1 !! key = Some (mkCacheEntry r inserted) /\
    cache_ttl b1 = cache_ttl b /\
    (now - inserted < cache_ttl b ->
       _check_cache env key x2 b1 = (Returned (Some r), tick x2, b1)) /\
    (cache_ttl b <= now - inserted ->
       exists b2,
         _check_cache env key x2 b1 = (Returned None, tick x2, b2) /\
         cache b2 = delete key (cache b1) /\
         cache b2 !! key = None).
Proof.
  cbv zeta. eexists. split; [apply update_cache_run |].
  cbn [cache cache_ttl set_cache]. rewrite lookup_insert_eq.
  split; [reflexivity | split; [reflexivity | split]]; intros H.
  - rewrite check_cache_run. cbn [cache cache_ttl set_cache entry_timestamp entry_response].
    rewrite lookup_insert_eq. cbn [entry_timestamp entry_response].
    apply Qltb_lt in H. now rewrite H.
  - eexists. rewrite check_cache_run. cbn [cache cache_ttl set_cache].
    rewrite lookup_insert_eq. cbn [entry_timestamp entry_response].
    apply Qltb_ge in H. rewrite H.
    split; [reflexivity |]. cbn [cache set_cache].
    split; [reflexivity | apply lookup_delete_eq].
Qed.

Lemma cache_lookup_inv (message : Message) (x x2 : Ext) (b b2 : HybridAgentBridge)
    (ro : Res (option Response)) :
  cache_lookup env message x b = (ro, x2, b2) ->
  (exists o, ro = Returned o) /\
  handler_calls x2 = handler_calls x /\
  circuit_breaker b2 = circuit_breaker b /\
  request_count b2 = request_count b /\
  error_count b2 = error_count b /\
  total_latency b2 = total_latency b /\
  cache_ttl b2 = cache_ttl b /\
  traces (agent_os b2) = traces (agent_os b) /\
  all_metrics (agent_os b2) = all_metrics (agent_os b).
Proof.
  intros H.
  destruct (cache_lookup_frame message x b) as (o & x2' & b2' & Heq & Hframe).
  rewrite Heq in H. injection H as <- <- <-.
  split; [now exists o | exact Hframe].
Qed.

Lemma call_rejected {A} (func : M unit A) (x : Ext) (cb : CircuitBreaker) (lf : Q) :
  state cb = open -> last_failure cb = Some lf ->
  clock env (ticks x) - lf <= timeout cb ->
  call env func x cb = (Raised (Exception "Circuit breaker is open"), tick x, cb).
Proof.
  intros Hst Hlf Hcmp.
  rewrite call_unfold, (call_guard_open env x cb lf Hst Hlf).
  apply Qltb_ge in Hcmp. now rewrite Hcmp.
Qed.

Lemma call_backend_raised (message : Message) (x x3 : Ext) (cb cb3 : CircuitBreaker)
    (e : PyExc) :
  call_guard env x cb = (Returned tt, x3, cb3) ->
  prototype_execute env (handler_calls x3) message = Raised e ->
  call env (await_prototype env message) x cb
  = (Raised e, mkExt (S (ticks x3)) (S (handler_calls x3)),
     counted (clock env (ticks x3)) cb3).
Proof.
  intros Hg He. rewrite call_unfold, Hg.
  rewrite (call_try_raised env _ x3 (mkExt (ticks x3) (S (handler_calls x3))) tt e);
    [reflexivity |].
  unfold await_prototype. now rewrite He.
Qed.

Lemma call_backend_returned (message : Message) (x x3 : Ext) (cb cb3 : CircuitBreaker)
    (r : Response) :
  call_guard env x cb = (Returned tt, x3, cb3) ->
  prototype_execute env (handler_calls x3) message = Returned r ->
  call env (await_prototype env message) x cb
  = (Returned r, mkExt (ticks x3) (S (handler_calls x3)), settled cb3).
Proof.
  intros Hg He. rewrite call_unfold, Hg.
  apply (call_try_returned env _ x3 (mkExt (ticks x3) (S (handler_calls x3))) tt r).
  unfold await_prototype. now rewrite He.
Qed.

Lemma call_backend_cancelled (message : Message) (x x3 : Ext) (cb cb3 : CircuitBreaker) :
  call_guard env x cb = (Returned tt, x3, cb3) ->
  prototype_execute env (handler_calls x3) message = Cancelled ->
  call env (await_prototype env message) x cb
  = (Cancelled, mkExt (ticks x3) (S (handler_calls x3)), cb3).
Proof.
  intros Hg He. rewrite call_unfold, Hg.
  apply (call_try_cancelled env _ x3 (mkExt (ticks x3) (S (handler_calls x3))) tt).
  unfold await_prototype. now rewrite He.
Qed.

(** The guarded backend call is cancelled only when the guard let it
    through and the backend invocation itself was cancelled. *)
Lemma call_cancelled_inv (message : Message) (x x' : Ext) (cb cb' : CircuitBreaker) :
  call env (await_prototype env message) x cb = (Cancelled, x', cb') ->
  exists x3,
    call_guard env x cb = (Returned tt, x3, cb') /\
    prototype_execute env (handler_calls x3) message = Cancelled /\
    x' = mkExt (ticks x3) (S (handler_calls x3)).
Proof.
  rewrite call_unfold.
  destruct (call_guard env x cb) as [[[[]|e|] x3] cb3] eqn:Hg;
    [| discriminate | now destruct (call_guard_not_cancelled env _ _ _ _ Hg)].
  destruct (prototype_execute env (handler_calls x3) message) as [r|e|] eqn:E.
  - rewrite (call_try_returned env _ x3 (mkExt (ticks x3) (S (handler_calls x3))) tt r)
      by (unfold await_prototype; now rewrite E).
    discriminate.
  - rewrite (call_try_raised env _ x3 (mkExt (ticks x3) (S (handler_calls x3))) tt e)
      by (unfold await_prototype; now rewrite E).
    discriminate.
  - rewrite (call_try_cancelled env _ x3 (mkExt (ticks x3) (S (handler_calls x3))) tt)
      by (unfold await_prototype; now rewrite E).
    intros [= <- <-]. now exists x3.
Qed.

Lemma call_guard_frame (x x3 : Ext) (cb cb3 : CircuitBreaker) (r : Res unit) :
  call_guard env x cb = (r, x3, cb3) ->
  failures cb3 = failures cb /\ failure_threshold cb3 = failure_threshold cb /\
  handler_calls x3 = handler_calls x.
Proof.
  unfold call_guard. run_monad. intros H.
  destruct (state cb); try (injection H as <- <- <-; now repeat split).
  destruct (last_failure cb) as [lf|]; [destruct (Qltb _ _)|];
    injection H as <- <- <-; now repeat split.
Qed.

(** C1, as the code has it: [execute] never raises an exception of the
    [Exception] hierarchy. When the rate limiter refuses, when the open
    breaker refuses, and when the backend call raises, it returns the
    error response: [success = False], [confidence = 0],
    [tools_used = []]. It does not return on every request: when the
    awaited backend call is cancelled, the [CancelledError] passes both
    [except Exception] clauses and reaches the caller, and this is the
    only way [execute] ends without a [Response]. The cancellation is
    recorded nowhere: the three counters, the breaker's failure counter,
    the traces and the metrics are what they were. *)
Theorem execute_returns_unless_cancelled (message : Message) (x : Ext)
    (b : HybridAgentBridge) :
  (forall e x' b', execute env message x b <> (Raised e, x', b')) /\
  (forall x' b',
     execute env message x b = (Cancelled, x', b') <->
     exists x2 b2 x3 cb3,
       fst (admission env x b) = true /\
       cache_lookup env message x b = (Returned None, x2, b2) /\
       call_guard env x2 (circuit_breaker b) = (Returned tt, x3, cb3) /\
       prototype_execute env (handler_calls x3) message = Cancelled /\
       x' = mkExt (ticks x3) (S (handler_calls x3)) /\
       b' = set_circuit_breaker cb3 b2) /\
  (forall x' b',
     execute env message x b = (Cancelled, x', b') ->
     handler_calls x' = S (handler_calls x) /\
     request_count b' = request_count b /\
     error_count b' = error_count b /\
     total_latency b' = total_latency b /\
     failures (circuit_breaker b') = failures (circuit_breaker b) /\
     traces (agent_os b') = traces (agent_os b) /\
     all_metrics (agent_os b') = all_metrics (agent_os b)) /\
  (fst (admission env x b) = false ->
     exists lat x' b', execute env message x b = (Returned (error_response lat), x', b')) /\
  (forall x2 b2 lf,
     fst (admission env x b) = true ->
     cache_lookup env message x b = (Returned None, x2, b2) ->
     state (circuit_breaker b) = open ->
     last_failure (circuit_breaker b) = Some lf ->
     clock env (ticks x2) - lf <= timeout (circuit_breaker b) ->
     exists lat x' b',
       execute env message x b = (Returned (error_response lat), x', b') /\
       handler_calls x' = handler_calls x) /\
  (forall x2 b2 x3 cb3 e,
     fst (admission env x b) = true ->
     cache_lookup env message x b = (Returned None, x2, b2) ->
     call_guard env x2 (circuit_breaker b) = (Returned tt, x3, cb3) ->
     prototype_execute env (handler_calls x3) message = Raised e ->
     exists lat x' b', execute env message x b = (Returned (error_response lat), x', b')) /\
  (forall lat,
     success (error_response lat) = false /\
     confidence (error_response lat) = 0 /\
     tools_used (error_response lat) = []).
Proof.
  rewrite execute_cases. cbv zeta.
  split; [| split; [| split; [| split; [| split; [| split]]]]].
  - intros e x' b'.
    destruct (fst (admission env x b)); [| discriminate].
    destruct (cache_lookup_frame message x b) as (o & x2 & b2 & -> & _).
    destruct o as [r|]; [discriminate |].
    destruct (call env _ x2 _) as [[[r|e'|] x3] cb3]; discriminate.
  - intros x' b'. split.
    + destruct (fst (admission env x b)); [| discriminate].
      destruct (cache_lookup_frame message x b)
        as (o & x2 & b2 & Hl & _ & Hcb & _). rewrite Hl.
      destruct o as [r|]; [discriminate |].
      destruct (call env _ x2 _) as [[[r|e'|] x3] cb3] eqn:Hcall; try discriminate.
      intros [= <- <-]. rewrite Hcb in Hcall.
      destruct (call_cancelled_inv _ _ _ _ _ Hcall) as (xg & Hg & He & ->).
      now exists x2, b2, xg, cb3.
    + intros (x2 & b2 & x3 & cb3 & -> & Hl & Hg & He & -> & ->). rewrite Hl.
      destruct (cache_lookup_inv _ _ _ _ _ _ Hl) as (_ & _ & Hcb & _).
      now rewrite Hcb, (call_backend_cancelled _ _ _ _ _ Hg He).
  - intros x' b'.
    destruct (fst (admission env x b)); [| discriminate].
    destruct (cache_lookup_frame message x b)
      as (o & x2 & b2 & Hl & Hcalls & Hcb & Hrc & Hec & Htl & _ & Htr & Hm). rewrite Hl.
    destruct o as [r|]; [discriminate |].
    destruct (call env _ x2 _) as [[[r|e'|] x3] cb3] eqn:Hcall; try discriminate.
    intros [= <- <-]. rewrite Hcb in Hcall.
    destruct (call_cancelled_inv _ _ _ _ _ Hcall) as (xg & Hg & He & ->).
    destruct (call_guard_frame _ _ _ _ _ Hg) as (Hf & _ & Hcg).
    cbn [handler_calls circuit_breaker request_count error_count total_latency agent_os
         set_circuit_breaker].
    repeat split; congruence.
  - intros ->. now eexists _, _, _.
  - intros x2 b2 lf -> Hl Hst Hlf Hcmp. rewrite Hl.
    destruct (cache_lookup_inv _ _ _ _ _ _ Hl) as (_ & Hcalls & Hcb & _).
    rewrite Hcb, (call_rejected _ x2 _ lf Hst Hlf Hcmp).
    eexists _, _, _. split; [reflexivity | exact Hcalls].
  - intros x2 b2 x3 cb3 e -> Hl Hg He. rewrite Hl.
    destruct (cache_lookup_inv _ _ _ _ _ _ Hl) as (_ & _ & Hcb & _).
    rewrite Hcb, (call_backend_raised _ _ _ _ _ _ Hg He).
    now eexists _, _, _.
  - intros lat. repeat split.
Qed.

(** C8, as the code has it: the rate-limit refusal, the open breaker and
    a raising backend all yield the same fixed [content]; what tells them
    apart is the error text handed to [end_trace]: "Rate limit exceeded -
    please retry", "Circuit breaker is open", and [str(e)] of the backend's
    exception. *)
Theorem failure_class_only_in_trace (message : Message) (x : Ext) (b : HybridAgentBridge) :
  (fst (admission env x b) = false ->
     exists lat x' b',
       execute env message x b = (Returned (error_response lat), x', b') /\
       traces (agent_os b')
       = traces (agent_os b) ++
         [(trace_of env x, TraceFailure "Rate limit exceeded - please retry" lat)]) /\
  (forall x2 b2 lf,
     fst (admission env x b) = true ->
     cache_lookup env message x b = (Returned None, x2, b2) ->
     state (circuit_breaker b) = open ->
     last_failure (circuit_breaker b) = Some lf ->
     clock env (ticks x2) - lf <= timeout (circuit_breaker b) ->
     exists lat x' b',
       execute env message x b = (Returned (error_response lat), x', b') /\
       traces (agent_os b')
       = traces (agent_os b) ++
         [(trace_of env x, TraceFailure "Circuit breaker is open" lat)]) /\
  (forall x2 b2 x3 cb3 e,
     fst (admission env x b) = true ->
     cache_lookup env message x b = (Returned None, x2, b2) ->
     call_guard env x2 (circuit_breaker b) = (Returned tt, x3, cb3) ->
     prototype_execute env (handler_calls x3) message = Raised e ->
     exists lat x' b',
       execute env message x b = (Returned (error_response lat), x', b') /\
       traces (agent_os b')
       = traces (agent_os b) ++ [(trace_of env x, TraceFailure (exc_str e) lat)]) /\
  (forall lat,
     content (error_response lat)
     = "I apologize, but I encountered an error. Please try again."%string /\
     success (error_response lat) = false).
Proof.
  rewrite execute_cases. cbv zeta.
  split; [| split; [| split]].
  - intros ->. eexists _, _, _. split; [reflexivity |].
    destruct (failed_bridge_frame (trace_of env x) (start_time_of env x)
                (Exception "Rate limit exceeded - please retry")
                (tick (tick (tick x))) (granted env x b)) as (_ & _ & _ & _ & _ & Ht).
    exact Ht.
  - intros x2 b2 lf -> Hl Hst Hlf Hcmp. rewrite Hl.
    destruct (cache_lookup_inv _ _ _ _ _ _ Hl) as (_ & _ & Hcb & _ & _ & _ & _ & Htr & _).
    rewrite Hcb, (call_rejected _ x2 _ lf Hst Hlf Hcmp).
    eexists _, _, _. split; [reflexivity |].
    destruct (failed_bridge_frame (trace_of env x) (start_time_of env x)
                (Exception "Circuit breaker is open") (tick x2)
                (set_circuit_breaker (circuit_breaker b) b2)) as (_ & _ & _ & _ & _ & Ht).
    rewrite Ht. cbn [agent_os set_circuit_breaker]. now rewrite Htr.
  - intros x2 b2 x3 cb3 e -> Hl Hg He. rewrite Hl.
    destruct (cache_lookup_inv _ _ _ _ _ _ Hl) as (_ & _ & Hcb & _ & _ & _ & _ & Htr & _).
    rewrite Hcb, (call_backend_raised _ _ _ _ _ _ Hg He).
    eexists _, _, _. split; [reflexivity |].
    match goal with |- traces (agent_os (failed_bridge _ ?t ?s ?e0 ?x0 ?b0)) = _ =>
      destruct (failed_bridge_frame t s e0 x0 b0) as (_ & _ & _ & _ & _ & Ht)
    end.
    rewrite Ht. cbn [agent_os set_circuit_breaker]. now rewrite Htr.
  - intros lat. split; reflexivity.
Qed.

(** C2, as the code has it: the three counters move on two kinds of
    return path only. A failure path (rate limit, open breaker or raising
    backend, i.e. the guarded call raised) adds 1 to [error_count] and
    leaves [request_count] and [total_latency] alone; the backend-success
    path adds 1 to [request_count] and the latency to [total_latency] and
    leaves [error_count] alone; a cache hit changes none of the three. *)
Theorem counters_by_return_path (message : Message) (x : Ext) (b : HybridAgentBridge) :
  (fst (admission env x b) = false ->
     exists r x' b',
       execute env message x b = (Returned r, x', b') /\
       request_count b' = request_count b /\
       total_latency b' = total_latency b /\
       error_count b' = (error_count b + 1)%Z) /\
  (forall x2 b2 x3 cb3 e,
     fst (admission env x b) = true ->
     cache_lookup env message x b = (Returned None, x2, b2) ->
     call env (await_prototype env message) x2 (circuit_breaker b) = (Raised e, x3, cb3) ->
     exists r x' b',
       execute env message x b = (Returned r, x', b') /\
       request_count b' = request_count b /\
       total_latency b' = total_latency b /\
       error_count b' = (error_count b + 1)%Z) /\
  (forall x2 b2 x3 cb3 r,
     fst (admission env x b) = true ->
     cache_lookup env message x b = (Returned None, x2, b2) ->
     call env (await_prototype env message) x2 (circuit_breaker b) = (Returned r, x3, cb3) ->
     exists x' b',
       execute env message x b = (Returned r, x', b') /\
       request_count b' = (request_count b + 1)%Z /\
       total_latency b'
       = total_latency b + (clock env (S (ticks x3)) - start_time_of env x) /\
       error_count b' = error_count b) /\
  (forall x2 b2 r,
     fst (admission env x b) = true ->
     cache_lookup env message x b = (Returned (Some r), x2, b2) ->
     exists x' b',
       execute env message x b = (Returned r, x', b') /\
       handler_calls x' = handler_calls x /\
       request_count b' = request_count b /\
       total_latency b' = total_latency b /\
       error_count b' = error_count b).
Proof.
  rewrite execute_cases. cbv zeta.
  split; [| split; [| split]].
  - intros ->. eexists _, _, _. split; [reflexivity |]. repeat split.
  - intros x2 b2 x3 cb3 e -> Hl Hc. rewrite Hl.
    destruct (cache_lookup_inv _ _ _ _ _ _ Hl) as (_ & _ & Hcb & Hrc & Hec & Htl & _).
    rewrite Hcb, Hc. eexists _, _, _. split; [reflexivity |].
    cbn. rewrite Hrc, Hec, Htl. repeat split.
  - intros x2 b2 x3 cb3 r -> Hl Hc. rewrite Hl.
    destruct (cache_lookup_inv _ _ _ _ _ _ Hl) as (_ & _ & Hcb & Hrc & Hec & Htl & _).
    rewrite Hcb, Hc. eexists _, _. split; [reflexivity |].
    cbn. rewrite Hrc, Hec, Htl. repeat split.
  - intros x2 b2 r -> Hl. rewrite Hl.
    destruct (cache_lookup_inv _ _ _ _ _ _ Hl) as (_ & Hcalls & _ & Hrc & Hec & Htl & _).
    eexists _, _. split; [reflexivity |].
    cbn. rewrite Hrc, Hec, Htl. repeat split. exact Hcalls.
Qed.

(** C10: a backend that returns a [Response] with [success = False] is
    not a failure for the breaker nor for the bridge. The breaker's
    failure counter is not incremented (a half-open trial closes the
    breaker and resets the counter); the bridge returns that [Response],
    caches it under the request's key, reports a successful trace and the
    three success metrics, and adds 1 to [request_count] and nothing to
    [error_count]: the final bridge is the one of the success path. *)
Theorem returned_failure_counts_as_success (message : Message) (r : Response)
    (x x2 x3 : Ext) (b b2 : HybridAgentBridge) (cb3 : CircuitBreaker) :
  success r = false ->
  fst (admission env x b) = true ->
  cache_lookup env message x b = (Returned None, x2, b2) ->
  call_guard env x2 (circuit_breaker b) = (Returned tt, x3, cb3) ->
  prototype_execute env (handler_calls x3) message = Returned r ->
  let x4 := mkExt (ticks x3) (S (handler_calls x3)) in
  let latency := clock env (S (ticks x4)) - start_time_of env x in
  let key := _get_cache_key env message in
  exists b',
    execute env message x b = (Returned r, tick (tick (tick (tick (tick x4)))), b') /\
    b' = served_bridge env (trace_of env x) (start_time_of env x) key r x4
           (set_circuit_breaker (settled cb3) b2) /\
    failures (circuit_breaker b')
    = match state cb3 with half_open => 0%Z | _ => failures (circuit_breaker b) end /\
    (state cb3 = half_open -> state (circuit_breaker b') = closed) /\
    cache b' !! key = Some (mkCacheEntry r (clock env (ticks x4))) /\
    request_count b' = (request_count b + 1)%Z /\
    error_count b' = error_count b /\
    traces (agent_os b')
    = traces (agent_os b) ++ [(trace_of env x, TraceSuccess latency (tools_used r))] /\
    all_metrics (agent_os b')
    = all_metrics (agent_os b) ++
      [mkMetric "request_success" 1 (clock env (S (S (ticks x4)))) [];
       mkMetric "response_time" (latency * 1000) (clock env (S (S (S (ticks x4))))) [];
       mkMetric "confidence" (confidence r) (clock env (S (S (S (S (ticks x4))))))
         [("intent", substring 0 20 (content r))]].
Proof.
  intros _ Hadm Hl Hg He. cbv zeta.
  rewrite execute_cases. cbv zeta. rewrite Hadm, Hl.
  destruct (cache_lookup_inv _ _ _ _ _ _ Hl)
    as (_ & _ & Hcb & Hrc & Hec & _ & _ & Htr & Hm).
  destruct (call_guard_frame _ _ _ _ _ Hg) as (Hf & _ & _).
  rewrite Hcb, (call_backend_returned _ _ _ _ _ _ Hg He).
  eexists. split; [reflexivity |]. split; [reflexivity |].
  destruct (served_bridge_frame (trace_of env x) (start_time_of env x)
              (_get_cache_key env message) r
              (mkExt (ticks x3) (S (handler_calls x3)))
              (set_circuit_breaker (settled cb3) b2))
    as (Hrc' & _ & Hec' & Hcache & _ & Hcb' & Htr' & Hm').
  cbv zeta in *. rewrite Hrc', Hec', Hcache, Hcb', Htr', Hm'.
  cbn [circuit_breaker request_count error_count agent_os set_circuit_breaker ticks].
  rewrite Hrc, Hec, Htr, Hm.
  repeat split.
  - unfold settled. destruct (state cb3); cbn; congruence.
  - intros Hst. unfold settled. now rewrite Hst.
Qed.

(** C3, as the code has it: only a [Response] returned by the backend is
    cached. Take a first call that is let through and misses the cache.
    If its backend invocation returns [r], then a second call with the
    same content, started on the bridge the first call left, let through
    and looking the cache up less than [cache_ttl] seconds after the
    store, returns the same [r] (hence the same [success]) and does not
    invoke the backend. If instead its guarded backend call raises (the
    open breaker refuses, or the backend raises), the first call returns
    the error response and leaves no entry under the key; a second call
    with the same content that is let through then misses the cache as
    well and is the breaker's to decide: it gets the error response
    without the backend being invoked when the breaker is open and still
    cooling down, and it invokes the backend when the guard lets it
    pass. *)
Theorem repeated_request_served_from_cache (m1 m2 : Message)
    (x x2 : Ext) (b b2 : HybridAgentBridge) :
  m_content m1 = m_content m2 ->
  fst (admission env x b) = true ->
  cache_lookup env m1 x b = (Returned None, x2, b2) ->
  (forall r x3 cb3,
     call_guard env x2 (circuit_breaker b) = (Returned tt, x3, cb3) ->
     prototype_execute env (handler_calls x3) m1 = Returned r ->
     exists x1 b1,
       execute env m1 x b = (Returned r, x1, b1) /\
       handler_calls x1 = S (handler_calls x) /\
       forall xs,
         fst (admission env xs b1) = true ->
         clock env (S (S (S (ticks xs)))) - clock env (ticks x3) < cache_ttl b ->
         exists b',
           execute env m2 xs b1 = (Returned r, tick (tick (tick (tick (tick xs)))), b') /\
           handler_calls (tick (tick (tick (tick (tick xs))))) = handler_calls xs) /\
  (forall e x3 cb3,
     call env (await_prototype env m1) x2 (circuit_breaker b) = (Raised e, x3, cb3) ->
     exists lat x1 b1,
       execute env m1 x b = (Returned (error_response lat), x1, b1) /\
       cache b1 !! _get_cache_key env m1 = None /\
       circuit_breaker b1 = cb3 /\
       forall xs,
         fst (admission env xs b1) = true ->
         exists xl bl,
           cache_lookup env m2 xs b1 = (Returned None, xl, bl) /\
           handler_calls xl = handler_calls xs /\
           (forall lf,
              state cb3 = open -> last_failure cb3 = Some lf ->
              clock env (ticks xl) - lf <= timeout cb3 ->
              exists lat2 x' b',
                execute env m2 xs b1 = (Returned (error_response lat2), x', b') /\
                handler_calls x' = handler_calls xs) /\
           (forall xg cbg,
              call_guard env xl cb3 = (Returned tt, xg, cbg) ->
              handler_calls (snd (fst (execute env m2 xs b1))) = S (handler_calls xs))).
Proof.
  intros Hcontent Hadm Hl.
  assert (Hkey : _get_cache_key env m2 = _get_cache_key env m1)
    by (unfold _get_cache_key; now rewrite Hcontent).
  destruct (cache_lookup_inv _ _ _ _ _ _ Hl)
    as (_ & Hcalls & Hcb & _ & _ & _ & Httl & _).
  split.
  - intros r x3 cb3 Hg He.
    rewrite execute_cases. cbv zeta. rewrite Hadm, Hl.
    destruct (call_guard_frame _ _ _ _ _ Hg) as (_ & _ & Hcalls3).
    rewrite Hcb, (call_backend_returned _ _ _ _ _ _ Hg He).
    eexists _, _. split; [reflexivity |].
    split; [cbn; congruence |].
    intros xs Hadm2 Hfresh.
    rewrite execute_cases. cbv zeta. rewrite Hadm2.
    unfold cache_lookup. rewrite check_cache_run, Hkey.
    match goal with |- context [served_bridge env ?t ?s ?k r ?y ?bb] =>
      destruct (served_bridge_frame t s k r y bb) as (_ & _ & _ & Hcache & Httl' & _);
      set (b1 := served_bridge env t s k r y bb) in *
    end.
    cbn [cache cache_ttl granted begun set_rate_limiter set_agent_os].
    rewrite Hcache, Httl'.
    cbn [cache_ttl set_circuit_breaker entry_timestamp entry_response ticks tick].
    rewrite Httl. apply Qltb_lt in Hfresh. rewrite Hfresh.
    eexists. split; reflexivity.
  - intros e x3 cb3 Hcall.
    rewrite execute_cases. cbv zeta. rewrite Hadm, Hl, Hcb, Hcall.
    eexists _, _, _. split; [reflexivity |].
    match goal with |- context [failed_bridge env ?t ?s e ?y ?bb] =>
      destruct (failed_bridge_frame t s e y bb) as (_ & _ & _ & Hcache & Hcb1 & _);
      set (b1 := failed_bridge env t s e y bb) in *
    end.
    cbv zeta in Hcache, Hcb1. cbn [cache circuit_breaker set_circuit_breaker] in Hcache, Hcb1.
    assert (Hnone : cache b1 !! _get_cache_key env m1 = None).
    { rewrite Hcache. unfold cache_lookup in Hl. rewrite check_cache_run in Hl.
      change (cache (granted env x b)) with (cache b) in Hl.
      destruct (cache b !! _get_cache_key env m1) as [entry|] eqn:Hentry.
      - destruct (Qltb _ _); [discriminate |]. injection Hl as _ <-.
        cbn [cache set_cache]. apply lookup_delete_eq.
      - injection Hl as _ <-. exact Hentry. }
    split; [exact Hnone | split; [exact Hcb1 |]].
    intros xs Hadm2.
    assert (Hl2 : cache_lookup env m2 xs b1
                  = (Returned None, tick (tick (tick xs)), granted env xs b1)).
    { unfold cache_lookup. rewrite check_cache_run, Hkey.
      change (cache (granted env xs b1)) with (cache b1). now rewrite Hnone. }
    eexists _, _. split; [exact Hl2 |]. split; [reflexivity |].
    assert (Hcb2 : circuit_breaker (granted env xs b1) = cb3) by exact Hcb1.
    split.
    + intros lf Hst Hlf Hcmp.
      rewrite execute_cases. cbv zeta. rewrite Hadm2, Hl2, Hcb2.
      rewrite (call_rejected _ _ cb3 lf Hst Hlf Hcmp).
      eexists _, _, _. split; reflexivity.
    + intros xg cbg Hg.
      destruct (call_guard_frame _ _ _ _ _ Hg) as (_ & _ & Hcg).
      cbn [tick handler_calls] in Hcg.
      rewrite execute_cases. cbv zeta. rewrite Hadm2, Hl2, Hcb2.
      pose proof (call_try_invokes env m2 xg cbg) as Hinv.
      rewrite call_unfold, Hg.
      destruct (call_try env (await_prototype env m2) xg cbg) as [[[r|e'|] x4] cb4];
        cbn [fst snd tick handler_calls] in Hinv |- *; congruence.
Qed.

End BridgeFacts.

(** ** The bridge on concrete runs *)

Lemma fresh_bridge_is_init :
  HybridAgentBridge_init steady_env start tt = (Returned fresh_bridge, mkExt 1 0, tt).
Proof. reflexivity. Qed.

(** Ten unit requests granted and the eleventh refused on the steady
    clock. *)
Lemma acquire_token_bucket_witness :
  fst (limiter_session steady_env 0 10 (repeat 1 11) start) = repeat true 10 ++ [false].
Proof.
  apply (acquire_token_bucket steady_env 1 start (mkRateLimiter 0 10 10 0)).
Defined.

(** A response stored at second 1 is found at second 2 and gone at
    second 301, with the bridge's [cache_ttl] of 300 seconds. *)
Lemma cache_put_then_get_witness :
  exists b1,
    _update_cache steady_env "msg:16" sample_response (mkExt 1 0) fresh_bridge
    = (Returned tt, mkExt 2 0, b1) /\
    _check_cache steady_env "msg:16" (mkExt 2 0) b1 = (Returned (Some sample_response), mkExt 3 0, b1) /\
    exists b2,
      _check_cache steady_env "msg:16" (mkExt 301 0) b1 = (Returned None, mkExt 302 0, b2) /\
      cache b2 !! "msg:16"%string = None.
Proof.
  destruct (cache_put_then_get steady_env "msg:16" sample_response (mkExt 1 0) (mkExt 2 0)
              fresh_bridge) as (b1 & Hput & _ & _ & Hhit & _).
  destruct (cache_put_then_get steady_env "msg:16" sample_response (mkExt 1 0) (mkExt 301 0)
              fresh_bridge) as (b1' & Hput' & _ & _ & _ & Hgone).
  rewrite Hput in Hput'. injection Hput' as <-.
  exists b1. split; [exact Hput | split].
  - apply Hhit. vm_compute. reflexivity.
  - destruct Hgone as (b2 & Hget & _ & Hnone); [vm_compute; discriminate |].
    exists b2. split; [exact Hget | exact Hnone].
Defined.

(** A raising backend on the fresh bridge: the caller gets the error
    response. *)
Lemma execute_returns_unless_cancelled_witness :
  exists lat x' b',
    execute failing_env sample_message (mkExt 1 0) fresh_bridge
    = (Returned (error_response lat), x', b').
Proof.
  destruct (execute_returns_unless_cancelled failing_env sample_message (mkExt 1 0)
              fresh_bridge)
    as (_ & _ & _ & _ & _ & Hraise & _).
  apply (Hraise (mkExt 4 0) (granted failing_env (mkExt 1 0) fresh_bridge) (mkExt 4 0)
           (circuit_breaker fresh_bridge)
           (OtherException "RuntimeError" "backend down"));
    vm_compute; reflexivity.
Defined.

Lemma failure_class_only_in_trace_witness :
  exists lat x' b',
    execute failing_env sample_message (mkExt 1 0) fresh_bridge
    = (Returned (error_response lat), x', b') /\
    traces (agent_os b')
    = traces (agent_os fresh_bridge) ++
      [(trace_of failing_env (mkExt 1 0), TraceFailure "backend down" lat)].
Proof.
  destruct (failure_class_only_in_trace failing_env sample_message (mkExt 1 0) fresh_bridge)
    as (_ & _ & Hraise & _).
  apply (Hraise (mkExt 4 0) (granted failing_env (mkExt 1 0) fresh_bridge) (mkExt 4 0)
           (circuit_breaker fresh_bridge)
           (OtherException "RuntimeError" "backend down"));
    vm_compute; reflexivity.
Defined.

Lemma counters_by_return_path_witness :
  exists x' b',
    execute steady_env sample_message (mkExt 1 0) fresh_bridge
    = (Returned sample_response, x', b') /\
    request_count b' = 1%Z /\ total_latency b' = 0 + (5 - 2) /\ error_count b' = 0%Z.
Proof.
  destruct (counters_by_return_path steady_env sample_message (mkExt 1 0) fresh_bridge)
    as (_ & _ & Hserved & _).
  apply (Hserved (mkExt 4 0) (granted steady_env (mkExt 1 0) fresh_bridge) (mkExt 4 1)
           (circuit_breaker fresh_bridge) sample_response);
    vm_compute; reflexivity.
Defined.

Lemma returned_failure_counts_as_success_witness :
  exists b',
    execute apologising_env sample_message (mkExt 1 0) fresh_bridge
    = (Returned apology, mkExt 9 1, b') /\
    failures (circuit_breaker b') = 0%Z /\
    request_count b' = 1%Z /\ error_count b' = 0%Z.
Proof.
  destruct (returned_failure_counts_as_success apologising_env sample_message apology
              (mkExt 1 0) (mkExt 4 0) (mkExt 4 0) fresh_bridge
              (granted apologising_env (mkExt 1 0) fresh_bridge)
              (circuit_breaker fresh_bridge)
              eq_refl eq_refl eq_refl eq_refl eq_refl)
    as (b' & Hrun & _ & Hfail & _ & _ & Hrc & Hec & _).
  exists b'. repeat split; assumption.
Defined.

Lemma repeated_request_served_from_cache_witness :
  (exists x1 b1,
      execute steady_env sample_message (mkExt 1 0) fresh_bridge
      = (Returned sample_response, x1, b1) /\
      exists b',
        execute steady_env sample_message (mkExt 9 1) b1
        = (Returned sample_response, mkExt 14 1, b')) /\
  (exists lat x1 b1,
      execute failing_env sample_message (mkExt 1 0) fresh_bridge
      = (Returned (error_response lat), x1, b1) /\
      cache b1 !! _get_cache_key failing_env sample_message = None /\
      handler_calls (snd (fst (execute failing_env sample_message (mkExt 8 1) b1))) = 2%nat).
Proof.
  split.
  - destruct (repeated_request_served_from_cache steady_env sample_message sample_message
                (mkExt 1 0) (mkExt 4 0) fresh_bridge
                (granted steady_env (mkExt 1 0) fresh_bridge)
                eq_refl eq_refl eq_refl) as [Hserved _].
    destruct (Hserved sample_response (mkExt 4 0) (circuit_breaker fresh_bridge)
                eq_refl eq_refl) as (x1 & b1 & Hrun & _ & Hsecond).
    exists x1, b1. split; [exact Hrun |].
    assert (Hb1 : b1 = snd served_once).
    { unfold served_once. now rewrite Hrun. }
    destruct (Hsecond (mkExt 9 1)) as (b' & Hrun2 & _).
    + rewrite Hb1. vm_compute. reflexivity.
    + vm_compute. reflexivity.
    + now exists b'.
  - destruct (repeated_request_served_from_cache failing_env sample_message sample_message
                (mkExt 1 0) (mkExt 4 0) fresh_bridge
                (granted failing_env (mkExt 1 0) fresh_bridge)
                eq_refl eq_refl eq_refl) as [_ Hfailed].
    destruct (Hfailed (OtherException "RuntimeError" "backend down") (mkExt 5 1)
                (counted 4 (circuit_breaker fresh_bridge)) eq_refl)
      as (lat & x1 & b1 & Hrun & Hnone & Hcb & Hsecond).
    exists lat, x1, b1. split; [exact Hrun | split; [exact Hnone |]].
    assert (Hb1 : b1 = snd (execute failing_env sample_message (mkExt 1 0) fresh_bridge))
      by now rewrite Hrun.
    destruct (Hsecond (mkExt 8 1)) as (xl & bl & Hl2 & _ & _ & Hpass).
    + rewrite Hb1. vm_compute. reflexivity.
    + assert (Hxl : xl = mkExt 11 1).
      { unfold cache_lookup in Hl2. rewrite Hb1 in Hl2. vm_compute in Hl2.
        now injection Hl2 as <- _. }
      subst xl.
      exact (Hpass (mkExt 11 1) (counted 4 (circuit_breaker fresh_bridge)) eq_refl).
Defined.

(** C1 as stated fails when the awaited backend call is cancelled: the
    request is let through, misses the cache, the closed breaker lets it
    pass, and the [CancelledError] leaves [execute] without a
    [Response]; the backend was invoked once, and neither [error_count]
    nor the breaker's failure counter nor any trace or metric records
    the request. *)
Lemma cancelled_request_gets_no_response :
  let '(out, x1, b1) := cancelled_once in
  fst (admission cancelling_env (mkExt 1 0) fresh_bridge) = true /\
  out = Cancelled /\
  (forall r, out <> Returned r) /\
  handler_calls x1 = 1%nat /\
  request_count b1 = 0%Z /\ error_count b1 = 0%Z /\
  failures (circuit_breaker b1) = 0%Z /\ state (circuit_breaker b1) = closed /\
  traces (agent_os b1) = [] /\ all_metrics (agent_os b1) = [].
Proof. vm_compute. repeat split; discriminate. Qed.

(** C2 as stated fails on the cache-hit path: the second of two equal
    requests is answered from the cache and leaves [request_count],
    [total_latency] and [error_count] as the first request left them. *)
Lemma cache_hit_updates_no_counter :
  let '(r1, x1, b1) := served_once in
  let '(r2, x2, b2) := again steady_env served_once in
  r1 = Returned sample_response /\ r2 = Returned sample_response /\
  handler_calls x1 = 1%nat /\ handler_calls x2 = 1%nat /\
  request_count b2 = request_count b1 /\
  total_latency b2 = total_latency b1 /\
  error_count b2 = error_count b1.
Proof. vm_compute. repeat split. Qed.

(** C3 as stated fails when the first call fails: both calls are let
    through and made sixteen seconds apart on a TTL of 300, the backend
    raises on the first and answers the second, so it is invoked twice
    and the two [success] flags differ. *)
Lemma failed_request_is_not_cached :
  let '(r1, x1, b1) := failed_once in
  let '(r2, x2, b2) := again flaky_env failed_once in
  fst (admission flaky_env (mkExt 1 0) fresh_bridge) = true /\
  fst (admission flaky_env x1 b1) = true /\
  clock flaky_env (ticks x2) - clock flaky_env 1 < cache_ttl fresh_bridge /\
  handler_calls x2 = 2%nat /\
  r1 = Returned (error_response 3) /\ r2 = Returned sample_response /\
  success (error_response 3) <> success sample_response.
Proof. vm_compute. repeat split; discriminate. Qed.

(** C8 as stated fails: the 1001st request on a clock that stands still
    is rate limited, the first request on a failing backend is a backend
    failure and the sixth finds the breaker open; the traces tell the
    three apart, the returned [content] is the same. *)
Lemma failure_contents_coincide :
  match bridge_session frozen_env (repeat sample_message 1001) start tt,
        bridge_session failing_env (repeat sample_message 6) start tt with
  | (Returned (rs1, b1), _, _), (Returned (rs2, b2), _, _) =>
      rs1 !! 1000%nat = Some (Returned (error_response 0)) /\
      last (traces (agent_os b1))
      = Some ("trace-0"%string, TraceFailure "Rate limit exceeded - please retry" 0) /\
      rs2 !! 0%nat = Some (Returned (error_response 3)) /\
      traces (agent_os b2) !! 0%nat
      = Some ("trace-1000"%string, TraceFailure "backend down" 3) /\
      rs2 !! 5%nat = Some (Returned (error_response 3)) /\
      traces (agent_os b2) !! 5%nat
      = Some ("trace-36000"%string, TraceFailure "Circuit breaker is open" 3) /\
      content (error_response 0) = content (error_response 3)
  | _, _ => False
  end.
Proof. vm_compute. repeat split. Qed.

(** * Further properties of the code *)

(** ** RateLimiter: what holds on every clock *)

Section RateLimiterThroughput.

Variable env : Env.

Lemma acquire_each_capped (costs : list Q) :
  forall (x : Ext) (rl : RateLimiter),
    Forall (fun n => 0 <= n) costs ->
    tokens rl <= capacity rl ->
    let rl' := snd (acquire_each env costs x rl) in
    tokens rl' <= capacity rl' /\ capacity rl' = capacity rl /\ rate rl' = rate rl.
Proof.
  induction costs as [|n rest IH]; intros x rl Hcosts Htok; cbv zeta.
  - cbn. repeat split. exact Htok.
  - inversion Hcosts as [|? ? Hn Hrest]; subst.
    cbn [acquire_each]. unfold mbind, M_bind, m_bind. rewrite acquire_run.
    pose proof (acquire_at_spec (clock env (ticks x)) n rl) as Hs. cbv zeta in Hs.
    destruct Hs as (_ & Hr & Hc & _ & Hyes & Hno).
    pose proof (py_min_le_l (capacity rl)
                  (tokens rl + (clock env (ticks x) - last_update rl) * rate rl)) as Hle.
    set (rl1 := snd (acquire_at (clock env (ticks x)) n rl)) in *.
    assert (Htok1 : tokens rl1 <= capacity rl1).
    { rewrite Hc. destruct (fst (acquire_at (clock env (ticks x)) n rl)).
      - rewrite Hyes by reflexivity. lra.
      - rewrite Hno by reflexivity. lra. }
    specialize (IH (tick x) rl1 Hrest Htok1). cbv zeta in IH.
    rewrite Hc, Hr in IH.
    destruct (acquire_each env rest (tick x) rl1) as [[[oks|e|] x'] rl']; exact IH.
Qed.

(** X1: whatever the clock does, a limiter never holds more tokens than
    its capacity after [acquire] calls of non-negative cost. *)
Theorem tokens_never_exceed_capacity (rate0 capacity0 : Q) (costs : list Q) (x : Ext) :
  Forall (fun n => 0 <= n) costs ->
  let rl := snd (limiter_session env rate0 capacity0 costs x) in
  tokens rl <= capacity0 /\ capacity rl = capacity0 /\ rate rl = rate0.
Proof.
  intros Hcosts. cbv zeta.
  unfold limiter_session, RateLimiter_init. run_monad.
  pose proof (acquire_each_capped costs (tick x)
                (mkRateLimiter rate0 capacity0 capacity0 (clock env (ticks x)))
                Hcosts) as H.
  cbv zeta in H. cbn [tokens capacity rate] in H.
  assert (H0 : capacity0 <= capacity0) by lra. specialize (H H0).
  destruct (acquire_each env costs (tick x) _) as [[[oks|e|] x'] rl'];
    cbn [snd] in *; destruct H as (H1 & H2 & H3); rewrite H2 in H1; auto.
Qed.

(** The tokens left plus the tokens handed out never exceed the tokens
    held before plus the refill of the time elapsed. *)
Lemma acquire_each_balance (costs : list Q) :
  forall (x : Ext) (rl : RateLimiter),
    match acquire_each env costs x rl with
    | (Returned oks, _, rl') =>
        tokens rl' + granted_total costs oks
        <= tokens rl + (last_update rl' - last_update rl) * rate rl /\
        rate rl' = rate rl /\
        length oks = length costs
    | _ => False
    end.
Proof.
  induction costs as [|n rest IH]; intros x rl.
  - cbn. repeat split. lra.
  - cbn [acquire_each]. unfold mbind, M_bind, m_bind. rewrite acquire_run.
    pose proof (acquire_at_spec (clock env (ticks x)) n rl) as Hs. cbv zeta in Hs.
    destruct Hs as (Hlu & Hr & _ & _ & Hyes & Hno).
    pose proof (py_min_le_r (capacity rl)
                  (tokens rl + (clock env (ticks x) - last_update rl) * rate rl)) as Hle.
    set (ok := fst (acquire_at (clock env (ticks x)) n rl)) in *.
    set (rl1 := snd (acquire_at (clock env (ticks x)) n rl)) in *.
    specialize (IH (tick x) rl1).
    destruct (acquire_each env rest (tick x) rl1) as [[[oks|e|] x'] rl'];
      [|exact IH|exact IH].
    destruct IH as (Hbal & Hrate & Hlen).
    run_monad. cbn [granted_total length].
    rewrite Hr, Hlu in Hbal. rewrite Hrate, Hr, Hlen.
    split; [|split; reflexivity].
    destruct ok.
    + rewrite Hyes in Hbal by reflexivity. lra.
    + rewrite Hno in Hbal by reflexivity. lra.
Qed.

End RateLimiterThroughput.

(** X2: the rate limit itself, in exact arithmetic. On a clock that
    never runs backwards, with non-negative rate, capacity and costs, the
    tokens a fresh limiter hands out up to its latest [acquire] are at
    most its capacity plus the rate times the time elapsed since it was
    built. The bound is one of the rationals of the model: the program
    computes [elapsed * rate] in binary64, and where that product is
    rounded up it can grant a request that the exact bound refuses. *)
Theorem granted_within_capacity_and_refill (env : Env) (rate0 capacity0 : Q)
    (costs : list Q) (x : Ext) :
  (forall i, clock env i <= clock env (S i)) ->
  0 <= rate0 -> 0 <= capacity0 -> Forall (fun n => 0 <= n) costs ->
  let oks := fst (limiter_session env rate0 capacity0 costs x) in
  let rl := snd (limiter_session env rate0 capacity0 costs x) in
  length oks = length costs /\
  granted_total costs oks
  <= capacity0 + (last_update rl - clock env (ticks x)) * rate0.
Proof.
  intros Hmono Hrate Hcap Hcosts. cbv zeta.
  unfold limiter_session, RateLimiter_init. run_monad.
  set (rl0 := mkRateLimiter rate0 capacity0 capacity0 (clock env (ticks x))).
  pose proof (acquire_each_balance env costs (tick x) rl0) as Hbal.
  pose proof (acquire_each_bounds env Hmono costs (tick x) rl0 Hcosts) as Hb.
  cbv zeta in Hb. cbn [rate last_update tokens capacity tick ticks rl0] in Hb.
  specialize (Hb Hrate (Hmono (ticks x))).
  destruct (acquire_each env costs (tick x) rl0) as [[[oks|e|] x'] rl'];
    [|contradiction|contradiction].
  cbn [fst snd] in *. destruct Hbal as (Hbal & _ & Hlen).
  cbn [rate last_update tokens rl0] in Hbal.
  split; [exact Hlen |].
  assert (H0 : 0 <= tokens rl') by (apply Hb; lra).
  lra.
Qed.

Lemma granted_within_capacity_and_refill_witness :
  let oks := fst (limiter_session steady_env 1 2 [1; 1; 1; 1] start) in
  let rl := snd (limiter_session steady_env 1 2 [1; 1; 1; 1] start) in
  length oks = 4%nat /\
  granted_total [1; 1; 1; 1] oks <= 2 + (last_update rl - 0) * 1.
Proof.
  apply (granted_within_capacity_and_refill steady_env 1 2 [1; 1; 1; 1] start).
  - intros i. cbn [clock steady_env]. rewrite <- Zle_Qle. lia.
  - vm_compute. discriminate.
  - vm_compute. discriminate.
  - repeat constructor; vm_compute; discriminate.
Defined.

Lemma tokens_never_exceed_capacity_witness :
  let rl := snd (limiter_session set_back_env 1 10 [1; 0; 2] start) in
  tokens rl <= 10 /\ capacity rl = 10 /\ rate rl = 1.
Proof.
  apply (tokens_never_exceed_capacity set_back_env 1 10 [1; 0; 2] start).
  repeat constructor; vm_compute; discriminate.
Defined.

(** ** CircuitBreaker: invariants and the closed state *)

Section CircuitBreakerMore.

Variable env : Env.

Lemma settled_stamped (cb : CircuitBreaker) : stamped cb -> stamped (settled cb).
Proof.
  unfold stamped, settled. intros [Hf Hl].
  destruct (state cb) eqn:E.
  - rewrite E. split; [exact Hf | congruence].
  - rewrite E. split; [exact Hf | intros _; apply Hl; congruence].
  - cbn. split; [lia | congruence].
Qed.

Lemma counted_stamped (now : Q) (cb : CircuitBreaker) : stamped cb -> stamped (counted now cb).
Proof.
  unfold stamped, counted. intros [Hf _]. cbn.
  destruct (_ >=? _)%Z; cbn; split; try lia; congruence.
Qed.

Lemma call_guard_stamped (x : Ext) (cb : CircuitBreaker) :
  stamped cb -> stamped (snd (call_guard env x cb)).
Proof.
  intros H. destruct (state cb) eqn:Hst.
  - rewrite call_guard_not_open; [exact H | congruence].
  - unfold call_guard. run_monad. rewrite Hst.
    destruct (last_failure cb) as [lf|] eqn:Hlf; [|exact H].
    destruct (Qltb _ _); cbn; [|exact H].
    unfold stamped in *. cbn. rewrite Hlf. split; [apply H | congruence].
  - rewrite call_guard_not_open; [exact H | congruence].
Qed.

Lemma call_stamped {A} (func : M unit A) (x : Ext) (cb : CircuitBreaker) :
  stamped cb -> stamped (snd (call env func x cb)).
Proof.
  intros H. rewrite call_unfold.
  pose proof (call_guard_stamped x cb H) as Hg.
  destruct (call_guard env x cb) as [[[[]|e|] x1] cb1]; cbn [snd] in *;
    [|exact Hg|exact Hg].
  destruct (func x1 tt) as [[[r|e|] x2] u] eqn:E.
  - erewrite call_try_returned by exact E. now apply settled_stamped.
  - erewrite call_try_raised by exact E. now apply counted_stamped.
  - erewrite call_try_cancelled by exact E. exact Hg.
Qed.

Lemma reachable_stamped (cb : CircuitBreaker) : reachable env cb -> stamped cb.
Proof.
  induction 1 as [th to | x cb _ IH | A func x cb _ IH].
  - unfold stamped. cbn. split; [lia | congruence].
  - now apply call_guard_stamped.
  - now apply call_stamped.
Qed.

(** X3: a breaker reached through [call] never has a negative failure
    counter, has a failure time stamp whenever it is not closed, and so
    never raises the [TypeError] of [time.time() - None]: what [call]
    raises is either "Circuit breaker is open", with the breaker and the
    backend untouched, or the exception of the operation itself. *)
Theorem reachable_breaker_raises_only_its_own {A} (func : M unit A) (x : Ext)
    (cb : CircuitBreaker) :
  reachable env cb ->
  (0 <= failures cb)%Z /\
  (state cb <> closed -> exists t, last_failure cb = Some t) /\
  (forall e x' cb',
     call env func x cb = (Raised e, x', cb') ->
     (e = Exception "Circuit breaker is open" /\ state cb = open /\
      x' = tick x /\ cb' = cb) \/
     (exists x1 x2, func x1 tt = (Raised e, x2, tt))).
Proof.
  intros Hreach. destruct (reachable_stamped cb Hreach) as [Hf Hl].
  split; [exact Hf | split].
  - intros Hst. destruct (last_failure cb) as [t|]; [now exists t |].
    now contradiction (Hl Hst).
  - intros e x' cb' Hcall. rewrite call_unfold in Hcall.
    assert (Htry : forall x1 cb1,
               call_try env func x1 cb1 = (Raised e, x', cb') ->
               exists x1 x2, func x1 tt = (Raised e, x2, tt)).
    { intros x1 cb1 Ht. destruct (func x1 tt) as [[[r|e'|] x2] []] eqn:E.
      - rewrite (call_try_returned env func x1 x2 tt r cb1 E) in Ht. discriminate.
      - rewrite (call_try_raised env func x1 x2 tt e' cb1 E) in Ht.
        injection Ht as -> _ _. now exists x1, x2.
      - rewrite (call_try_cancelled env func x1 x2 tt cb1 E) in Ht. discriminate. }
    destruct (state cb) eqn:Hst.
    + rewrite call_guard_not_open in Hcall by congruence. right. eapply Htry, Hcall.
    + destruct (last_failure cb) as [lf|] eqn:Hlf;
        [| exfalso; apply Hl; [congruence | reflexivity]].
      rewrite (call_guard_open env x cb lf Hst Hlf) in Hcall.
      destruct (Qltb _ _).
      * right. eapply Htry, Hcall.
      * injection Hcall as <- <- <-. left. repeat split.
    + rewrite call_guard_not_open in Hcall by congruence. right. eapply Htry, Hcall.
Qed.

Lemma count_raised_nonneg {A} (rs : list (Res A)) : (0 <= count_raised rs)%Z.
Proof. induction rs as [|[r|e|] rest IH]; cbn [count_raised]; lia. Qed.

Lemma call_each_closed (messages : list Message) :
  forall (x : Ext) (cb : CircuitBreaker),
    state cb = closed ->
    let outs := backend_outcomes env (handler_calls x) messages in
    (failures cb + count_raised outs < failure_threshold cb)%Z ->
    exists x' cb',
      call_each env messages x cb = (Returned outs, x', cb') /\
      state cb' = closed /\
      failures cb' = (failures cb + count_raised outs)%Z /\
      failure_threshold cb' = failure_threshold cb /\
      timeout cb' = timeout cb /\
      handler_calls x' = (handler_calls x + length messages)%nat.
Proof.
  induction messages as [|m rest IH]; intros x cb Hst; cbv zeta; intros Hlt.
  - exists x, cb. cbn. repeat split; try lia; assumption.
  - cbn [backend_outcomes count_raised] in *.
    cbn [call_each]. unfold mbind, M_bind, m_bind, attempt.
    assert (Hg : call_guard env x cb = (Returned tt, x, cb))
      by (apply call_guard_not_open; congruence).
    destruct (prototype_execute env (handler_calls x) m) as [r|e|] eqn:E.
    + rewrite (call_backend_returned env m x x cb cb r Hg E).
      assert (Hs : settled cb = cb) by (unfold settled; now rewrite Hst).
      rewrite Hs.
      destruct (IH (mkExt (ticks x) (S (handler_calls x))) cb Hst) as
        (x' & cb' & Hrun & Hst' & Hf' & Hth & Hto & Hcalls); [exact Hlt |].
      cbn [handler_calls] in Hrun. rewrite Hrun. run_monad.
      exists x', cb'. repeat split; try assumption.
      cbn [handler_calls length] in *. lia.
    + rewrite (call_backend_raised env m x x cb cb e Hg E).
      pose proof (count_raised_nonneg (backend_outcomes env (S (handler_calls x)) rest)) as H0.
      assert (Hc : counted (clock env (ticks x)) cb
                   = set_last_failure (clock env (ticks x))
                       (set_failures (failures cb + 1)%Z cb)).
      { unfold counted. cbn.
        destruct (Z.geb_spec (failures cb + 1) (failure_threshold cb)); [lia | reflexivity]. }
      rewrite Hc.
      destruct (IH (mkExt (S (ticks x)) (S (handler_calls x)))
                  (set_last_failure (clock env (ticks x))
                     (set_failures (failures cb + 1)%Z cb))) as
        (x' & cb' & Hrun & Hst' & Hf' & Hth & Hto & Hcalls);
        [exact Hst | cbn; lia |].
      cbn [handler_calls] in Hrun. rewrite Hrun. run_monad.
      exists x', cb'. cbn in Hf', Hth, Hto. repeat split; try assumption.
      * lia.
      * cbn [handler_calls length] in *. lia.
    + rewrite (call_backend_cancelled env m x x cb cb Hg E).
      destruct (IH (mkExt (ticks x) (S (handler_calls x))) cb Hst) as
        (x' & cb' & Hrun & Hst' & Hf' & Hth & Hto & Hcalls); [exact Hlt |].
      cbn [handler_calls] in Hrun. rewrite Hrun. run_monad.
      exists x', cb'. repeat split; try assumption.
      cbn [handler_calls length] in *. lia.
Qed.

(** X4: a closed breaker counts every failure and forgets none. As long
    as the raising backend invocations number fewer than the threshold,
    every call of a fresh breaker reaches the backend, hands its outcome
    through, and the breaker stays closed with [failures] equal to the
    number of raises, returned calls in between resetting nothing; one
    more raising call then opens the breaker exactly when that number
    plus one reaches the threshold. *)
Theorem closed_breaker_counts_every_failure (threshold : Z) (cooldown : Q)
    (messages : list Message) (x : Ext) :
  let outs := backend_outcomes env (handler_calls x) messages in
  (count_raised outs < threshold)%Z ->
  exists x' cb',
    breaker_session env threshold cooldown messages x = (Returned outs, x', cb') /\
    state cb' = closed /\
    failures cb' = count_raised outs /\
    handler_calls x' = (handler_calls x + length messages)%nat /\
    forall m e,
      prototype_execute env (handler_calls x') m = Raised e ->
      exists cb'',
        call env (await_prototype env m) x' cb'
        = (Raised e, mkExt (S (ticks x')) (S (handler_calls x')), cb'') /\
        failures cb'' = (count_raised outs + 1)%Z /\
        last_failure cb'' = Some (clock env (ticks x')) /\
        (state cb'' = open <-> (threshold <= count_raised outs + 1)%Z).
Proof.
  cbv zeta. intros Hlt. unfold breaker_session.
  destruct (call_each_closed messages x (CircuitBreaker_init threshold cooldown) eq_refl)
    as (x' & cb' & Hrun & Hst & Hf & Hth & _ & Hcalls); [cbn; lia |].
  cbn in Hf, Hth. rewrite Z.add_0_l in Hf.
  exists x', cb'. repeat split; try assumption.
  intros m e He.
  assert (Hg : call_guard env x' cb' = (Returned tt, x', cb'))
    by (apply call_guard_not_open; congruence).
  rewrite (call_backend_raised env m x' x' cb' cb' e Hg He).
  eexists. split; [reflexivity |].
  unfold counted. cbn. rewrite Hf, Hth.
  destruct (Z.geb_spec (count_raised (backend_outcomes env (handler_calls x) messages) + 1)
              threshold); cbn; rewrite ?Hst; repeat split; try lia; congruence.
Qed.

End CircuitBreakerMore.

(** [probing_breaker] is reachable; an operation that raises on it. *)
Lemma reachable_breaker_raises_only_its_own_witness :
  (0 <= failures probing_breaker)%Z /\
  (state probing_breaker <> closed -> exists t, last_failure probing_breaker = Some t) /\
  (forall e x' cb',
     call probe_env (await_prototype probe_env sample_message) (mkExt 2 1) probing_breaker
     = (Raised e, x', cb') ->
     (e = Exception "Circuit breaker is open" /\ state probing_breaker = open /\
      x' = tick (mkExt 2 1) /\ cb' = probing_breaker) \/
     (exists x1 x2, await_prototype probe_env sample_message x1 tt = (Raised e, x2, tt))).
Proof.
  exact (reachable_breaker_raises_only_its_own probe_env
           (await_prototype probe_env sample_message) (mkExt 2 1) probing_breaker
           probing_breaker_reachable).
Defined.

(** Threshold 3 with the backend that raises once: one failure counted
    over three calls, the breaker closed. *)
Lemma closed_breaker_counts_every_failure_witness :
  exists x' cb',
    breaker_session flaky_env 3 1 [sample_message; sample_message; sample_message] start
    = (Returned [Raised (OtherException "RuntimeError" "backend down");
                 Returned sample_response; Returned sample_response], x', cb') /\
    state cb' = closed /\ failures cb' = 1%Z /\ handler_calls x' = 3%nat.
Proof.
  destruct (closed_breaker_counts_every_failure flaky_env 3 1
              [sample_message; sample_message; sample_message] start eq_refl)
    as (x' & cb' & Hrun & Hstate & Hfail & Hcalls & _).
  exists x', cb'. repeat split; assumption.
Defined.

(** ** CircuitBreaker: a cancelled call *)

Section CircuitBreakerCancelled.

Variable env : Env.

(** X25: a cancelled call is no failure for the breaker. When the guard
    lets the call through and the awaited operation is cancelled, [call]
    passes the cancellation on and neither branch of its [try] statement
    runs: the failure counter and the failure time stamp are what they
    were, a closed breaker is left as it was, and a breaker that was open
    or half-open is left half-open, the trial having settled nothing. *)
Theorem cancelled_call_is_no_failure {A} (func : M unit A) (x x3 x' : Ext)
    (cb cb3 : CircuitBreaker) :
  call_guard env x cb = (Returned tt, x3, cb3) ->
  func x3 tt = (Cancelled, x', tt) ->
  call env func x cb = (Cancelled, x', cb3) /\
  failures cb3 = failures cb /\
  last_failure cb3 = last_failure cb /\
  (state cb = closed -> cb3 = cb) /\
  (state cb <> closed -> state cb3 = half_open).
Proof.
  intros Hg Hf.
  split; [rewrite call_unfold, Hg; exact (call_try_cancelled env func x3 x' tt cb3 Hf) |].
  revert Hg. unfold call_guard. run_monad.
  destruct (state cb) eqn:Hst.
  - intros [= <- <-]. repeat split; intros; congruence.
  - destruct (last_failure cb) as [lf|] eqn:Hlf; [destruct (Qltb _ _)|];
      try discriminate.
    intros [= <- <-]. cbn. repeat split; intros; congruence.
  - intros [= <- <-]. repeat split; intros; congruence.
Qed.

End CircuitBreakerCancelled.

(** The trial of [open_breaker] past its cool-down, cancelled. *)
Lemma cancelled_call_is_no_failure_witness :
  call cooldown_env (await_prototype cancelling_env sample_message) (mkExt 4 3) open_breaker
  = (Cancelled, mkExt 5 4, set_state half_open open_breaker) /\
  failures (set_state half_open open_breaker) = 3%Z /\
  state (set_state half_open open_breaker) = half_open.
Proof.
  destruct (cancelled_call_is_no_failure cooldown_env
              (await_prototype cancelling_env sample_message)
              (mkExt 4 3) (mkExt 5 3) (mkExt 5 4) open_breaker
              (set_state half_open open_breaker) eq_refl eq_refl)
    as (Hcall & Hf & _ & _ & Hst).
  split; [exact Hcall | split; [exact Hf | apply Hst; discriminate]].
Defined.

(** ** AgentOSClient: the metrics buffer *)

Section TelemetryMore.

Variable env : Env.

Lemma recorded_buffer_length now name value labels (c : AgentOSClient) :
  (length (metrics_buffer c) < 10)%nat ->
  length (metrics_buffer (recorded now name value labels c))
  = (S (length (metrics_buffer c)) mod 10)%nat.
Proof.
  intros Hlt. unfold recorded. rewrite length_app. cbn [length].
  replace (length (metrics_buffer c) + 1)%nat with (S (length (metrics_buffer c))) by lia.
  destruct (Nat.leb_spec 10 (S (length (metrics_buffer c)))) as [Hge|Hlt'].
  - cbn [metrics_buffer length].
    replace (S (length (metrics_buffer c))) with 10%nat by lia. reflexivity.
  - cbn [metrics_buffer]. rewrite length_app. cbn [length].
    rewrite Nat.mod_small by lia. lia.
Qed.

Lemma recorded_trace_id now name value labels (c : AgentOSClient) :
  trace_id (recorded now name value labels c) = trace_id c.
Proof. unfold recorded. now case_flush. Qed.

(** X5: [record_metric] never raises, keeps the buffer below ten
    entries and loses nothing. Starting with fewer than ten buffered
    metrics, after any number of recordings the buffer holds the total
    count modulo ten, and the metrics flushed together with the buffered
    ones are the earlier ones followed by the new ones in order; traces
    are untouched. *)
Theorem record_metric_flushes_in_tens (ms : list (string * Q * list (string * string)))
    (x : Ext) (c : AgentOSClient) :
  (length (metrics_buffer c) < 10)%nat ->
  exists c',
    record_each env ms x c = (Returned tt, mkExt (ticks x + length ms) (handler_calls x), c') /\
    length (metrics_buffer c') = ((length (metrics_buffer c) + length ms) mod 10)%nat /\
    map metric_name (all_metrics c')
    = map metric_name (all_metrics c) ++ map (fun m => fst (fst m)) ms /\
    map metric_value (all_metrics c')
    = map metric_value (all_metrics c) ++ map (fun m => snd (fst m)) ms /\
    traces c' = traces c /\ trace_id c' = trace_id c.
Proof.
  revert x c. induction ms as [|[[name value] labels] rest IH]; intros x c Hlt.
  - exists c. cbn [record_each length map]. run_monad.
    rewrite !Nat.add_0_r, !app_nil_r, Nat.mod_small by lia.
    destruct x. repeat split.
  - cbn [record_each]. unfold mbind, M_bind, m_bind. rewrite record_metric_run.
    pose proof (recorded_buffer_length (clock env (ticks x)) name value labels c Hlt) as Hlen.
    destruct (IH (tick x) (recorded (clock env (ticks x)) name value labels c))
      as (c' & Hrun & Hbuf & Hnames & Hvalues & Htr & Htid).
    { rewrite Hlen. apply Nat.mod_upper_bound. lia. }
    exists c'. rewrite Hrun. cbn [tick ticks handler_calls length map fst snd].
    split; [f_equal; f_equal; f_equal; lia |].
    rewrite Hbuf, Hlen, Hnames, Hvalues, Htr, recorded_traces, recorded_all_metrics.
    rewrite !map_app. cbn [map metric_name metric_value]. rewrite <- !app_assoc.
    repeat split.
    + rewrite Nat.Div0.add_mod_idemp_l. f_equal. lia.
    + rewrite Htid. apply recorded_trace_id.
Qed.

End TelemetryMore.

Lemma record_metric_flushes_in_tens_witness :
  exists c',
    record_each steady_env
      (repeat ("request_success"%string, 1, []) 9 ++ [("cache_hit"%string, 1, [])]
       ++ repeat ("request_error"%string, 1, []) 3) start AgentOSClient_init
    = (Returned tt, mkExt 13 0, c') /\
    length (metrics_buffer c') = 3%nat.
Proof.
  destruct (record_metric_flushes_in_tens steady_env
              (repeat ("request_success"%string, 1, []) 9 ++ [("cache_hit"%string, 1, [])]
               ++ repeat ("request_error"%string, 1, []) 3) start AgentOSClient_init)
    as (c' & Hrun & Hbuf & _).
  - cbn. lia.
  - exists c'. split; [exact Hrun | exact Hbuf].
Defined.

(** ** HybridAgentBridge: one request, path by path *)

Section BridgeMore.

Variable env : Env.

Lemma failed_bridge_metrics (tid : string) (st : Q) (e : PyExc) (x : Ext)
    (b : HybridAgentBridge) :
  (exists ms,
      all_metrics (agent_os (failed_bridge env tid st e x b))
      = all_metrics (agent_os b) ++ ms /\
      map metric_name ms = ["request_error"; "error_rate"]%string) /\
  rate_limiter (failed_bridge env tid st e x b) = rate_limiter b /\
  cache_ttl (failed_bridge env tid st e x b) = cache_ttl b.
Proof.
  unfold failed_bridge.
  cbn [agent_os set_agent_os set_error_count rate_limiter cache_ttl].
  rewrite ended_all_metrics, !recorded_all_metrics, <- !app_assoc.
  split; [| split; reflexivity].
  eexists. split; reflexivity.
Qed.

Lemma cache_lookup_cases (message : Message) (x : Ext) (b : HybridAgentBridge) :
  let key := _get_cache_key env message in
  (exists entry x2,
      cache b !! key = Some entry /\
      cache_lookup env message x b = (Returned (Some (entry_response entry)), x2, granted env x b)) \/
  (exists x2 b2,
      cache_lookup env message x b = (Returned None, x2, b2) /\
      cache b2 = delete key (cache b) /\
      rate_limiter b2 = snd (admission env x b) /\
      agent_os b2 = agent_os (granted env x b)).
Proof.
  cbv zeta. unfold cache_lookup. rewrite check_cache_run.
  change (cache (granted env x b)) with (cache b).
  destruct (cache b !! _get_cache_key env message) as [entry|] eqn:E.
  - destruct (Qltb _ _).
    + left. now eexists _, _.
    + right. eexists _, _. split; [reflexivity |]. repeat split.
  - right. eexists _, _. split; [reflexivity |]. repeat split.
    cbn. symmetry. now apply delete_id.
Qed.

Lemma call_await_cases (m : Message) (x : Ext) (cb : CircuitBreaker) :
  (exists e, call env (await_prototype env m) x cb = (Raised e, tick x, cb) /\
             state cb = open) \/
  (exists xg cbg,
      call_guard env x cb = (Returned tt, xg, cbg) /\
      handler_calls xg = handler_calls x /\
      ((exists r, prototype_execute env (handler_calls x) m = Returned r /\
                  call env (await_prototype env m) x cb
                  = (Returned r, mkExt (ticks xg) (S (handler_calls x)), settled cbg)) \/
       (exists e, prototype_execute env (handler_calls x) m = Raised e /\
                  call env (await_prototype env m) x cb
                  = (Raised e, mkExt (S (ticks xg)) (S (handler_calls x)),
                     counted (clock env (ticks xg)) cbg)) \/
       (prototype_execute env (handler_calls x) m = Cancelled /\
        call env (await_prototype env m) x cb
        = (Cancelled, mkExt (ticks xg) (S (handler_calls x)), cbg)))).
Proof.
  destruct (call_guard env x cb) as [[[[]|e|] xg] cbg] eqn:Hg.
  - right. exists xg, cbg. split; [reflexivity |].
    destruct (call_guard_frame env _ _ _ _ _ Hg) as (_ & _ & Hcalls).
    split; [exact Hcalls |]. rewrite <- Hcalls.
    destruct (prototype_execute env (handler_calls xg) m) as [r|e|] eqn:E.
    + left. exists r. split; [reflexivity |].
      exact (call_backend_returned env m x xg cb cbg r Hg E).
    + right. left. exists e. split; [reflexivity |].
      exact (call_backend_raised env m x xg cb cbg e Hg E).
    + right. right. split; [reflexivity |].
      exact (call_backend_cancelled env m x xg cb cbg Hg E).
  - left. exists e. rewrite call_unfold, Hg.
    unfold call_guard in Hg. revert Hg. run_monad.
    destruct (state cb) eqn:Hst; try discriminate.
    destruct (last_failure cb) as [lf|]; [destruct (Qltb _ _)|]; try discriminate;
      intros Hg; injection Hg as <- <- <-; now split.
  - now destruct (call_guard_not_cancelled env _ _ _ _ Hg).
Qed.

(** Everything one [execute] does: the four paths on which it returns,
    and the one on which the cancelled backend call unwinds it. *)
Lemma execute_effect (message : Message) (x : Ext) (b : HybridAgentBridge) :
  let key := _get_cache_key env message in
  let adds b' names :=
    exists ms, all_metrics (agent_os b') = all_metrics (agent_os b) ++ ms /\
               map metric_name ms = names in
  exists out x' b',
    execute env message x b = (out, x', b') /\
    rate_limiter b' = snd (admission env x b) /\
    cache_ttl b' = cache_ttl b /\
    ((exists r, out = Returned r /\
     ((fst (admission env x b) = false /\
      (exists lat, r = error_response lat /\
         traces (agent_os b') = traces (agent_os b) ++
           [(trace_of env x, TraceFailure "Rate limit exceeded - please retry" lat)]) /\
      handler_calls x' = handler_calls x /\
      cache b' = cache b /\ circuit_breaker b' = circuit_breaker b /\
      request_count b' = request_count b /\
      error_count b' = (error_count b + 1)%Z /\
      total_latency b' = total_latency b /\
      adds b' ["request_error"; "error_rate"]%string) \/
     (fst (admission env x b) = true /\
      (exists entry, cache b !! key = Some entry /\ r = entry_response entry) /\
      handler_calls x' = handler_calls x /\
      cache b' = cache b /\ circuit_breaker b' = circuit_breaker b /\
      request_count b' = request_count b /\
      error_count b' = error_count b /\
      total_latency b' = total_latency b /\
      traces (agent_os b') = traces (agent_os b) /\
      adds b' ["cache_hit"]%string) \/
     (fst (admission env x b) = true /\
      (exists x2 x3 e lat,
         call env (await_prototype env message) x2 (circuit_breaker b)
         = (Raised e, x3, circuit_breaker b') /\
         handler_calls x2 = handler_calls x /\ handler_calls x' = handler_calls x3 /\
         r = error_response lat /\
         traces (agent_os b') = traces (agent_os b) ++
           [(trace_of env x, TraceFailure (exc_str e) lat)]) /\
      cache b' = delete key (cache b) /\
      request_count b' = request_count b /\
      error_count b' = (error_count b + 1)%Z /\
      total_latency b' = total_latency b /\
      adds b' ["request_error"; "error_rate"]%string) \/
     (fst (admission env x b) = true /\
      (exists x2 x3 lat,
         call env (await_prototype env message) x2 (circuit_breaker b)
         = (Returned r, x3, circuit_breaker b') /\
         handler_calls x2 = handler_calls x /\ handler_calls x' = handler_calls x3 /\
         cache b' = <[key := mkCacheEntry r (clock env (ticks x3))]> (cache b) /\
         total_latency b' = total_latency b + lat /\
         traces (agent_os b') = traces (agent_os b) ++
           [(trace_of env x, TraceSuccess lat (tools_used r))]) /\
      request_count b' = (request_count b + 1)%Z /\
      error_count b' = error_count b /\
      adds b' ["request_success"; "response_time"; "confidence"]%string))) \/
     (out = Cancelled /\
      fst (admission env x b) = true /\
      (exists x2,
         call env (await_prototype env message) x2 (circuit_breaker b)
         = (Cancelled, x', circuit_breaker b') /\
         handler_calls x2 = handler_calls x) /\
      cache b' = delete key (cache b) /\
      request_count b' = request_count b /\
      error_count b' = error_count b /\
      total_latency b' = total_latency b /\
      traces (agent_os b') = traces (agent_os b) /\
      all_metrics (agent_os b') = all_metrics (agent_os b))).
Proof.
  cbv zeta. rewrite execute_cases. cbv zeta.
  destruct (fst (admission env x b)) eqn:Hadm.
  - destruct (cache_lookup_cases message x b)
      as [(entry & x2 & Hentry & Hl) | (x2 & b2 & Hl & Hcache & Hrl & Hos)]; rewrite Hl.
    + eexists _, _, _. split; [reflexivity |].
      split; [reflexivity | split; [reflexivity |]].
      left. eexists. split; [reflexivity |].
      right. left. split; [reflexivity |].
      destruct (cache_lookup_inv env _ _ _ _ _ _ Hl) as (_ & Hcalls & _).
      split; [now exists entry |]. cbn [tick handler_calls].
      split; [exact Hcalls |].
      cbn [cache circuit_breaker request_count error_count total_latency agent_os
           set_agent_os].
      rewrite recorded_traces, recorded_all_metrics.
      repeat split. eexists. split; reflexivity.
    + destruct (cache_lookup_inv env _ _ _ _ _ _ Hl)
        as (_ & Hcalls & Hcb & Hrc & Hec & Htl & Httl & Htr & Hm).
      rewrite Hcb.
      destruct (call env (await_prototype env message) x2 (circuit_breaker b))
        as [[[r|e|] x3] cb3] eqn:Hcall.
      * eexists _, _, _. split; [reflexivity |].
        match goal with |- context [served_bridge env ?t ?s ?k r ?y ?bb] =>
          destruct (served_bridge_frame env t s k r y bb)
            as (Hrc' & Htl' & Hec' & _ & Httl' & Hcb' & Htr' & Hm');
          set (b' := served_bridge env t s k r y bb) in *
        end.
        cbv zeta in *.
        split; [subst b'; cbn; exact Hrl |].
        split; [rewrite Httl'; exact Httl |].
        left. eexists. split; [reflexivity |].
        right. right. right. split; [reflexivity |].
        split.
        { eexists x2, x3, _. rewrite Hcb'. cbn [circuit_breaker set_circuit_breaker].
          split; [exact Hcall |]. split; [exact Hcalls |].
          split; [reflexivity |].
          split; [subst b'; cbn; rewrite Hcache; apply insert_delete_eq |].
          split; [rewrite Htl'; cbn [total_latency set_circuit_breaker];
                  rewrite Htl; reflexivity |].
          rewrite Htr'. cbn [agent_os set_circuit_breaker]. rewrite Htr. reflexivity. }
        rewrite Hrc', Hec'. cbn [request_count error_count set_circuit_breaker].
        rewrite Hrc, Hec. split; [reflexivity | split; [reflexivity |]].
        rewrite Hm'. cbn [agent_os set_circuit_breaker]. rewrite Hm.
        eexists. split; reflexivity.
      * eexists _, _, _. split; [reflexivity |].
        match goal with |- context [failed_bridge env ?t ?s e ?y ?bb] =>
          destruct (failed_bridge_frame env t s e y bb)
            as (Hrc' & Htl' & Hec' & Hcache' & Hcb' & Htr');
          destruct (failed_bridge_metrics t s e y bb) as (Hm' & Hrl' & Httl');
          set (b' := failed_bridge env t s e y bb) in *
        end.
        cbv zeta in *.
        split; [rewrite Hrl'; exact Hrl |].
        split; [rewrite Httl'; exact Httl |].
        left. eexists. split; [reflexivity |].
        right. right. left. split; [reflexivity |].
        split.
        { eexists x2, x3, e, _. rewrite Hcb'.
          cbn [circuit_breaker set_circuit_breaker].
          split; [exact Hcall |]. split; [exact Hcalls |].
          split; [reflexivity |]. split; [reflexivity |].
          rewrite Htr'. cbn [agent_os set_circuit_breaker]. rewrite Htr. reflexivity. }
        destruct Hm' as (ms & Hm' & Hnames).
        rewrite Hcache', Hrc', Hec', Htl', Hm'.
        cbn [cache request_count error_count total_latency agent_os set_circuit_breaker].
        rewrite Hcache, Hrc, Hec, Htl, Hm. repeat split. now exists ms.
      * eexists _, _, _. split; [reflexivity |].
        cbn [rate_limiter cache_ttl cache request_count error_count total_latency
             agent_os circuit_breaker set_circuit_breaker].
        split; [exact Hrl | split; [exact Httl |]].
        right. split; [reflexivity | split; [reflexivity |]].
        split; [exists x2; split; [exact Hcall | exact Hcalls] |].
        repeat split; assumption.
  - eexists _, _, _. split; [reflexivity |].
    match goal with |- context [failed_bridge env ?t ?s ?e ?y ?bb] =>
      destruct (failed_bridge_frame env t s e y bb)
        as (Hrc' & Htl' & Hec' & Hcache' & Hcb' & Htr');
      destruct (failed_bridge_metrics t s e y bb) as (Hm' & Hrl' & Httl');
      set (b' := failed_bridge env t s e y bb) in *
    end.
    cbv zeta in *.
    split; [rewrite Hrl'; reflexivity |].
    split; [rewrite Httl'; reflexivity |].
    left. eexists. split; [reflexivity |].
    left. split; [reflexivity |].
    split; [eexists; split; [reflexivity | exact Htr'] |].
    destruct Hm' as (ms & Hm' & Hnames).
    rewrite Hcache', Hcb', Hrc', Hec', Htl', Hm'. repeat split. now exists ms.
Qed.

End BridgeMore.

(** ** HybridAgentBridge: sessions *)

Section BridgeSessions.

Variable env : Env.

(** [execute] hands its caller a [Response] or the cancellation. *)
Lemma execute_not_raised (message : Message) (x : Ext) (b : HybridAgentBridge) :
  not_raised (fst (fst (execute env message x b))).
Proof.
  destruct (execute_effect env message x b)
    as (out & x' & b' & Hrun & _ & _ & [(r & -> & _) | (-> & _)]);
    rewrite Hrun; intros e; discriminate.
Qed.

(** An invariant kept by every request of a session holds at its end;
    no request of a session raises an exception. *)
Lemma execute_each_invariant (I : Ext -> HybridAgentBridge -> Prop)
    (messages : list Message) :
  (forall m x b out x' b',
     In m messages -> I x b -> execute env m x b = (out, x', b') -> I x' b') ->
  forall x b,
    I x b ->
    exists outs x' b',
      execute_each env messages x b = (Returned outs, x', b') /\
      length outs = length messages /\ Forall not_raised outs /\ I x' b'.
Proof.
  induction messages as [|m rest IH]; intros Hstep x b HI.
  - exists [], x, b. repeat split; [constructor | exact HI].
  - pose proof (execute_not_raised m x b) as Hout.
    destruct (execute env m x b) as [[out x1] b1] eqn:Hrun. cbn [fst] in Hout.
    assert (HI1 : I x1 b1) by (eapply Hstep; [now left | exact HI | exact Hrun]).
    destruct (IH (fun m' x0 b0 r0 x0' b0' Hin => Hstep m' x0 b0 r0 x0' b0' (or_intror Hin))
                x1 b1 HI1) as (outs & x' & b' & Hrest & Hlen & Hall & HI').
    exists (out :: outs), x', b'.
    cbn [execute_each]. unfold mbind, M_bind, m_bind, attempt.
    rewrite Hrun, Hrest. run_monad. cbn [length].
    repeat split; [lia | now constructor | exact HI'].
Qed.

Lemma bridge_session_invariant (I : Ext -> HybridAgentBridge -> Prop)
    (messages : list Message) (x : Ext) :
  (forall m x b out x' b',
     In m messages -> I x b -> execute env m x b = (out, x', b') -> I x' b') ->
  I (tick x)
    (mkBridge AgentOSClient_init (mkRateLimiter 100 1000 1000 (clock env (ticks x)))
       (CircuitBreaker_init 5 60) ∅ 300 0%Z 0%Z 0) ->
  exists outs x' b',
    bridge_session env messages x tt = (Returned (outs, b'), x', tt) /\
    length outs = length messages /\ Forall not_raised outs /\ I x' b'.
Proof.
  intros Hstep H0.
  destruct (execute_each_invariant I messages Hstep _ _ H0)
    as (outs & x' & b' & Hrun & Hlen & Hall & HI).
  exists outs, x', b'. unfold bridge_session, HybridAgentBridge_init, RateLimiter_init.
  run_monad. rewrite Hrun. repeat split; assumption.
Qed.

(** The same when every request of the session is answered. *)
Lemma bridge_session_answered (I : Ext -> HybridAgentBridge -> Prop)
    (messages : list Message) (x : Ext) :
  (forall m x b,
     In m messages -> I x b ->
     exists r x' b', execute env m x b = (Returned r, x', b') /\ I x' b') ->
  I (tick x)
    (mkBridge AgentOSClient_init (mkRateLimiter 100 1000 1000 (clock env (ticks x)))
       (CircuitBreaker_init 5 60) ∅ 300 0%Z 0%Z 0) ->
  exists rs x' b',
    bridge_session env messages x tt = (Returned (map Returned rs, b'), x', tt) /\
    length rs = length messages /\ I x' b'.
Proof.
  intros Hstep H0.
  unfold bridge_session, HybridAgentBridge_init, RateLimiter_init. run_monad.
  revert Hstep H0. generalize (tick x).
  generalize (mkBridge AgentOSClient_init (mkRateLimiter 100 1000 1000 (clock env (ticks x)))
                (CircuitBreaker_init 5 60) ∅ 300 0%Z 0%Z 0).
  induction messages as [|m rest IH]; intros b x0 Hstep HI.
  - exists [], x0, b. repeat split. exact HI.
  - destruct (Hstep m x0 b (or_introl eq_refl) HI) as (r & x1 & b1 & Hrun & HI1).
    destruct (IH b1 x1 (fun m' x2 b2 Hin => Hstep m' x2 b2 (or_intror Hin)) HI1)
      as (rs & x' & b' & Hrest & Hlen & HI').
    exists (r :: rs), x', b'.
    cbn [execute_each]. unfold mbind, M_bind, m_bind, attempt. rewrite Hrun.
    destruct (execute_each env rest x1 b1) as [[[outs|e|] x2] b2];
      try discriminate.
    injection Hrest as -> -> ->. cbn [map length]. repeat split; [lia | exact HI'].
Qed.

(** X6: one [execute] invokes the backend at most once, and what it
    returns is the error response, a cached response, or the very
    [Response] that invocation returned. The backend is not invoked at
    all for a cached answer; an error response comes either without an
    invocation (rate limit, open breaker) or from an invocation that
    raised. When [execute] does not return, its one invocation of the
    backend was cancelled. *)
Theorem execute_invokes_backend_at_most_once (message : Message) (x : Ext)
    (b : HybridAgentBridge) :
  (exists r x' b',
      execute env message x b = (Returned r, x', b') /\
      (((exists lat, r = error_response lat) /\
        (handler_calls x' = handler_calls x \/
         (handler_calls x' = S (handler_calls x) /\
          exists e, prototype_execute env (handler_calls x) message = Raised e))) \/
       ((exists entry,
            cache b !! _get_cache_key env message = Some entry /\ r = entry_response entry) /\
        handler_calls x' = handler_calls x) \/
       (prototype_execute env (handler_calls x) message = Returned r /\
        handler_calls x' = S (handler_calls x)))) \/
  (exists x' b',
      execute env message x b = (Cancelled, x', b') /\
      prototype_execute env (handler_calls x) message = Cancelled /\
      handler_calls x' = S (handler_calls x)).
Proof.
  destruct (execute_effect env message x b)
    as (out & x' & b' & Hrun & _ & _ & [(r & -> & Hpath) | (-> & Hcan)]).
  - left. exists r, x', b'. split; [exact Hrun |].
    destruct Hpath as [Hp | [Hp | [Hp | Hp]]].
    + destruct Hp as (_ & (lat & -> & _) & Hcalls & _).
      left. split; [now exists lat | now left].
    + destruct Hp as (_ & Hentry & Hcalls & _). right. left. now split.
    + destruct Hp as (_ & (x2 & x3 & e & lat & Hcall & Hc2 & Hc3 & -> & _) & _).
      left. split; [now exists lat |].
      destruct (call_await_cases env message x2 (circuit_breaker b))
        as [(e' & Hrej & _)
           | (xg & cbg & _ & _ &
              [(r' & _ & Hret) | [(e' & He & Hraise) | (_ & Hcancel)]])].
      * rewrite Hrej in Hcall. injection Hcall as _ <- _. left.
        rewrite Hc3. cbn. exact Hc2.
      * rewrite Hret in Hcall. discriminate.
      * rewrite Hraise in Hcall. injection Hcall as _ <- _. right.
        rewrite Hc3. cbn. rewrite Hc2 in *. split; [reflexivity | now exists e'].
      * rewrite Hcancel in Hcall. discriminate.
    + destruct Hp as (_ & (x2 & x3 & lat & Hcall & Hc2 & Hc3 & _) & _).
      right. right.
      destruct (call_await_cases env message x2 (circuit_breaker b))
        as [(e' & Hrej & _)
           | (xg & cbg & _ & _ &
              [(r' & Hr & Hret) | [(e' & _ & Hraise) | (_ & Hcancel)]])].
      * rewrite Hrej in Hcall. discriminate.
      * rewrite Hret in Hcall. injection Hcall as <- <- _.
        rewrite Hc3. cbn. rewrite Hc2 in *. now split.
      * rewrite Hraise in Hcall. discriminate.
      * rewrite Hcancel in Hcall. discriminate.
  - right. exists x', b'. split; [exact Hrun |].
    destruct Hcan as (_ & (x2 & Hcall & Hc2) & _).
    destruct (call_await_cases env message x2 (circuit_breaker b))
      as [(e' & Hrej & _)
         | (xg & cbg & _ & _ &
            [(r' & _ & Hret) | [(e' & _ & Hraise) | (He & Hcancel)]])].
    + rewrite Hrej in Hcall. discriminate.
    + rewrite Hret in Hcall. discriminate.
    + rewrite Hraise in Hcall. discriminate.
    + rewrite Hcancel in Hcall. injection Hcall as <- _.
      rewrite Hc2 in He. split; [exact He |]. cbn. now rewrite Hc2.
Qed.

(** X7: the cache only ever learns what the backend returned. After one
    [execute], every key other than the request's holds what it held
    before, and an entry under the request's key is either the entry that
    was there or a [Response] the backend returned for this message,
    which is then what [execute] returns: neither the error response
    built by [execute] nor anything of a cancelled call is stored. *)
Theorem cache_holds_only_backend_responses (message : Message) (x : Ext)
    (b : HybridAgentBridge) :
  let key := _get_cache_key env message in
  exists out x' b',
    execute env message x b = (out, x', b') /\
    not_raised out /\
    (forall k, k <> key -> cache b' !! k = cache b !! k) /\
    (forall entry,
       cache b' !! key = Some entry ->
       cache b !! key = Some entry \/
       (prototype_execute env (handler_calls x) message = Returned (entry_response entry) /\
        out = Returned (entry_response entry))).
Proof.
  cbv zeta.
  destruct (execute_effect env message x b)
    as (out & x' & b' & Hrun & _ & _ & [(r & -> & Hpath) | (-> & Hcan)]).
  - exists (Returned r), x', b'. split; [exact Hrun |].
    split; [intros e; discriminate |].
    destruct Hpath as [Hp | [Hp | [Hp | Hp]]].
    + destruct Hp as (_ & _ & _ & -> & _). split; [reflexivity | now left].
    + destruct Hp as (_ & _ & _ & -> & _). split; [reflexivity | now left].
    + destruct Hp as (_ & _ & -> & _). split.
      * intros k Hk. now apply lookup_delete_ne.
      * intros entry. rewrite lookup_delete_eq. discriminate.
    + destruct Hp as (_ & (x2 & x3 & lat & Hcall & Hc2 & _ & -> & _) & _). split.
      * intros k Hk. now apply lookup_insert_ne.
      * intros entry. rewrite lookup_insert_eq. intros [= <-]. right. cbn.
        destruct (call_await_cases env message x2 (circuit_breaker b))
          as [(e' & Hrej & _)
             | (xg & cbg & _ & _ &
                [(r' & Hr & Hret) | [(e' & _ & Hraise) | (_ & Hcancel)]])].
        -- rewrite Hrej in Hcall. discriminate.
        -- rewrite Hret in Hcall. injection Hcall as <- _ _. rewrite Hc2 in Hr.
           now split.
        -- rewrite Hraise in Hcall. discriminate.
        -- rewrite Hcancel in Hcall. discriminate.
  - exists Cancelled, x', b'. split; [exact Hrun |].
    split; [intros e; discriminate |].
    destruct Hcan as (_ & _ & -> & _). split.
    + intros k Hk. now apply lookup_delete_ne.
    + intros entry. rewrite lookup_delete_eq. discriminate.
Qed.

End BridgeSessions.

Section BridgeAccounting.

Variable env : Env.

Lemma count_named_app (name : string) (ms1 ms2 : list Metric) :
  count_named name (ms1 ++ ms2) = (count_named name ms1 + count_named name ms2)%Z.
Proof. induction ms1 as [|m rest IH]; cbn [count_named app]; lia. Qed.

Lemma execute_accounts_once (message : Message) (x : Ext) (b : HybridAgentBridge) :
  exists out x' b',
    execute env message x b = (out, x', b') /\
    not_raised out /\
    (request_count b' + error_count b' + cache_hits (agent_os b') + count_cancelled [out]
     = request_count b + error_count b + cache_hits (agent_os b) + 1)%Z.
Proof.
  destruct (execute_effect env message x b)
    as (out & x' & b' & Hrun & _ & _ & [(r & -> & Hpath) | (-> & Hcan)]).
  - exists (Returned r), x', b'. split; [exact Hrun |].
    split; [intros e; discriminate |]. unfold cache_hits. cbn [count_cancelled].
    destruct Hpath as [Hp | [Hp | [Hp | Hp]]].
    + destruct Hp as (_ & _ & _ & _ & _ & -> & -> & _ & (ms & -> & Hnames)).
      rewrite count_named_app.
      destruct ms as [|m1 [|m2 [|m3 ?]]]; try discriminate.
      injection Hnames as H1 H2. cbn [count_named]. rewrite H1, H2. cbn. lia.
    + destruct Hp as (_ & _ & _ & _ & _ & -> & -> & _ & _ & (ms & -> & Hnames)).
      rewrite count_named_app.
      destruct ms as [|m1 [|m2 ?]]; try discriminate.
      injection Hnames as H1. cbn [count_named]. rewrite H1. cbn. lia.
    + destruct Hp as (_ & _ & _ & -> & -> & _ & (ms & -> & Hnames)).
      rewrite count_named_app.
      destruct ms as [|m1 [|m2 [|m3 ?]]]; try discriminate.
      injection Hnames as H1 H2. cbn [count_named]. rewrite H1, H2. cbn. lia.
    + destruct Hp as (_ & _ & -> & -> & (ms & -> & Hnames)).
      rewrite count_named_app.
      destruct ms as [|m1 [|m2 [|m3 [|m4 ?]]]]; try discriminate.
      injection Hnames as H1 H2 H3. cbn [count_named]. rewrite H1, H2, H3. cbn. lia.
  - exists Cancelled, x', b'. split; [exact Hrun |].
    split; [intros e; discriminate |]. unfold cache_hits. cbn [count_cancelled].
    destruct Hcan as (_ & _ & _ & -> & -> & _ & _ & ->). lia.
Qed.

Lemma count_cancelled_cons {A} (out : Res A) (outs : list (Res A)) :
  count_cancelled (out :: outs) = (count_cancelled [out] + count_cancelled outs)%Z.
Proof. destruct out; cbn [count_cancelled]; lia. Qed.

Lemma execute_each_accounts (messages : list Message) :
  forall x b,
    exists outs x' b',
      execute_each env messages x b = (Returned outs, x', b') /\
      length outs = length messages /\
      Forall not_raised outs /\
      (request_count b' + error_count b' + cache_hits (agent_os b') + count_cancelled outs
       = request_count b + error_count b + cache_hits (agent_os b)
         + Z.of_nat (length messages))%Z.
Proof.
  induction messages as [|m rest IH]; intros x b.
  - exists [], x, b. cbn.
    split; [reflexivity | split; [reflexivity | split; [constructor | lia]]].
  - destruct (execute_accounts_once m x b) as (out & x1 & b1 & Hrun & Hout & H1).
    destruct (IH x1 b1) as (outs & x' & b' & Hrest & Hlen & Hall & H2).
    exists (out :: outs), x', b'.
    cbn [execute_each]. unfold mbind, M_bind, m_bind, attempt.
    rewrite Hrun, Hrest. run_monad. split; [reflexivity |].
    rewrite count_cancelled_cons. cbn [length].
    split; [lia | split; [now constructor | lia]].
Qed.

(** X8: every request is accounted for at most once, and exactly once
    unless it was cancelled. After a fresh bridge has handled any
    messages, on any clock and backend, every request ended with a
    [Response] or with the cancellation, and the successes
    ([request_count]), the errors ([error_count]), the recorded
    "cache_hit" metrics and the cancelled requests add up to the number
    of requests: a cancelled request is counted by the bridge
    nowhere. *)
Theorem every_request_is_counted_once (messages : list Message) (x : Ext) :
  exists outs x' b,
    bridge_session env messages x tt = (Returned (outs, b), x', tt) /\
    length outs = length messages /\
    Forall not_raised outs /\
    (request_count b + error_count b + cache_hits (agent_os b) + count_cancelled outs
     = Z.of_nat (length messages))%Z.
Proof.
  unfold bridge_session, HybridAgentBridge_init, RateLimiter_init. run_monad.
  match goal with |- context [execute_each env messages ?x0 ?b0] =>
    destruct (execute_each_accounts messages x0 b0)
      as (outs & x' & b' & Hrun & Hlen & Hall & Hsum)
  end.
  exists outs, x', b'. rewrite Hrun. split; [reflexivity |].
  split; [exact Hlen |]. split; [exact Hall |]. cbn in Hsum. exact Hsum.
Qed.

End BridgeAccounting.

Section BridgeMetricsFacts.

Variable env : Env.

Lemma trace_successes_app ts t :
  trace_successes (ts ++ [t])
  = (trace_successes ts + match snd t with TraceSuccess _ _ => 1 | _ => 0 end)%Z.
Proof.
  induction ts as [|[tid [l tools|msg l]] rest IH]; cbn [trace_successes app].
  - destruct t as [tid [l tools|msg l]]; reflexivity.
  - rewrite IH. lia.
  - exact IH.
Qed.

Lemma trace_failures_app ts t :
  trace_failures (ts ++ [t])
  = (trace_failures ts + match snd t with TraceFailure _ _ => 1 | _ => 0 end)%Z.
Proof.
  induction ts as [|[tid [l tools|msg l]] rest IH]; cbn [trace_failures app].
  - destruct t as [tid [l tools|msg l]]; reflexivity.
  - exact IH.
  - rewrite IH. lia.
Qed.

Lemma success_latencies_app ts t :
  success_latencies (ts ++ [t])
  = success_latencies ts ++ match snd t with TraceSuccess l _ => [l] | _ => [] end.
Proof.
  induction ts as [|[tid [l tools|msg l]] rest IH]; cbn [success_latencies app].
  - destruct t as [tid [l tools|msg l]]; reflexivity.
  - now rewrite IH.
  - exact IH.
Qed.

Lemma Qsum_app (l1 l2 : list Q) : Qsum (l1 ++ l2) == Qsum l1 + Qsum l2.
Proof.
  induction l1 as [|q rest IH]; cbn [Qsum app]; [ring | rewrite IH; ring].
Qed.

Lemma execute_keeps_counters_match (message : Message) (x x' : Ext)
    (b b' : HybridAgentBridge) (out : Res Response) :
  counters_match_traces b ->
  execute env message x b = (out, x', b') ->
  counters_match_traces b'.
Proof.
  intros (Hrc & Hec & Htl) Hrun.
  destruct (execute_effect env message x b)
    as (out0 & x0 & b0 & Hrun0 & _ & _ & Hout).
  rewrite Hrun in Hrun0. injection Hrun0 as <- <- <-.
  unfold counters_match_traces.
  destruct Hout as [(r & -> & Hpath) | (-> & Hcan)];
    [| destruct Hcan as (_ & _ & _ & -> & -> & -> & -> & _); now repeat split].
  destruct Hpath as [Hp | [Hp | [Hp | Hp]]].
  - destruct Hp as (_ & (lat & _ & ->) & _ & _ & _ & -> & -> & -> & _).
    rewrite trace_successes_app, trace_failures_app, success_latencies_app.
    cbn [snd]. rewrite app_nil_r. repeat split; [lia | lia | exact Htl].
  - destruct Hp as (_ & _ & _ & _ & _ & -> & -> & -> & -> & _).
    now repeat split.
  - destruct Hp as (_ & (x2 & x3 & e & lat & _ & _ & _ & _ & ->) & _ & -> & -> & -> & _).
    rewrite trace_successes_app, trace_failures_app, success_latencies_app.
    cbn [snd]. rewrite app_nil_r. repeat split; [lia | lia | exact Htl].
  - destruct Hp as (_ & (x2 & x3 & lat & _ & _ & _ & _ & -> & ->) & -> & -> & _).
    rewrite trace_successes_app, trace_failures_app, success_latencies_app.
    cbn [snd]. rewrite Qsum_app. cbn [Qsum]. repeat split; [lia | lia |].
    rewrite Htl. ring.
Qed.

(** X9: the metrics agree with the traces. After a fresh bridge has
    handled any messages, cancelled ones included, [requests_total] is
    the number of successes it reported to [end_trace], [errors_total]
    the number of failures, and [avg_latency_seconds] is the arithmetic
    mean of the latencies of the reported successes (0 when there is
    none); [error_rate] times [max(requests_total, 1)] is
    [errors_total]. *)
Theorem metrics_agree_with_traces (messages : list Message) (x : Ext) :
  exists outs x' b,
    bridge_session env messages x tt = (Returned (outs, b), x', tt) /\
    length outs = length messages /\
    Forall not_raised outs /\
    let m := get_metrics b in
    let ts := traces (agent_os b) in
    requests_total m = trace_successes ts /\
    errors_total m = trace_failures ts /\
    avg_latency_seconds m * inject_Z (requests_total m) == Qsum (success_latencies ts) /\
    ((requests_total m > 0)%Z ->
       avg_latency_seconds m
       == Qsum (success_latencies ts) / inject_Z (requests_total m)) /\
    ((requests_total m <= 0)%Z -> avg_latency_seconds m = 0) /\
    error_rate m * inject_Z (Z.max (requests_total m) 1) == inject_Z (errors_total m).
Proof.
  destruct (bridge_session_invariant env (fun _ b => counters_match_traces b) messages x)
    as (outs & x' & b & Hrun & Hlen & Hall & (Hrc & Hec & Htl)).
  - intros m x0 b0 r x1 b1 _. apply execute_keeps_counters_match.
  - repeat split; reflexivity.
  - exists outs, x', b. split; [exact Hrun |].
    split; [exact Hlen |]. split; [exact Hall |]. cbv zeta.
    unfold get_metrics.
    cbn [requests_total errors_total avg_latency_seconds error_rate].
    split; [exact Hrc | split; [exact Hec |]].
    assert (Hmax : ~ inject_Z (Z.max (request_count b) 1) == 0).
    { change 0 with (inject_Z 0). rewrite inject_Z_injective. lia. }
    destruct (Z.gtb_spec (request_count b) 0) as [Hpos|Hnonpos].
    + assert (Hn : ~ inject_Z (request_count b) == 0).
      { change 0 with (inject_Z 0). rewrite inject_Z_injective. lia. }
      repeat split.
      * rewrite <- Htl. field. exact Hn.
      * intros _. rewrite <- Htl. reflexivity.
      * lia.
      * field. exact Hmax.
    + repeat split.
      * rewrite <- Htl.
        assert (H0 : (0 <= trace_successes (traces (agent_os b)))%Z).
        { clear. induction (traces (agent_os b)) as [|[tid [l tools|msg l]] rest IH];
            cbn [trace_successes]; lia. }
        assert (Hz : request_count b = 0%Z) by lia.
        assert (Hs : success_latencies (traces (agent_os b)) = []).
        { rewrite Hz in Hrc. clear - Hrc H0.
          induction (traces (agent_os b)) as [|[tid [l tools|msg l]] rest IH];
            cbn [trace_successes success_latencies] in *; [reflexivity | | ].
          - assert (0 <= trace_successes rest)%Z.
            { clear. induction rest as [|[tid [l tools|msg l]] rest IH];
                cbn [trace_successes]; lia. }
            lia.
          - apply IH; [exact Hrc |].
            clear. induction rest as [|[tid [l tools|msg l]] rest IH];
              cbn [trace_successes]; lia. }
        rewrite Htl, Hs. cbn [Qsum]. ring.
      * lia.
      * field. exact Hmax.
Qed.

End BridgeMetricsFacts.

Section BridgeInvariants.

Variable env : Env.

Lemma call_keeps_settings {A} (func : M unit A) (x : Ext) (cb : CircuitBreaker) :
  failure_threshold (snd (call env func x cb)) = failure_threshold cb /\
  timeout (snd (call env func x cb)) = timeout cb.
Proof.
  rewrite call_unfold.
  destruct (call_guard env x cb) as [[[[]|e|] x1] cb1] eqn:Hg.
  - assert (Hcb1 : failure_threshold cb1 = failure_threshold cb /\ timeout cb1 = timeout cb).
    { revert Hg. unfold call_guard. run_monad.
      destruct (state cb); try (intros [= <- <-]; now split).
      destruct (last_failure cb) as [lf|]; [destruct (Qltb _ _)|];
        intros [= <- <-]; now split. }
    destruct Hcb1 as [<- <-].
    destruct (func x1 tt) as [[[r|e|] x2] u] eqn:E.
    + erewrite call_try_returned by exact E. cbn [snd]. unfold settled.
      destruct (state cb1); now split.
    + erewrite call_try_raised by exact E. cbn [snd]. unfold counted. cbn.
      destruct (_ >=? _)%Z; now split.
    + erewrite call_try_cancelled by exact E. now split.
  - cbn [snd]. revert Hg. unfold call_guard. run_monad.
    destruct (state cb); try discriminate.
    destruct (last_failure cb) as [lf|]; [destruct (Qltb _ _)|];
      try discriminate; intros [= _ _ <-]; now split.
  - now destruct (call_guard_not_cancelled env _ _ _ _ Hg).
Qed.

(** What a bridge keeps from one request to the next. *)
Lemma execute_keeps_invariants (message : Message) (x x' : Ext)
    (b b' : HybridAgentBridge) (out : Res Response) :
  configured b /\ reachable env (circuit_breaker b) /\
  (0 <= request_count b)%Z /\ (0 <= error_count b)%Z ->
  execute env message x b = (out, x', b') ->
  (configured b' /\ reachable env (circuit_breaker b') /\
   (0 <= request_count b')%Z /\ (0 <= error_count b')%Z) /\
  tokens (rate_limiter b') <= 1000.
Proof.
  intros ((Hrate & Hcap & Hth & Hto & Httl) & Hreach & Hrc & Hec) Hrun.
  destruct (execute_effect env message x b)
    as (out0 & x0 & b0 & Hrun0 & Hrl & Httl' & Hout).
  rewrite Hrun in Hrun0. injection Hrun0 as <- <- <-.
  pose proof (acquire_at_spec (clock env (S (S (ticks x)))) 1 (rate_limiter b)) as Hs.
  cbv zeta in Hs. destruct Hs as (_ & Hr & Hc & _ & Hyes & Hno).
  pose proof (py_min_le_l (capacity (rate_limiter b))
                (tokens (rate_limiter b)
                 + (clock env (S (S (ticks x))) - last_update (rate_limiter b))
                   * rate (rate_limiter b))) as Hle.
  assert (Htok : tokens (rate_limiter b') <= 1000).
  { rewrite Hrl. unfold admission.
    destruct (fst (acquire_at (clock env (S (S (ticks x)))) 1 (rate_limiter b))).
    - rewrite Hyes by reflexivity. rewrite Hcap in Hle |- *. lra.
    - rewrite Hno by reflexivity. rewrite Hcap in Hle |- *. lra. }
  split; [| exact Htok].
  assert (Hcb : reachable env (circuit_breaker b') /\
                failure_threshold (circuit_breaker b') = 5%Z /\
                timeout (circuit_breaker b') = 60 /\
                (0 <= request_count b')%Z /\ (0 <= error_count b')%Z).
  { destruct Hout as [(r & -> & Hpath) | (-> & Hcan)].
    2: { destruct Hcan as (_ & (x2 & Hcall & _) & _ & -> & -> & _).
         destruct (call_keeps_settings (await_prototype env message) x2 (circuit_breaker b))
           as [H1 H2].
         pose proof (reach_call env _ (await_prototype env message) x2 _ Hreach) as H3.
         rewrite Hcall in H1, H2, H3. cbn [snd] in *.
         repeat split; try congruence; try lia; try exact H3. }
    destruct Hpath as [Hp | [Hp | [Hp | Hp]]].
    - destruct Hp as (_ & _ & _ & _ & -> & -> & -> & _). repeat split; auto; lia.
    - destruct Hp as (_ & _ & _ & _ & -> & -> & -> & _). repeat split; auto.
    - destruct Hp as (_ & (x2 & x3 & e & lat & Hcall & _) & _ & -> & -> & _).
      destruct (call_keeps_settings (await_prototype env message) x2 (circuit_breaker b))
        as [H1 H2].
      pose proof (reach_call env _ (await_prototype env message) x2 _ Hreach) as H3.
      rewrite Hcall in H1, H2, H3. cbn [snd] in *.
      repeat split; try congruence; try lia; try exact H3.
    - destruct Hp as (_ & (x2 & x3 & lat & Hcall & _) & -> & -> & _).
      destruct (call_keeps_settings (await_prototype env message) x2 (circuit_breaker b))
        as [H1 H2].
      pose proof (reach_call env _ (await_prototype env message) x2 _ Hreach) as H3.
      rewrite Hcall in H1, H2, H3. cbn [snd] in *.
      repeat split; try congruence; try lia; try exact H3. }
  destruct Hcb as (H1 & H2 & H3 & H4 & H5).
  unfold configured. rewrite Hrl. unfold admission. rewrite Hr, Hc, Httl'.
  repeat split; assumption.
Qed.

(** X10: nothing a session does changes the settings or breaks the
    invariants. After a fresh bridge has handled any messages, on any
    clock and backend, cancelled calls included: rate 100, capacity
    1000, threshold 5, cool-down 60 and TTL 300 are as built; the token
    count is at most 1000; the counters are not negative; and the
    breaker is one of the reachable breakers, so when it is not closed
    its failure counter has reached the threshold and its failure time
    stamp is set. *)
Theorem session_keeps_settings_and_invariants (messages : list Message) (x : Ext) :
  exists outs x' b,
    bridge_session env messages x tt = (Returned (outs, b), x', tt) /\
    length outs = length messages /\
    Forall not_raised outs /\
    configured b /\
    rate_limiter_tokens (get_metrics b) <= 1000 /\
    (0 <= requests_total (get_metrics b))%Z /\
    (0 <= errors_total (get_metrics b))%Z /\
    reachable env (circuit_breaker b) /\
    (state (circuit_breaker b) <> closed ->
       (5 <= failures (circuit_breaker b))%Z /\
       exists t, last_failure (circuit_breaker b) = Some t).
Proof.
  destruct (bridge_session_invariant env
              (fun _ b => (configured b /\ reachable env (circuit_breaker b) /\
                           (0 <= request_count b)%Z /\ (0 <= error_count b)%Z) /\
                          tokens (rate_limiter b) <= 1000) messages x)
    as (outs & x' & b & Hrun & Hlen & Hall & ((Hconf & Hreach & Hrc & Hec) & Htok)).
  - intros m x0 b0 r x1 b1 _ [H _]. now apply execute_keeps_invariants.
  - repeat split; try reflexivity; try lia; try apply reach_init. cbn. lra.
  - exists outs, x', b. split; [exact Hrun |].
    split; [exact Hlen |]. split; [exact Hall |].
    split; [exact Hconf |]. cbn [get_metrics rate_limiter_tokens requests_total errors_total].
    repeat split; try assumption.
    + pose proof (reachable_tripped env _ Hreach H) as Ht.
      destruct Hconf as (_ & _ & Hth & _). rewrite Hth in Ht. exact Ht.
    + destruct (reachable_stamped env _ Hreach) as [_ Hl].
      destruct (last_failure (circuit_breaker b)) as [t|]; [now exists t |].
      now contradiction (Hl H).
Qed.

(** X11: with a backend that always returns, as [IntelligentAgent.execute]
    which catches its own exceptions, the breaker is dead weight. After a
    fresh bridge has served any messages, the breaker is still the one
    that was built (closed, no failure counted), [health_check] says
    healthy, and every failure reported to [end_trace] is a refusal of
    the rate limiter. *)
Theorem breaker_idle_when_backend_never_raises (messages : list Message) (x : Ext) :
  (forall i m, exists r, prototype_execute env i m = Returned r) ->
  exists rs x' b,
    bridge_session env messages x tt = (Returned (map Returned rs, b), x', tt) /\
    circuit_breaker b = CircuitBreaker_init 5 60 /\
    only_rate_limited (traces (agent_os b)) /\
    forall xh, exists h xh' ,
      health_check env xh b = (Returned h, xh', b) /\ status h = healthy.
Proof.
  intros Hback.
  destruct (bridge_session_answered env
              (fun _ b => circuit_breaker b = CircuitBreaker_init 5 60 /\
                          only_rate_limited (traces (agent_os b))) messages x)
    as (rs & x' & b & Hrun & _ & (Hcb & Htr)).
  - intros m x0 b0 _ [Hcb Htr].
    destruct (execute_effect env m x0 b0) as (out & x1 & b1 & Hrun & _ & _ & Hout).
    assert (Hcall : forall x3 res x4 cb4,
               call env (await_prototype env m) x3 (circuit_breaker b0) = (res, x4, cb4) ->
               (exists r', res = Returned r') /\ cb4 = CircuitBreaker_init 5 60).
    { intros x3 res x4 cb4 Hc. rewrite Hcb in Hc.
      assert (Hg : call_guard env x3 (CircuitBreaker_init 5 60)
                   = (Returned tt, x3, CircuitBreaker_init 5 60))
        by (apply call_guard_not_open; discriminate).
      destruct (Hback (handler_calls x3) m) as (r' & Hr').
      rewrite (call_backend_returned env m x3 x3 _ _ r' Hg Hr') in Hc.
      injection Hc as <- _ <-. split; [now exists r' | reflexivity]. }
    destruct Hout as [(r & -> & Hpath) | (-> & Hcan)].
    2: { destruct Hcan as (_ & (x3 & Hc & _) & _).
         destruct (Hcall _ _ _ _ Hc) as [(r' & Hr') _]. discriminate. }
    exists r, x1, b1. split; [exact Hrun |].
    destruct Hpath as [Hp | [Hp | [Hp | Hp]]].
    + destruct Hp as (_ & (lat & _ & ->) & _ & _ & -> & _). split; [exact Hcb |].
      apply Forall_app. split; [exact Htr | now repeat constructor].
    + destruct Hp as (_ & _ & _ & _ & -> & _ & _ & _ & -> & _). now split.
    + destruct Hp as (_ & (x3 & x4 & e & lat & Hc & _) & _).
      destruct (Hcall _ _ _ _ Hc) as [(r' & Hr') _]. discriminate.
    + destruct Hp as (_ & (x3 & x4 & lat & Hc & _ & _ & _ & _ & ->) & _).
      destruct (Hcall _ _ _ _ Hc) as [_ ->]. split; [reflexivity |].
      apply Forall_app. split; [exact Htr | now repeat constructor].
  - split; [reflexivity | constructor].
  - exists rs, x', b. repeat split; try assumption.
    intros xh. eexists _, _. unfold health_check, on_agent_os, AgentOSClient_health_check.
    run_monad.
    assert (Hid : set_agent_os (agent_os b) b = b) by now destruct b.
    rewrite Hid, Hcb. split; reflexivity.
Qed.

End BridgeInvariants.

(** Two requests at the answering backend. *)
Lemma breaker_idle_when_backend_never_raises_witness :
  exists rs x' b,
    bridge_session steady_env [sample_message; sample_message] start tt
    = (Returned (map Returned rs, b), x', tt) /\
    circuit_breaker b = CircuitBreaker_init 5 60 /\
    only_rate_limited (traces (agent_os b)).
Proof.
  destruct (breaker_idle_when_backend_never_raises steady_env
              [sample_message; sample_message] start
              (fun i m => ex_intro _ sample_response eq_refl))
    as (rs & x' & b & Hrun & Hcb & Honly & _).
  exists rs, x', b. repeat split; assumption.
Defined.

Section BridgeTrip.

Variable env : Env.
Hypothesis clock_monotone : forall i, clock env i <= clock env (S i).
Hypothesis backend_down : forall i m, exists e, prototype_execute env i m = Raised e.

Lemma clock_monotone_add (i k : nat) : clock env i <= clock env (i + k).
Proof.
  induction k as [|k IH].
  - rewrite Nat.add_0_r. lra.
  - rewrite Nat.add_succ_r. pose proof (clock_monotone (i + k)). lra.
Qed.

(** One request on a closed breaker with nothing cached and a token to
    spend, while the backend is down. *)
Lemma failing_request (m : Message) (x : Ext) (b : HybridAgentBridge) :
  configured b -> cache b = ∅ -> state (circuit_breaker b) = closed ->
  1 <= tokens (rate_limiter b) <= 1000 ->
  last_update (rate_limiter b) <= clock env (ticks x) ->
  exists lat b',
    execute env m x b
    = (Returned (error_response lat), mkExt (ticks x + 7) (S (handler_calls x)), b') /\
    configured b' /\ cache b' = ∅ /\
    circuit_breaker b' = counted (clock env (ticks x + 3)) (circuit_breaker b) /\
    tokens (rate_limiter b) - 1 <= tokens (rate_limiter b') <= 1000 /\
    last_update (rate_limiter b') <= clock env (ticks x + 7).
Proof.
  intros (Hrate & Hcap & Hth & Hto & Httl) Hcache Hst [Hlo Hhi] Hlast.
  rewrite execute_cases. cbv zeta.
  pose proof (acquire_at_spec (clock env (S (S (ticks x)))) 1 (rate_limiter b)) as Hs.
  cbv zeta in Hs. destruct Hs as (Hlu & Hr & Hc & Hiff & Hyes & _).
  set (refilled := py_min _ _) in *.
  pose proof (clock_monotone_add (ticks x) 2) as Hm2.
  replace (ticks x + 2)%nat with (S (S (ticks x))) in Hm2 by lia.
  assert (Hgrow : 0 <= (clock env (S (S (ticks x))) - last_update (rate_limiter b))
                       * rate (rate_limiter b)).
  { apply Qmult_le_0_compat; [lra | rewrite Hrate; lra]. }
  assert (Href : tokens (rate_limiter b) <= refilled <= 1000).
  { subst refilled. rewrite Hcap. split; [apply py_min_glb; lra | apply py_min_le_l]. }
  assert (Hadm : fst (admission env x b) = true).
  { unfold admission. apply Hiff. lra. }
  rewrite Hadm.
  assert (Hl : cache_lookup env m x b
               = (Returned None, tick (tick (tick x)), granted env x b)).
  { unfold cache_lookup. rewrite check_cache_run.
    change (cache (granted env x b)) with (cache b). rewrite Hcache, lookup_empty.
    reflexivity. }
  rewrite Hl. change (circuit_breaker (granted env x b)) with (circuit_breaker b).
  destruct (backend_down (handler_calls x) m) as (e & He).
  assert (Hg : call_guard env (tick (tick (tick x))) (circuit_breaker b)
               = (Returned tt, tick (tick (tick x)), circuit_breaker b))
    by (apply call_guard_not_open; congruence).
  rewrite (call_backend_raised env m _ _ _ _ e Hg He).
  eexists _, _. split.
  { replace (ticks x + 7)%nat with (S (S (S (S (S (S (S (ticks x)))))))) by lia.
    reflexivity. }
  match goal with |- context [failed_bridge env ?t ?s e ?y ?bb] =>
    destruct (failed_bridge_frame env t s e y bb) as (_ & _ & _ & Hcache' & Hcb' & _);
    destruct (failed_bridge_metrics env t s e y bb) as (_ & Hrl' & Httl');
    set (b' := failed_bridge env t s e y bb) in *
  end.
  cbv zeta in *.
  assert (Hrl : rate_limiter b' = snd (admission env x b)) by (rewrite Hrl'; reflexivity).
  unfold admission in Hrl, Hadm.
  assert (Htok' : tokens (rate_limiter b') = refilled - 1)
    by (rewrite Hrl; apply Hyes, Hadm).
  unfold configured. rewrite Htok', Hrl, Hr, Hc, Hlu, Hcb', Hcache', Httl'.
  cbn [circuit_breaker set_circuit_breaker cache cache_ttl ticks tick].
  replace (ticks x + 3)%nat with (S (S (S (ticks x)))) by lia.
  pose proof (clock_monotone_add (S (S (ticks x))) 5) as H5.
  replace (S (S (ticks x)) + 5)%nat with (ticks x + 7)%nat in H5 by lia.
  assert (Hcount : failure_threshold (counted (clock env (S (S (S (ticks x)))))
                                        (circuit_breaker b)) = 5%Z /\
                   timeout (counted (clock env (S (S (S (ticks x)))))
                              (circuit_breaker b)) = 60).
  { unfold counted. cbn. now destruct (_ >=? _)%Z. }
  destruct Hcount as [Hc1 Hc2].
  repeat split; try assumption; try lra.
Qed.

Lemma failing_requests (messages : list Message) :
  forall (x : Ext) (b : HybridAgentBridge),
    configured b -> cache b = ∅ -> state (circuit_breaker b) = closed ->
    (0 <= failures (circuit_breaker b))%Z ->
    (failures (circuit_breaker b) + Z.of_nat (length messages) <= 5)%Z ->
    inject_Z (Z.of_nat (length messages)) <= tokens (rate_limiter b) <= 1000 ->
    last_update (rate_limiter b) <= clock env (ticks x) ->
    exists rs b',
      execute_each env messages x b
      = (Returned (map Returned rs),
         mkExt (ticks x + 7 * length messages) (handler_calls x + length messages), b') /\
      Forall (fun r => exists lat, r = error_response lat) rs /\
      length rs = length messages /\
      configured b' /\ cache b' = ∅ /\
      failures (circuit_breaker b')
      = (failures (circuit_breaker b) + Z.of_nat (length messages))%Z /\
      (state (circuit_breaker b') = open <->
       (failures (circuit_breaker b) + Z.of_nat (length messages) = 5)%Z /\
       messages <> []) /\
      (state (circuit_breaker b') <> open -> state (circuit_breaker b') = closed).
Proof.
  induction messages as [|m rest IH]; intros x b Hconf Hcache Hst Hf0 Hf Htok Hlast.
  - exists [], b. cbn [execute_each length map]. run_monad.
    rewrite !Nat.mul_0_r, !Nat.add_0_r, Z.add_0_r. destruct x.
    split; [reflexivity |]. split; [constructor |]. split; [reflexivity |].
    split; [exact Hconf |]. split; [exact Hcache |]. split; [reflexivity |].
    split; [| intros _; exact Hst].
    split; [congruence |]. intros [_ H]. now contradiction H.
  - cbn [length] in *. rewrite Nat2Z.inj_succ in *.
    assert (Hz : 0 <= inject_Z (Z.of_nat (length rest))).
    { change 0 with (inject_Z 0). rewrite <- Zle_Qle. lia. }
    assert (Hsucc : inject_Z (Z.succ (Z.of_nat (length rest)))
                    == inject_Z (Z.of_nat (length rest)) + 1).
    { unfold Z.succ. rewrite inject_Z_plus. reflexivity. }
    destruct (failing_request m x b Hconf Hcache Hst) as
      (lat & b1 & Hrun & Hconf1 & Hcache1 & Hcb1 & Htok1 & Hlast1);
      [lra | exact Hlast |].
    pose proof Hconf as (_ & _ & Hth & _).
    assert (Hfail1 : failures (circuit_breaker b1) = (failures (circuit_breaker b) + 1)%Z).
    { rewrite Hcb1. unfold counted. cbn. now destruct (_ >=? _)%Z. }
    cbn [execute_each]. unfold mbind, M_bind, m_bind, attempt. rewrite Hrun.
    destruct rest as [|m2 rest2].
    + exists [error_response lat], b1. cbn [execute_each length map]. run_monad.
      split.
      { match goal with |- (_, mkExt ?a1 ?a2, _) = (_, mkExt ?c1 ?c2, _) =>
          replace c1 with a1 by lia; replace c2 with a2 by lia
        end. reflexivity. }
      split; [repeat constructor; now exists lat |].
      split; [reflexivity |]. split; [exact Hconf1 |]. split; [exact Hcache1 |].
      rewrite Hfail1. cbn [length Z.of_nat]. split; [lia |].
      rewrite Hcb1. unfold counted. cbn. rewrite Hth.
      destruct (Z.geb_spec (failures (circuit_breaker b) + 1) 5); cbn; rewrite ?Hst;
        repeat split; try congruence; try lia.
    + assert (Hst1 : state (circuit_breaker b1) = closed).
      { rewrite Hcb1. unfold counted. cbn. rewrite Hth.
        cbn [length] in Hf. rewrite Nat2Z.inj_succ in Hf.
        destruct (Z.geb_spec (failures (circuit_breaker b) + 1) 5); [lia | exact Hst]. }
      destruct (IH (mkExt (ticks x + 7) (S (handler_calls x))) b1 Hconf1 Hcache1 Hst1)
        as (rs & b' & Hrest & Herr & Hlen & Hconf' & Hcache' & Hfail' & Hopen & Hclosed).
      * lia.
      * lia.
      * split; [lra | lra].
      * exact Hlast1.
      * exists (error_response lat :: rs), b'. rewrite Hrest. run_monad.
        cbn [ticks handler_calls map length].
        split.
        { match goal with |- (_, mkExt ?a1 ?a2, _) = (_, mkExt ?c1 ?c2, _) =>
            replace c1 with a1 by lia; replace c2 with a2 by lia
          end. reflexivity. }
        split; [constructor; [now exists lat | exact Herr] |].
        split; [now rewrite Hlen |]. split; [exact Hconf' |]. split; [exact Hcache' |].
        split; [rewrite Hfail', Hfail1; cbn [length]; lia |].
        split; [| exact Hclosed].
        rewrite Hopen, Hfail1. cbn [length]. split.
        -- intros [H _]. split; [lia | discriminate].
        -- intros [H _]. split; [lia | discriminate].
Qed.

End BridgeTrip.

(** X12: an outage of the backend trips the bridge's breaker. On a clock
    that never runs backwards, while every backend invocation raises, a
    fresh bridge answers up to five requests with the error response,
    invoking the backend once for each and caching nothing; the breaker
    counts them, and it is open, and [health_check] degraded, exactly
    when five have been served. From then on a request that is let
    through no later than 60 seconds after the last failure gets the
    error response without the backend being invoked. *)
Theorem backend_outage_opens_breaker (env : Env) (messages : list Message) (x : Ext) :
  (forall i, clock env i <= clock env (S i)) ->
  (forall i m, exists e, prototype_execute env i m = Raised e) ->
  (length messages <= 5)%nat ->
  exists rs x' b,
    bridge_session env messages x tt = (Returned (map Returned rs, b), x', tt) /\
    Forall (fun r => exists lat, r = error_response lat) rs /\
    length rs = length messages /\
    handler_calls x' = (handler_calls x + length messages)%nat /\
    cache b = ∅ /\
    failures (circuit_breaker b) = Z.of_nat (length messages) /\
    (state (circuit_breaker b) = open <-> length messages = 5%nat) /\
    (forall xh, exists h xh',
        health_check env xh b = (Returned h, xh', b) /\
        (status h = degraded <-> length messages = 5%nat)) /\
    (length messages = 5%nat ->
     forall m xs lf,
       last_failure (circuit_breaker b) = Some lf ->
       fst (admission env xs b) = true ->
       clock env (S (S (S (ticks xs)))) - lf <= 60 ->
       exists lat x'' b'',
         execute env m xs b = (Returned (error_response lat), x'', b'') /\
         handler_calls x'' = handler_calls xs).
Proof.
  intros Hmono Hdown Hlen.
  unfold bridge_session, HybridAgentBridge_init, RateLimiter_init. run_monad.
  set (b0 := mkBridge AgentOSClient_init
               (mkRateLimiter 100 1000 1000 (clock env (ticks x)))
               (CircuitBreaker_init 5 60) ∅ 300 0%Z 0%Z 0).
  destruct (failing_requests env Hmono Hdown messages (tick x) b0)
    as (rs & b & Hrun & Herr & Hlen' & Hconf & Hcache & Hfail & Hopen & Hclosed).
  - repeat split.
  - reflexivity.
  - reflexivity.
  - cbn. lia.
  - cbn. lia.
  - cbn [b0 rate_limiter tokens]. split; [| lra].
    change 1000 with (inject_Z 1000). rewrite <- Zle_Qle. lia.
  - cbn [b0 rate_limiter last_update tick ticks]. apply Hmono.
  - cbn [b0 circuit_breaker CircuitBreaker_init failures] in Hfail, Hopen.
    rewrite Z.add_0_l in Hfail, Hopen.
    assert (Hopen' : state (circuit_breaker b) = open <-> length messages = 5%nat).
    { rewrite Hopen. split.
      - intros [H _]. lia.
      - intros H. split; [lia |]. destruct messages; [discriminate | congruence]. }
    eexists rs, _, b. rewrite Hrun. cbn [tick ticks handler_calls].
    split; [reflexivity |]. split; [exact Herr |]. split; [exact Hlen' |].
    split; [reflexivity |]. split; [exact Hcache |]. split; [exact Hfail |].
    split; [exact Hopen' |]. split.
    + intros xh. eexists _, _.
      unfold health_check, on_agent_os, AgentOSClient_health_check. run_monad.
      assert (Hid : set_agent_os (agent_os b) b = b) by now destruct b.
      rewrite Hid. split; [reflexivity |]. cbn [status]. rewrite <- Hopen'.
      destruct (state (circuit_breaker b)); split; congruence.
    + intros H5 m xs lf Hlf Hadm Hcool.
      rewrite execute_cases. cbv zeta. rewrite Hadm.
      assert (Hl : cache_lookup env m xs b
                   = (Returned None, tick (tick (tick xs)), granted env xs b)).
      { unfold cache_lookup. rewrite check_cache_run.
        change (cache (granted env xs b)) with (cache b). rewrite Hcache, lookup_empty.
        reflexivity. }
      rewrite Hl. change (circuit_breaker (granted env xs b)) with (circuit_breaker b).
      destruct Hconf as (_ & _ & _ & Hto & _).
      rewrite (call_rejected env _ (tick (tick (tick xs))) _ lf);
        [| now apply Hopen' | exact Hlf | rewrite Hto; exact Hcool].
      eexists _, _, _. split; reflexivity.
Qed.

(** Five requests at the failing backend on the steady clock. *)
Lemma backend_outage_opens_breaker_witness :
  let messages := [sample_message; sample_message; sample_message;
                   sample_message; sample_message] in
  exists rs x' b,
    bridge_session failing_env messages start tt = (Returned (map Returned rs, b), x', tt) /\
    length rs = 5%nat /\
    handler_calls x' = 5%nat /\
    failures (circuit_breaker b) = 5%Z /\
    state (circuit_breaker b) = open.
Proof.
  intros messages.
  destruct (backend_outage_opens_breaker failing_env messages start)
    as (rs & x' & b & Hrun & _ & Hlen & Hcalls & _ & Hfail & Hopen & _).
  - intros i. cbn [clock failing_env]. rewrite <- Zle_Qle. lia.
  - intros i m. eexists. reflexivity.
  - simpl. lia.
  - exists rs, x', b. repeat split; try assumption.
    apply Hopen. reflexivity.
Defined.

(** ** ProductionServer *)

Section ServerFacts.

Variable env : Env.

(** X13: [handle_message] handles nothing itself. For a request without
    the key "message" it raises the [KeyError], before the clock is read
    and with the server untouched. For a request that has the key it
    builds the message, with "anonymous" as the default user and an empty
    dictionary as the default metadata, and awaits [execute]: when
    [execute] returns a [Response] the reply carries its fields and the
    next clock reading, and when the backend call inside [execute] is
    cancelled the cancellation passes through [handle_message] to its
    caller, no reply being built. The server keeps its start time. *)
Theorem handle_message_follows_execute (request : Request) (x : Ext)
    (s : ProductionServer) :
  (req_message request = None ->
     handle_message env request x s
     = (Raised (OtherException "KeyError" "'message'"), x, s)) /\
  (forall text,
     req_message request = Some text ->
     let message :=
       mkMessage text (clock env (ticks x))
         (default "anonymous"%string (req_user_id request))
         (Some (default [] (req_metadata request))) in
     (exists r x1 b1,
         execute env message (tick x) (bridge s) = (Returned r, x1, b1) /\
         handle_message env request x s
         = (Returned (mkReply (content r) (confidence r) (processing_time r) (success r)
                        (clock env (ticks x1))),
            tick x1, mkServer b1 (server_start_time s))) \/
     (exists x1 b1,
         execute env message (tick x) (bridge s) = (Cancelled, x1, b1) /\
         handle_message env request x s
         = (Cancelled, x1, mkServer b1 (server_start_time s)))).
Proof.
  split.
  - intros H. unfold handle_message. now rewrite H.
  - intros text H. cbv zeta.
    match goal with |- context [execute env ?m (tick x) (bridge s)] =>
      destruct (execute_effect env m (tick x) (bridge s))
        as (out & x1 & b1 & Hrun & _ & _ & [(r & -> & _) | (-> & _)])
    end.
    + left. exists r, x1, b1. split; [exact Hrun |].
      unfold handle_message. rewrite H. run_monad. rewrite Hrun. reflexivity.
    + right. exists x1, b1. split; [exact Hrun |].
      unfold handle_message. rewrite H. run_monad. rewrite Hrun. reflexivity.
Qed.

End ServerFacts.

Lemma handle_message_follows_execute_witness :
  handle_message steady_env (mkRequest None (Some "user-001"%string) None) start
    (mkServer fresh_bridge 0)
  = (Raised (OtherException "KeyError" "'message'"), start, mkServer fresh_bridge 0) /\
  (exists r x1 b1,
      handle_message steady_env (mkRequest (Some "Can you help me?"%string) None None)
        (mkExt 1 0) (mkServer fresh_bridge 0)
      = (Returned (mkReply (content r) (confidence r) (processing_time r) (success r)
                     (clock steady_env (ticks x1))),
         tick x1, mkServer b1 0)) /\
  (exists x1 b1,
      handle_message cancelling_env (mkRequest (Some "Can you help me?"%string) None None)
        (mkExt 1 0) (mkServer fresh_bridge 0)
      = (Cancelled, x1, mkServer b1 0)).
Proof.
  split; [| split].
  - apply (handle_message_follows_execute steady_env
             (mkRequest None (Some "user-001"%string) None) start (mkServer fresh_bridge 0)).
    reflexivity.
  - destruct (handle_message_follows_execute steady_env
                (mkRequest (Some "Can you help me?"%string) None None)
                (mkExt 1 0) (mkServer fresh_bridge 0)) as [_ H].
    destruct (H "Can you help me?"%string eq_refl)
      as [(r & x1 & b1 & _ & Hrun) | (x1 & b1 & Hex & _)].
    + now exists r, x1, b1.
    + vm_compute in Hex. discriminate.
  - destruct (handle_message_follows_execute cancelling_env
                (mkRequest (Some "Can you help me?"%string) None None)
                (mkExt 1 0) (mkServer fresh_bridge 0)) as [_ H].
    destruct (H "Can you help me?"%string eq_refl)
      as [(r & x1 & b1 & Hex & _) | (x1 & b1 & _ & Hrun)].
    + vm_compute in Hex. discriminate.
    + now exists x1, b1.
Defined.

(** ** ProductionServer: sessions *)

Section ServerSessions.

Variable env : Env.

Lemma execute_backend_calls (message : Message) (x : Ext) (b : HybridAgentBridge) :
  exists out x' b',
    execute env message x b = (out, x', b') /\
    ((exists r, out = Returned r) \/ out = Cancelled) /\
    (handler_calls x <= handler_calls x' <= S (handler_calls x))%nat.
Proof.
  destruct (execute_effect env message x b)
    as (out & x' & b' & Hrun & _ & _ & [(r & -> & Hpath) | (-> & Hcan)]).
  - exists (Returned r), x', b'. split; [exact Hrun |]. split; [left; now exists r |].
    destruct Hpath as [Hp | [Hp | [Hp | Hp]]].
    + destruct Hp as (_ & _ & Hcalls & _). lia.
    + destruct Hp as (_ & _ & Hcalls & _). lia.
    + destruct Hp as (_ & (x2 & x3 & e & lat & Hcall & Hc2 & Hc3 & _) & _).
      destruct (call_await_cases env message x2 (circuit_breaker b))
        as [(e' & Hrej & _)
           | (xg & cbg & _ & _ &
              [(r' & _ & Hret) | [(e' & He & Hraise) | (_ & Hcancel)]])].
      * rewrite Hrej in Hcall. injection Hcall as _ <- _. cbn in Hc3. lia.
      * rewrite Hret in Hcall. discriminate.
      * rewrite Hraise in Hcall. injection Hcall as _ <- _. cbn in Hc3. lia.
      * rewrite Hcancel in Hcall. discriminate.
    + destruct Hp as (_ & (x2 & x3 & lat & Hcall & Hc2 & Hc3 & _) & _).
      destruct (call_await_cases env message x2 (circuit_breaker b))
        as [(e' & Hrej & _)
           | (xg & cbg & _ & _ &
              [(r' & Hr & Hret) | [(e' & _ & Hraise) | (_ & Hcancel)]])].
      * rewrite Hrej in Hcall. discriminate.
      * rewrite Hret in Hcall. injection Hcall as _ <- _. cbn in Hc3. lia.
      * rewrite Hraise in Hcall. discriminate.
      * rewrite Hcancel in Hcall. discriminate.
  - exists Cancelled, x', b'. split; [exact Hrun |]. split; [now right |].
    destruct Hcan as (_ & (x2 & Hcall & Hc2) & _).
    destruct (call_await_cases env message x2 (circuit_breaker b))
      as [(e' & Hrej & _)
         | (xg & cbg & _ & _ &
            [(r' & _ & Hret) | [(e' & _ & Hraise) | (_ & Hcancel)]])].
    + rewrite Hrej in Hcall. discriminate.
    + rewrite Hret in Hcall. discriminate.
    + rewrite Hraise in Hcall. discriminate.
    + rewrite Hcancel in Hcall. injection Hcall as <- _. cbn. lia.
Qed.

Lemma get_health_run (x : Ext) (s : ProductionServer) :
  exists h,
    get_health env x s
    = (Returned (h, clock env (S (S (ticks x))) - server_start_time s),
       tick (tick (tick x)), s) /\
    (status h = degraded <-> state (circuit_breaker (bridge s)) = open) /\
    metrics h = get_metrics (bridge s).
Proof.
  unfold get_health, health_check, AgentOSClient_health_check, on_agent_os.
  run_monad. destruct s as [b st]. destruct b. cbn.
  eexists. split; [reflexivity |]. split; [| reflexivity].
  cbn. match goal with |- context [match ?s with _ => _ end] => destruct s end;
    split; congruence.
Qed.

(** X24: a session of the server. Every request gets an outcome: the
    [KeyError] when it has no "message"; otherwise a reply, or the
    cancellation when its backend call was cancelled. The backend is
    invoked at most once for each request that has a message, the start
    time of the server never changes, and [get_health] afterwards reads
    three clock values, leaves the server as it is, reports the up-time
    since that start time, and is degraded exactly when the breaker is
    open. *)
Theorem server_session_replies (requests : list Request) :
  forall (x : Ext) (s : ProductionServer),
  exists rs x' s',
    handle_each env requests x s = (Returned rs, x', s') /\
    Forall2 (fun q r =>
               match req_message q with
               | None => r = Raised (OtherException "KeyError" "'message'")
               | Some _ => (exists reply, r = Returned reply) \/ r = Cancelled
               end) requests rs /\
    (handler_calls x <= handler_calls x'
     <= handler_calls x + length (omap req_message requests))%nat /\
    server_start_time s' = server_start_time s /\
    forall xh, exists h,
      get_health env xh s'
      = (Returned (h, clock env (S (S (ticks xh))) - server_start_time s),
         tick (tick (tick xh)), s') /\
      (status h = degraded <-> state (circuit_breaker (bridge s')) = open) /\
      metrics h = get_metrics (bridge s').
Proof.
  induction requests as [|q requests IH]; intros x s.
  - exists [], x, s. cbn [handle_each]. run_monad.
    split; [reflexivity |]. split; [constructor |]. split; [cbn; lia |].
    split; [reflexivity |]. intros xh. apply get_health_run.
  - cbn [handle_each]. run_monad. unfold handle_message.
    destruct (req_message q) as [text|] eqn:Hq.
    + run_monad.
      match goal with |- context [execute env ?m (tick x) (bridge s)] =>
        destruct (execute_backend_calls m (tick x) (bridge s))
          as (out & x1 & b1 & Hrun & Hout & Hcalls); rewrite Hrun
      end.
      destruct Hout as [(r & ->) | ->];
        match goal with |- context [handle_each env requests ?x2 ?s2] =>
          destruct (IH x2 s2)
            as (rs & x' & s' & Hrest & Hall & Hcount & Hstart & Hhealth)
        end;
        rewrite Hrest; eexists (_ :: rs), x', s';
        (split; [reflexivity |]);
        (split; [constructor;
                 [cbv beta; rewrite Hq; first [left; eexists; reflexivity | now right]
                 | exact Hall] |]);
        replace (length (omap req_message (q :: requests)))
          with (S (length (omap req_message requests)))
          by (cbn; rewrite Hq; reflexivity);
        cbn [tick handler_calls server_start_time set_bridge]
          in Hcount, Hcalls, Hstart, Hhealth;
        (split; [lia |]); (split; [exact Hstart |]);
        intros xh; destruct (Hhealth xh) as (h & Hh); now exists h.
    + run_monad.
      destruct (IH x s) as (rs & x' & s' & Hrest & Hall & Hcount & Hstart & Hhealth).
      rewrite Hrest. eexists (_ :: rs), x', s'.
      split; [reflexivity |].
      split; [constructor; [cbv beta; rewrite Hq; reflexivity | exact Hall] |].
      replace (length (omap req_message (q :: requests)))
        with (length (omap req_message requests))
        by (cbn; rewrite Hq; reflexivity).
      split; [lia |]. split; [exact Hstart |]. exact Hhealth.
Qed.
End ServerSessions.

(** * agno-prototype.py *)

(** ** Texts: [in], [split] *)

Section AgentStrings.
Import Stdlib.Strings.Ascii.
Import Agent.
Local Open Scope string_scope.

Lemma string_app_cons (c : ascii) (s t : string) : (String c s ++ t) = String c (s ++ t).
Proof. reflexivity. Qed.

Lemma string_app_nil_l (t : string) : ("" ++ t) = t.
Proof. reflexivity. Qed.

Lemma string_app_nil_r (s : string) : (s ++ "") = s.
Proof. induction s as [|c s IH]; [reflexivity |]. now rewrite string_app_cons, IH. Qed.

Lemma string_app_assoc (s t u : string) : ((s ++ t) ++ u) = (s ++ (t ++ u)).
Proof. induction s as [|c s IH]; [reflexivity |]. now rewrite !string_app_cons, IH. Qed.

Lemma contains_hash (text : string) :
  contains "#" text = negb (no_hash text).
Proof.
  induction text as [|c rest IH]; [reflexivity |].
  cbn [contains no_hash all_chars]. fold (no_hash rest). rewrite IH.
  unfold is_hash. cbn [String.prefix].
  destruct (Ascii.eqb_spec c "#") as [->|Hne].
  - cbn. destruct rest; reflexivity.
  - destruct (ascii_dec "#" c) as [Heq|_]; [congruence |]. reflexivity.
Qed.

Lemma no_hash_app (s t : string) : no_hash (s ++ t) = no_hash s && no_hash t.
Proof.
  unfold no_hash. induction s as [|c s IH]; [reflexivity |].
  rewrite ?string_app_cons, ?string_app_nil_l; cbn [all_chars]. rewrite IH. now rewrite andb_assoc.
Qed.

(** [split] at the first separator. *)
Lemma split_on_hash_free (pre : string) :
  no_hash pre = true -> split_on "#" pre = [pre].
Proof.
  unfold no_hash. induction pre as [|c pre IH]; [reflexivity |].
  cbn [all_chars split_on]. unfold is_hash at 1. intros H.
  apply andb_prop in H as [Hc Hpre]. apply negb_true_iff in Hc. rewrite Hc.
  rewrite (IH Hpre). reflexivity.
Qed.

Lemma split_on_first (pre rest : string) :
  no_hash pre = true ->
  split_on "#" (pre ++ String "#" rest) = pre :: split_on "#" rest.
Proof.
  unfold no_hash. induction pre as [|c pre IH]; [reflexivity |].
  rewrite ?string_app_cons, ?string_app_nil_l; cbn [all_chars split_on]. unfold is_hash at 1. intros H.
  apply andb_prop in H as [Hc Hpre]. apply negb_true_iff in Hc. rewrite Hc.
  rewrite (IH Hpre). reflexivity.
Qed.

(** Every text is a piece without separator, then nothing or a
    separator and the rest. *)
Lemma split_at_first (text : string) :
  (no_hash text = true) \/
  (exists pre rest, text = pre ++ String "#" rest /\ no_hash pre = true).
Proof.
  induction text as [|c text IH]; [now left |].
  destruct (Ascii.eqb_spec c "#") as [->|Hne].
  - right. exists "", text. split; reflexivity.
  - destruct IH as [Hfree | (pre & rest & -> & Hpre)].
    + left. unfold no_hash. cbn [all_chars]. unfold is_hash at 1.
      apply Ascii.eqb_neq in Hne. rewrite Hne. exact Hfree.
    + right. exists (String c pre), rest. split; [reflexivity |].
      unfold no_hash. cbn [all_chars]. unfold is_hash at 1.
      apply Ascii.eqb_neq in Hne. rewrite Hne. exact Hpre.
Qed.

(** [split()] *)
Lemma split_ws_from_blank (word : option string) (blank : string) :
  is_blank blank = true -> blank <> "" ->
  split_ws_from word blank = match word with Some w => [w] | None => [] end.
Proof.
  unfold is_blank. revert word. induction blank as [|c blank IH]; [congruence |].
  intros word H _. cbn [all_chars] in H. apply andb_prop in H as [Hc Hb].
  cbn [split_ws_from]. rewrite Hc.
  destruct blank as [|c' blank'].
  - destruct word; reflexivity.
  - destruct word; rewrite (IH None Hb); congruence.
Qed.

Lemma split_ws_blank_run (blank rest : string) :
  is_blank blank = true ->
  split_ws_from None (blank ++ rest) = split_ws_from None rest.
Proof.
  unfold is_blank. induction blank as [|c blank IH]; [reflexivity |].
  cbn [all_chars]. intros H. apply andb_prop in H as [Hc Hb].
  rewrite ?string_app_cons, ?string_app_nil_l; cbn [split_ws_from]. rewrite Hc. exact (IH Hb).
Qed.

Lemma split_ws_word_run (acc w rest : string) :
  all_chars (fun c => negb (is_space c)) w = true ->
  ends_or is_space rest = true ->
  exists tl, split_ws_from (Some acc) (w ++ rest) = (acc ++ w) :: tl.
Proof.
  revert acc. induction w as [|c w IH]; intros acc Hw Hrest.
  - rewrite string_app_nil_l, string_app_nil_r.
    destruct rest as [|c rest].
    + exists []. reflexivity.
    + cbn in Hrest. cbn [split_ws_from]. rewrite Hrest. eexists. reflexivity.
  - cbn [all_chars] in Hw. apply andb_prop in Hw as [Hc Hw].
    apply negb_true_iff in Hc. rewrite ?string_app_cons, ?string_app_nil_l; cbn [split_ws_from]. rewrite Hc.
    destruct (IH (acc ++ String c "") Hw Hrest) as [tl Htl].
    exists tl. rewrite Htl. f_equal. now rewrite string_app_assoc.
Qed.

Lemma split_ws_nonempty (s : string) :
  is_blank s = false -> split_ws s <> [].
Proof.
  unfold split_ws, is_blank. induction s as [|c s IH]; [discriminate |].
  cbn [all_chars split_ws_from]. destruct (is_space c) eqn:Hc.
  - cbn. exact IH.
  - intros _. clear IH. generalize (String c ""). revert Hc. clear.
    intros _. induction s as [|c' s IH]; intros acc.
    + discriminate.
    + cbn [split_ws_from]. destruct (is_space c'); [discriminate | apply IH].
Qed.

Lemma space_not_hash (c : ascii) : is_space c = true -> is_hash c = false.
Proof.
  unfold is_hash. destruct (Ascii.eqb_spec c "#") as [->|]; [discriminate | reflexivity].
Qed.

Lemma blank_no_hash (s : string) : is_blank s = true -> no_hash s = true.
Proof.
  unfold is_blank, no_hash. induction s as [|c s IH]; [reflexivity |].
  cbn [all_chars]. intros H. apply andb_prop in H as [Hc Hs].
  now rewrite (space_not_hash c Hc), (IH Hs).
Qed.

Lemma word_no_hash (s : string) : is_word s = true -> no_hash s = true.
Proof.
  unfold is_word, no_hash. induction s as [|c s IH]; [reflexivity |].
  cbn [all_chars]. intros H. apply andb_prop in H as [Hc Hs].
  apply andb_prop in Hc as [_ Hc]. now rewrite Hc, (IH Hs).
Qed.

Lemma word_no_space (s : string) :
  is_word s = true -> all_chars (fun c => negb (is_space c)) s = true.
Proof.
  unfold is_word. induction s as [|c s IH]; [reflexivity |].
  cbn [all_chars]. intros H. apply andb_prop in H as [Hc Hs].
  apply andb_prop in Hc as [Hc _]. now rewrite Hc, (IH Hs).
Qed.

(** The piece after the first separator of [pre # seg rest] is [seg],
    when [rest] is over or begins with a separator. *)
Lemma split_on_second (pre seg rest : string) :
  no_hash pre = true -> no_hash seg = true -> ends_or is_hash rest = true ->
  exists tl, split_on "#" (pre ++ String "#" (seg ++ rest)) = pre :: seg :: tl.
Proof.
  intros Hpre Hseg Hrest. rewrite (split_on_first _ _ Hpre).
  destruct rest as [|c rest].
  - rewrite string_app_nil_r, (split_on_hash_free _ Hseg). now exists [].
  - cbn in Hrest. unfold is_hash in Hrest. apply Ascii.eqb_eq in Hrest as ->.
    rewrite (split_on_first _ _ Hseg). eexists. reflexivity.
Qed.



(** Whatever [_extract_entities] raises is the [IndexError]. *)
Lemma extract_entities_raises_index_error (text : string) (e : PyExc) :
  _extract_entities text = Raised e -> e = IndexError.
Proof.
  unfold _extract_entities. intros H.
  repeat match type of H with
         | context [match ?t with _ => _ end] => destruct t
         end; congruence.
Qed.

(** X14: on ASCII text [_extract_entities] raises nothing but the
    [IndexError] of [parts[1].split()[0]], and raises it exactly when the
    first [#] of the text is followed by white space and nothing else up
    to the next [#] or the end of the text. *)
Theorem extract_entities_raises_on_blank_order (text : string) :
  is_ascii text = true ->
  (forall e, _extract_entities text = Raised e -> e = IndexError) /\
  (_extract_entities text = Raised IndexError <->
   exists pre blank rest,
     text = pre ++ String "#" (blank ++ rest) /\
     no_hash pre = true /\ blank <> "" /\ is_blank blank = true /\
     ends_or is_hash rest = true).
Proof.
  intros _. split; [apply extract_entities_raises_index_error |].
  split.
  - intros He. unfold _extract_entities in He.
    rewrite contains_hash in He.
    destruct (split_at_first text) as [Hfree | (pre & tl & -> & Hpre)].
    { rewrite Hfree in He. discriminate. }
    destruct (split_at_first tl) as [Hfree | (seg & rest & -> & Hseg)].
    + rewrite no_hash_app, Hpre in He. cbn [no_hash all_chars is_hash] in He.
      cbn [negb andb Ascii.eqb] in He.
      rewrite (split_on_first _ _ Hpre), (split_on_hash_free _ Hfree) in He.
      exists pre, tl, "". rewrite string_app_nil_r.
      destruct tl as [|c tl]; [discriminate |].
      destruct (is_blank (String c tl)) eqn:Hb.
      * repeat split; congruence.
      * pose proof (split_ws_nonempty _ Hb) as Hne.
        destruct (split_ws (String c tl)) as [|w ws]; [congruence |].
        destruct w; discriminate.
    + destruct (split_on_second pre seg (String "#" rest) Hpre Hseg eq_refl) as [tl' Htl].
      rewrite Htl in He.
      destruct (negb (no_hash (pre ++ String "#" (seg ++ String "#" rest))));
        [| discriminate].
      exists pre, seg, (String "#" rest).
      destruct seg as [|c seg]; [discriminate |].
      destruct (is_blank (String c seg)) eqn:Hb.
      * repeat split; congruence.
      * pose proof (split_ws_nonempty _ Hb) as Hne.
        destruct (split_ws (String c seg)) as [|w ws]; [congruence |].
        destruct w; discriminate.
  - intros (pre & blank & rest & -> & Hpre & Hne & Hblank & Hrest).
    unfold _extract_entities. rewrite contains_hash.
    rewrite no_hash_app, Hpre. cbn [no_hash all_chars is_hash Ascii.eqb negb andb].
    destruct (split_on_second pre blank rest Hpre (blank_no_hash _ Hblank) Hrest)
      as [tl Htl].
    rewrite Htl. unfold split_ws. rewrite (split_ws_from_blank None blank Hblank Hne).
    destruct blank; [congruence | reflexivity].
Qed.

(** X15: on ASCII text whose first [#] is followed, after any white
    space, by a word without white space or [#] that ends at white space,
    at a [#] or with the text, [_extract_entities] returns that word as
    the order number and nothing else. *)
Theorem extract_entities_finds_order_number (pre blank w rest : string) :
  is_ascii (pre ++ String "#" (blank ++ w ++ rest)) = true ->
  no_hash pre = true -> is_blank blank = true ->
  w <> "" -> is_word w = true ->
  ends_or (fun c => is_space c || is_hash c) rest = true ->
  _extract_entities (pre ++ String "#" (blank ++ w ++ rest))
  = Returned [("order_number", w)].
Proof.
  intros _ Hpre Hblank Hne Hw Hrest.
  unfold _extract_entities. rewrite contains_hash, no_hash_app, Hpre.
  cbn [no_hash all_chars is_hash Ascii.eqb negb andb].
  (* cut [rest] at its first separator *)
  assert (exists r1 r2, rest = r1 ++ r2 /\ no_hash r1 = true /\
                        ends_or is_hash r2 = true /\ ends_or is_space r1 = true)
    as (r1 & r2 & -> & Hr1 & Hr2 & Hr1s).
  { destruct (split_at_first rest) as [Hfree | (r1 & r2 & -> & Hr1)].
    - exists rest, "". rewrite string_app_nil_r. repeat split; try assumption.
      destruct rest as [|c rest]; [reflexivity |].
      cbn [ends_or] in Hrest |- *.
      unfold no_hash in Hfree. cbn [all_chars] in Hfree.
      apply andb_prop in Hfree as [Hc _]. apply negb_true_iff in Hc.
      now rewrite Hc, orb_false_r in Hrest.
    - exists r1, (String "#" r2). repeat split; try assumption.
      destruct r1 as [|c r1]; [reflexivity |].
      rewrite string_app_cons in Hrest. cbn [ends_or] in Hrest |- *.
      unfold no_hash in Hr1. cbn [all_chars] in Hr1.
      apply andb_prop in Hr1 as [Hc _]. apply negb_true_iff in Hc.
      now rewrite Hc, orb_false_r in Hrest. }
  replace (blank ++ w ++ r1 ++ r2) with ((blank ++ w ++ r1) ++ r2)
    by now rewrite !string_app_assoc.
  destruct (split_on_second pre (blank ++ w ++ r1) r2 Hpre) as [tl Htl];
    [| exact Hr2 |].
  { now rewrite !no_hash_app, (blank_no_hash _ Hblank), (word_no_hash _ Hw), Hr1. }
  rewrite Htl.
  unfold split_ws. rewrite (split_ws_blank_run blank _ Hblank).
  destruct w as [|c w]; [congruence |].
  pose proof Hw as Hw'. unfold is_word in Hw'. cbn [all_chars] in Hw'.
  apply andb_prop in Hw' as [Hc Hw']. apply andb_prop in Hc as [Hc _].
  apply negb_true_iff in Hc.
  rewrite string_app_cons. cbn [split_ws_from]. rewrite Hc.
  destruct (split_ws_word_run (String c "") w r1) as [ws Hws];
    [| exact Hr1s |].
  { apply word_no_space in Hw. cbn [all_chars] in Hw. now apply andb_prop in Hw as [_ ?]. }
  rewrite Hws.
  destruct (blank ++ String c (w ++ r1)) eqn:Hseg.
  { destruct blank; discriminate. }
  reflexivity.
Qed.

(** ** GenerateTool *)

Lemma format_plain (template : string) (data : Dict) :
  forall st, plain_from st template = true ->
  match format_from st template data with
  | inl _ | inr (FormatKeyError _) => True
  | inr _ => False
  end.
Proof.
  induction template as [|c rest IH]; intros st Hplain.
  - destruct st; try discriminate. exact I.
  - cbn [plain_from format_from] in Hplain |- *.
    destruct st as [| |name|].
    + destruct (Ascii.eqb c "{"); [exact (IH _ Hplain) |].
      destruct (Ascii.eqb c "}"); [exact (IH _ Hplain) |].
      specialize (IH _ Hplain). destruct (format_from InText rest data) as [|[]]; tauto.
    + destruct (Ascii.eqb c "{").
      * specialize (IH _ Hplain). destruct (format_from InText rest data) as [|[]]; tauto.
      * apply andb_prop in Hplain as [Hname Hplain].
        destruct (Ascii.eqb_spec c "}") as [->|_]; [discriminate |].
        exact (IH _ Hplain).
    + destruct (Ascii.eqb c "}").
      * destruct (dict_get name data); [| exact I].
        specialize (IH _ Hplain). destruct (format_from InText rest data) as [|[]]; tauto.
      * apply andb_prop in Hplain as [_ Hplain]. exact (IH _ Hplain).
    + apply andb_prop in Hplain as [Hc Hplain]. rewrite Hc.
      specialize (IH _ Hplain). destruct (format_from InText rest data) as [|[]]; tauto.
Qed.

(** Every template the generator can pick has plain fields. *)
Lemma templates_plain (name : string) :
  plain_template (default help_menu (dict_get name templates)) = true.
Proof.
  unfold templates, dict_get.
  repeat match goal with
         | |- context [String.eqb ?k name] => destruct (String.eqb k name)
         end; vm_compute; reflexivity.
Qed.

(** X16: [GenerateTool._process] never raises, whatever result it is
    given: it returns the chosen template with its fields filled from the
    data, or the template as it is when the data lack a field. The
    template is [help_menu] when the name is unknown. *)
Theorem generator_never_raises (process_result : Processed) :
  let template :=
    default help_menu (dict_get (response_template process_result) templates) in
  exists response,
    GenerateTool_process process_result = Returned response /\
    (format template (data process_result) = inl response \/
     (exists key, format template (data process_result) = inr (FormatKeyError key)) /\
     response = template).
Proof.
  intros template. unfold GenerateTool_process. fold template.
  pose proof (format_plain template (data process_result) InText
                (templates_plain (response_template process_result))) as H.
  fold (format template (data process_result)) in H.
  destruct (format template (data process_result)) as [response | [key | msg | msg]];
    try contradiction.
  - exists response. split; [reflexivity | now left].
  - exists template. split; [reflexivity |]. right. split; [now exists key | reflexivity].
Qed.

(** The reply to what the processor hands over. *)
Lemma generator_fills_processor_result (parsed_data : Parsed) :
  exists response,
    format (default help_menu
              (dict_get (response_template (ProcessTool_process parsed_data)) templates))
           (data (ProcessTool_process parsed_data)) = inl response.
Proof.
  unfold ProcessTool_process, _handle_refund, _handle_tracking, _handle_support,
    _handle_general.
  destruct (String.eqb (intent parsed_data) "refund").
  { destruct (dict_get "order_number" (entities parsed_data)); eexists; vm_compute; reflexivity. }
  destruct (String.eqb (intent parsed_data) "tracking").
  { destruct (dict_get "order_number" (entities parsed_data)); eexists; vm_compute; reflexivity. }
  destruct (String.eqb (intent parsed_data) "support").
  { destruct (String.eqb (sentiment parsed_data) "negative"); eexists; vm_compute; reflexivity. }
  eexists; vm_compute; reflexivity.
Qed.

(** X17: what [ProcessTool._process] returns always fills its template:
    every handler supplies each field its template names, so the
    generator's [KeyError] fallback is never taken on a result of the
    processor. *)
Theorem processor_result_fills_its_template (parsed_data : Parsed) :
  let process_result := ProcessTool_process parsed_data in
  let template :=
    default help_menu (dict_get (response_template process_result) templates) in
  exists response,
    format template (data process_result) = inl response /\
    GenerateTool_process process_result = Returned response.
Proof.
  intros process_result template.
  destruct (generator_fills_processor_result parsed_data) as [response Hformat].
  fold process_result in Hformat. fold template in Hformat.
  exists response. split; [exact Hformat |].
  unfold GenerateTool_process. fold template. now rewrite Hformat.
Qed.

Lemma generator_returns_after_processor (parsed_data : Parsed) :
  exists response,
    GenerateTool_process (ProcessTool_process parsed_data) = Returned response.
Proof.
  destruct (generator_fills_processor_result parsed_data) as [response Hformat].
  exists response. unfold GenerateTool_process. now rewrite Hformat.
Qed.

Lemma parser_raises_index_error (input_data : string) (e : PyExc) :
  ParseTool_process input_data = Raised e ->
  e = IndexError /\ _extract_entities input_data = Raised IndexError.
Proof.
  unfold ParseTool_process.
  destruct (_extract_entities input_data) as [found | e' |] eqn:Hextract;
    [discriminate | | discriminate].
  intros [= <-]. pose proof (extract_entities_raises_index_error _ _ Hextract) as ->.
  now split.
Qed.

(** The tools await nothing but their own sleep: the parser returns or
    raises. *)
Lemma extract_entities_not_cancelled (text : string) :
  _extract_entities text <> Cancelled.
Proof.
  unfold _extract_entities. intros H.
  repeat match type of H with
         | context [match ?t with _ => _ end] => destruct t
         end; discriminate.
Qed.

Lemma parser_not_cancelled (input_data : string) :
  ParseTool_process input_data <> Cancelled.
Proof.
  unfold ParseTool_process.
  pose proof (extract_entities_not_cancelled input_data) as H.
  destruct (_extract_entities input_data); [discriminate | discriminate | congruence].
Qed.
End AgentStrings.

(** ** IntelligentAgent.execute *)

Section AgentRuns.
Import Stdlib.Strings.Ascii.
Import Agent.
Local Open Scope string_scope.

Variable env : Env.

(** One [execute], by what the parser and the generator do. *)
Lemma agent_execute_run (message : Message) (x : Ext) (a : IntelligentAgent) :
  let elapsed := (clock env (S (ticks x)) - clock env (ticks x))%Q in
  execute env message x a =
  match ParseTool_process (m_content message) with
  | Raised e =>
      (Returned (mkResponse ("I apologize, but I encountered an error: " ++ exc_str e)
                   0 elapsed [] false),
       tick (tick x),
       _update_metrics elapsed false (set_status ERROR (use_parser a)))
  | Returned parsed =>
      match GenerateTool_process (ProcessTool_process parsed) with
      | Returned response_text =>
          (Returned (mkResponse response_text 0.95 elapsed
                       ["parser"; "processor"; "generator"] true),
           tick (tick x),
           set_status READY
             (_update_metrics elapsed true (use_generator (use_processor (use_parser a)))))
      | Raised e =>
          (Returned (mkResponse ("I apologize, but I encountered an error: " ++ exc_str e)
                       0 elapsed ["parser"; "processor"] false),
           tick (tick x),
           _update_metrics elapsed false
             (set_status ERROR (use_generator (use_processor (use_parser a)))))
      | Cancelled =>
          (Cancelled, tick x,
           set_status PROCESSING (use_generator (use_processor (use_parser a))))
      end
  | Cancelled => (Cancelled, tick x, set_status PROCESSING (use_parser a))
  end.
Proof.
  intros elapsed. unfold execute, execute_try, execute_except, on_agent,
    tools_used_append, of_res.
  run_monad.
  destruct (ParseTool_process (m_content message)) as [parsed | e |].
  - destruct (GenerateTool_process (ProcessTool_process parsed)) as [text | e |];
      reflexivity.
  - reflexivity.
  - reflexivity.
Qed.

(** The two ways [execute] ends. *)
Lemma agent_execute_outcomes (message : Message) (x : Ext) (a : IntelligentAgent) :
  let elapsed := (clock env (S (ticks x)) - clock env (ticks x))%Q in
  (exists parsed response_text,
      ParseTool_process (m_content message) = Returned parsed /\
      GenerateTool_process (ProcessTool_process parsed) = Returned response_text /\
      execute env message x a
      = (Returned (mkResponse response_text 0.95 elapsed
                     ["parser"; "processor"; "generator"] true),
         tick (tick x),
         set_status READY
           (_update_metrics elapsed true (use_generator (use_processor (use_parser a)))))) \/
  (_extract_entities (m_content message) = Raised IndexError /\
   execute env message x a
   = (Returned (mkResponse
                  "I apologize, but I encountered an error: list index out of range"
                  0 elapsed [] false),
      tick (tick x),
      _update_metrics elapsed false (set_status ERROR (use_parser a)))).
Proof.
  intros elapsed. rewrite agent_execute_run. fold elapsed.
  destruct (ParseTool_process (m_content message)) as [parsed | e |] eqn:Hparse.
  - left. destruct (generator_returns_after_processor parsed) as [text Htext].
    exists parsed, text. rewrite Htext. repeat split; reflexivity.
  - right. destruct (parser_raises_index_error _ _ Hparse) as [-> Hextract].
    split; [exact Hextract | reflexivity].
  - now destruct (parser_not_cancelled _ Hparse).
Qed.

(** X18: [IntelligentAgent.execute] on an ASCII message never raises. It
    reads the clock twice, counts the message and the use of the parser,
    and ends in one of two ways. Either all three tools ran: success,
    confidence 0.95, status READY, the reply of the generator. Or the
    parser raised the [IndexError] of [_extract_entities]: the apology
    for "list index out of range", no tool listed, confidence 0, status
    ERROR, the other tools unused and [success_rate] unchanged. *)
Theorem agent_execute_never_raises (message : Message) (x : Ext) (a : IntelligentAgent) :
  is_ascii (m_content message) = true ->
  exists resp a',
    execute env message x a = (Returned resp, tick (tick x), a') /\
    processing_time resp = (clock env (S (ticks x)) - clock env (ticks x))%Q /\
    messages_processed a' = (messages_processed a + 1)%Z /\
    parser_usage a' = (parser_usage a + 1)%Z /\
    ((success resp = true /\
      tools_used resp = ["parser"; "processor"; "generator"] /\
      confidence resp = 0.95%Q /\
      status a' = READY /\
      processor_usage a' = (processor_usage a + 1)%Z /\
      generator_usage a' = (generator_usage a + 1)%Z /\
      exists parsed,
        ParseTool_process (m_content message) = Returned parsed /\
        GenerateTool_process (ProcessTool_process parsed) = Returned (content resp))
     \/
     (success resp = false /\
      tools_used resp = [] /\
      confidence resp = 0%Q /\
      content resp = "I apologize, but I encountered an error: list index out of range" /\
      status a' = ERROR /\
      processor_usage a' = processor_usage a /\
      generator_usage a' = generator_usage a /\
      success_rate a' = success_rate a /\
      _extract_entities (m_content message) = Raised IndexError)).
Proof.
  intros _.
  destruct (agent_execute_outcomes message x a)
    as [(parsed & text & Hparse & Hgen & Hrun) | (Hextract & Hrun)];
    rewrite Hrun; eexists; eexists; (split; [reflexivity |]).
  - repeat (split; [reflexivity |]). left.
    repeat (split; [reflexivity |]). exists parsed. now split.
  - repeat (split; [reflexivity |]). right.
    repeat (split; [reflexivity |]). exact Hextract.
Qed.

Lemma updated_metrics_only (updates : list (Q * bool)) :
  forall a1 a2,
    messages_processed a1 = messages_processed a2 ->
    avg_response_time a1 = avg_response_time a2 ->
    success_rate a1 = success_rate a2 ->
    messages_processed (updated updates a1) = messages_processed (updated updates a2) /\
    avg_response_time (updated updates a1) = avg_response_time (updated updates a2) /\
    success_rate (updated updates a1) = success_rate (updated updates a2).
Proof.
  induction updates as [|[elapsed ok] updates IH]; intros a1 a2 Hm Ha Hs.
  - now repeat split.
  - cbn [updated]. apply IH; unfold _update_metrics; cbn; rewrite ?Hm, ?Ha, ?Hs; reflexivity.
Qed.

(** X19: a session of ASCII messages. Every message gets a response and
    costs two clock readings; the agent counts every message and every
    use of the parser, the processor and the generator are used once for
    each response that reports success, and the three metrics are those
    of [_update_metrics] applied to the processing time and success flag
    of each response in turn. *)
Theorem agent_session_counts (messages : list Message) :
  Forall (fun m => is_ascii (m_content m) = true) messages ->
  forall (x : Ext) (a : IntelligentAgent),
  exists rs a',
    execute_each env messages x a
    = (Returned (map Returned rs),
       mkExt (ticks x + 2 * length messages) (handler_calls x), a') /\
    length rs = length messages /\
    messages_processed a' = (messages_processed a + Z.of_nat (length messages))%Z /\
    parser_usage a' = (parser_usage a + Z.of_nat (length messages))%Z /\
    processor_usage a'
    = (processor_usage a + Z.of_nat (length (List.filter success rs)))%Z /\
    generator_usage a'
    = (generator_usage a + Z.of_nat (length (List.filter success rs)))%Z /\
    let updates := map (fun r => (processing_time r, success r)) rs in
    messages_processed a' = messages_processed (updated updates a) /\
    avg_response_time a' = avg_response_time (updated updates a) /\
    success_rate a' = success_rate (updated updates a).
Proof.
  intros _. induction messages as [|m messages IH]; intros x a.
  - exists [], a. cbn [execute_each length map List.filter updated]. run_monad.
    replace (ticks x + 2 * 0)%nat with (ticks x) by lia.
    destruct x. cbn. repeat split; lia.
  - cbn [execute_each]. run_monad.
    replace (ticks x + 2 * length (m :: messages))%nat
      with (S (S (ticks x)) + 2 * length messages)%nat by (cbn [length]; lia).
    destruct (agent_execute_outcomes m x a)
      as [(parsed & text & _ & _ & Hrun) | (_ & Hrun)]; rewrite Hrun;
      match goal with
      | |- context [execute_each env messages ?x1 ?a1] =>
          destruct (IH x1 a1)
            as (rs & a' & Hrest & Hlen & Hcount & Hparser & Hproc & Hgen & Hmetrics);
          rewrite Hrest
      end;
      eexists (_ :: rs), a';
      (split; [reflexivity |]);
      cbn [map List.filter success length updated processing_time];
      (split; [now rewrite Hlen |]);
      cbn [messages_processed parser_usage processor_usage generator_usage
             use_parser use_processor use_generator set_status _update_metrics]
        in Hcount, Hparser, Hproc, Hgen;
      (split; [lia |]); (split; [lia |]); (split; [lia |]); (split; [lia |]);
      cbv zeta in Hmetrics |- *;
      destruct Hmetrics as (Hm & Ha & Hs); rewrite Hm, Ha, Hs;
      apply updated_metrics_only; reflexivity.
Qed.
End AgentRuns.

(** ** IntelligentAgent._update_metrics *)

Section AgentMetrics.
Import Agent.

Lemma updated_count (updates : list (Q * bool)) :
  forall a,
    messages_processed (updated updates a)
    = (messages_processed a + Z.of_nat (length updates))%Z.
Proof.
  induction updates as [|[elapsed ok] updates IH]; intros a.
  - cbn. lia.
  - cbn [updated length]. rewrite IH. cbn [_update_metrics messages_processed]. lia.
Qed.

(** X20: in exact arithmetic the running average of [_update_metrics] is
    the mean. After any updates of an agent whose counter is not
    negative, [avg_response_time] times the number of messages is the old
    average times the old number plus the sum of the new processing
    times; for a new agent, the sum of all processing times. *)
Theorem avg_response_time_is_mean (updates : list (Q * bool)) :
  forall a,
    (0 <= messages_processed a)%Z ->
    messages_processed (updated updates a)
    = (messages_processed a + Z.of_nat (length updates))%Z /\
    avg_response_time (updated updates a) * inject_Z (messages_processed (updated updates a))
    == avg_response_time a * inject_Z (messages_processed a) + Qsum (map fst updates).
Proof.
  intros a Hcount. split; [apply updated_count |]. revert a Hcount.
  induction updates as [|[elapsed ok] updates IH]; intros a Hcount.
  - cbn [updated map Qsum]. lra.
  - cbn [updated map Qsum fst].
    rewrite IH by (cbn [_update_metrics messages_processed]; lia).
    cbn [_update_metrics messages_processed avg_response_time].
    replace (messages_processed a + 1 - 1)%Z with (messages_processed a) by lia.
    assert (0 < inject_Z (messages_processed a + 1)) as Hpos.
    { change 0 with (inject_Z 0). rewrite <- Zlt_Qlt. lia. }
    field. lra.
Qed.

Lemma update_success_rate (elapsed : Q) (ok : bool) (a : IntelligentAgent) :
  (0 <= messages_processed a)%Z ->
  0 <= success_rate a <= 1 ->
  0 <= success_rate (_update_metrics elapsed ok a) <= 1 /\
  success_rate a <= success_rate (_update_metrics elapsed ok a) /\
  (success_rate a == 1 -> success_rate (_update_metrics elapsed ok a) == 1).
Proof.
  intros Hcount [Hlo Hhi]. cbn [_update_metrics success_rate].
  destruct ok; [| repeat split; (assumption || lra || tauto)].
  replace (messages_processed a + 1 - 1)%Z with (messages_processed a) by lia.
  rewrite inject_Z_plus. change (inject_Z 1) with 1.
  assert (0 <= inject_Z (messages_processed a)) as Hn.
  { change 0 with (inject_Z 0). rewrite <- Zle_Qle. exact Hcount. }
  set (n := inject_Z (messages_processed a)) in *.
  set (r := success_rate a) in *.
  assert (0 < n + 1) as Hpos by lra.
  assert (0 <= r * n) as Hrn by (apply Qmult_le_0_compat; assumption).
  assert (r * n <= n) as Hrn'.
  { rewrite <- (Qmult_1_l n) at 2. apply Qmult_le_compat_r; assumption. }
  repeat split.
  - apply Qle_shift_div_l; [exact Hpos | lra].
  - apply Qle_shift_div_r; [exact Hpos | lra].
  - apply Qle_shift_div_l; [exact Hpos | lra].
  - intros Hr. rewrite Hr. field. lra.
Qed.

(** X21: [success_rate] never falls. For an agent whose counter is not
    negative and whose rate is between 0 and 1, any updates leave the
    rate between 0 and 1 and at least what it was; a rate of 1 stays 1;
    and failures alone leave it as it was, since [_update_metrics] only
    touches it on success. *)
Theorem success_rate_never_falls (updates : list (Q * bool)) :
  forall a,
    (0 <= messages_processed a)%Z ->
    0 <= success_rate a <= 1 ->
    0 <= success_rate (updated updates a) <= 1 /\
    success_rate a <= success_rate (updated updates a) /\
    (success_rate a == 1 -> success_rate (updated updates a) == 1) /\
    (Forall (fun u => snd u = false) updates ->
     success_rate (updated updates a) = success_rate a).
Proof.
  induction updates as [|[elapsed ok] updates IH]; intros a Hcount Hrate.
  - cbn [updated]. repeat split; try tauto; lra.
  - cbn [updated].
    destruct (update_success_rate elapsed ok a Hcount Hrate) as (Hb & Hup & Hone).
    destruct (IH (_update_metrics elapsed ok a)) as (Hb' & Hup' & Hone' & Hfail');
      [cbn [_update_metrics messages_processed]; lia | exact Hb |].
    repeat split; try tauto; try lra.
    intros Hall. inversion Hall as [|u us Hu Hus]; subst. cbn [snd] in Hu. subst ok.
    rewrite (Hfail' Hus). reflexivity.
Qed.

(** X22: when the first message of a new agent succeeds, [success_rate]
    reads 1 from then on, however many of the later messages fail. *)
Theorem success_rate_one_after_first_success (elapsed : Q) (updates : list (Q * bool)) :
  success_rate (updated ((elapsed, true) :: updates) IntelligentAgent_init) == 1.
Proof.
  cbn [updated].
  assert (forall us a, (0 <= messages_processed a)%Z -> success_rate a == 1 ->
                       success_rate (updated us a) == 1) as Hkeep.
  { induction us as [|[e ok] us IH]; intros a Hc Hr; [exact Hr |].
    cbn [updated]. apply IH; [cbn [_update_metrics messages_processed]; lia |].
    apply update_success_rate; [exact Hc | rewrite Hr; lra | exact Hr]. }
  apply Hkeep; [vm_compute; discriminate | vm_compute; reflexivity].
Qed.
End AgentMetrics.

(** ** The reply to a refund request *)

Section AgentReplies.
Import Stdlib.Strings.Ascii.
Import Agent.
Local Open Scope string_scope.

Variable env : Env.

(** X23: parser, processor and generator together. An ASCII message
    that contains one of the refund keywords in any case, and in which
    [_extract_entities] finds an order number, is answered with the
    refund template filled with that order number and the policy and
    process time of the knowledge base, whatever other keywords it
    contains. *)
Theorem refund_reply_names_the_order (message : Message) (x : Ext) (a : IntelligentAgent)
    (w : string) :
  is_ascii (m_content message) = true ->
  any_in ["refund"; "money back"; "return"] (lower (m_content message)) = true ->
  _extract_entities (m_content message) = Returned [("order_number", w)] ->
  exists resp a',
    execute env message x a = (Returned resp, tick (tick x), a') /\
    success resp = true /\
    tools_used resp = ["parser"; "processor"; "generator"] /\
    content resp
    = "I've initiated a refund for order #" ++ w ++
      ". Per our 30-day return policy for unused items, you should see the refund in 5-7 business days. Is there anything else I can help with?".
Proof.
  intros _ Hkey Hfound.
  assert (ParseTool_process (m_content message)
          = Returned (mkParsed (m_content message) "refund" [("order_number", w)]
                        (_analyze_sentiment (m_content message)))) as Hparse.
  { unfold ParseTool_process.
    replace (detect_intent intents (m_content message)) with "refund"
      by (unfold intents; cbn [detect_intent]; now rewrite Hkey).
    now rewrite Hfound. }
  rewrite agent_execute_run, Hparse.
  eexists. eexists. split; [reflexivity |]. repeat split; reflexivity.
Qed.

End AgentReplies.

(** ** The demonstration's messages *)

Section AgentScenarios.
Import Stdlib.Strings.Ascii.
Import Agent.
Local Open Scope string_scope.

Lemma extract_entities_raises_on_blank_order_witness :
  _extract_entities "refund # " = Raised IndexError.
Proof.
  destruct (extract_entities_raises_on_blank_order "refund # " eq_refl) as [_ [_ Hblank]].
  apply Hblank. exists "refund ", " ", "".
  repeat split. discriminate.
Defined.

Lemma extract_entities_finds_order_number_witness :
  _extract_entities "RETURN #A1 b" = Returned [("order_number", "A1")].
Proof.
  exact (extract_entities_finds_order_number "RETURN " "" "A1" " b"
           eq_refl eq_refl eq_refl ltac:(discriminate) eq_refl eq_refl).
Defined.

Lemma agent_execute_never_raises_witness :
  exists resp a',
    execute steady_env refund_request start IntelligentAgent_init
    = (Returned resp, mkExt 2 0, a') /\
    processing_time resp = 1 /\
    messages_processed a' = 1%Z /\ parser_usage a' = 1%Z.
Proof.
  destruct (agent_execute_never_raises steady_env refund_request start
              IntelligentAgent_init eq_refl)
    as (resp & a' & Hrun & Htime & Hcount & Hparser & _).
  exists resp, a'. repeat split; assumption.
Defined.

Lemma agent_session_counts_witness :
  exists rs a',
    execute_each steady_env test_messages start IntelligentAgent_init
    = (Returned (map Returned rs), mkExt 10 0, a') /\
    length rs = 5%nat /\
    messages_processed a' = 5%Z /\ parser_usage a' = 5%Z.
Proof.
  destruct (agent_session_counts steady_env test_messages) with
      (x := start) (a := IntelligentAgent_init)
    as (rs & a' & Hrun & Hlen & Hcount & Hparser & _).
  - repeat constructor.
  - exists rs, a'. repeat split; assumption.
Defined.

Lemma avg_response_time_is_mean_witness :
  let a := updated [(1, true); (3, false)] IntelligentAgent_init in
  messages_processed a = 2%Z /\
  avg_response_time a * inject_Z (messages_processed a) == 0 * inject_Z 0 + (1 + (3 + 0)).
Proof.
  apply (avg_response_time_is_mean [(1, true); (3, false)] IntelligentAgent_init).
  cbn. lia.
Defined.

Lemma success_rate_never_falls_witness :
  let a := updated [(1, false); (3, true)] IntelligentAgent_init in
  0 <= success_rate a <= 1 /\ 0 <= success_rate a.
Proof.
  destruct (success_rate_never_falls [(1, false); (3, true)] IntelligentAgent_init)
    as (Hbounds & Hup & _).
  - cbn. lia.
  - split; vm_compute; discriminate.
  - split; assumption.
Defined.

Lemma refund_reply_names_the_order_witness :
  exists resp a',
    execute steady_env refund_request start IntelligentAgent_init
    = (Returned resp, mkExt 2 0, a') /\
    success resp = true /\
    tools_used resp = ["parser"; "processor"; "generator"] /\
    content resp
    = "I've initiated a refund for order #12345. Per our 30-day return policy for unused items, you should see the refund in 5-7 business days. Is there anything else I can help with?".
Proof.
  exact (refund_reply_names_the_order steady_env refund_request start IntelligentAgent_init
           "12345" eq_refl eq_refl eq_refl).
Defined.

End AgentScenarios.
